(** * Endpoint test orchestration and issue triage: a shallow embedding

    The development follows three scripts of the repository:

    - [scripts/analyze_results.py]: the issue triage engine
      ([IssueAnalyzer]);
    - [scripts/enhanced_api_smoke_test.py]: the HTTP client adapter, the
      destructive-operation classifier and the safety-gated executor
      ([HTTPClient], [EnhancedOpenAPIFetcher], [EnhancedAPITester]), first
      with the tests run one after another ([Smoke]), then as a pool of
      workers whose steps interleave ([Pool]);
    - [scripts/api_smoke_test.py]: the simple runner ([Simple]).

    Python strings are modelled as Rocq byte strings, Python integers as
    [Z], dictionaries used as maps as [gmap], dictionaries whose iteration
    order matters as association lists, exceptions as an error type. *)

From Stdlib Require Import ZArith String Ascii List Lia DecimalString DecimalPos.
From stdpp Require Import gmap strings list sorting.

Local Open Scope string_scope.
Local Open Scope Z_scope.

(** ** Python string operations *)

Module PyStr.

(** [c.lower()] and [c.upper()] on one character.  The letters A to Z and
    a to z are mapped as Python maps them; every other byte is kept, so
    the two functions are [str.lower] and [str.upper] on ASCII text
    ([PyText.is_ascii]).  Outside ASCII Python also maps other letters
    (the Kelvin sign to "k", the long s to "S"). *)
Definition lower_ascii (c : ascii) : ascii :=
  let n := nat_of_ascii c in
  if ((65 <=? n)%nat && (n <=? 90)%nat)%bool then ascii_of_nat (n + 32) else c.

Definition upper_ascii (c : ascii) : ascii :=
  let n := nat_of_ascii c in
  if ((97 <=? n)%nat && (n <=? 122)%nat)%bool then ascii_of_nat (n - 32) else c.

Fixpoint map_str (f : ascii -> ascii) (s : string) : string :=
  match s with
  | EmptyString => EmptyString
  | String c s' => String (f c) (map_str f s')
  end.

(** [s.lower()], [s.upper()] *)
Definition lower (s : string) : string := map_str lower_ascii s.
Definition upper (s : string) : string := map_str upper_ascii s.

(** [s.startswith(p)] *)
Definition startswith (s p : string) : bool := String.prefix p s.

(** [needle in s] *)
Fixpoint contains (needle s : string) : bool :=
  String.prefix needle s ||
  match s with
  | EmptyString => false
  | String _ s' => contains needle s'
  end.

(** [s.replace(old, new)] for a non-empty [old]: occurrences are replaced
    from left to right without overlap.  [skip] counts the characters of
    an occurrence that remain to be dropped. *)
Fixpoint replace_from (skip : nat) (old new s : string) : string :=
  match s with
  | EmptyString => EmptyString
  | String c s' =>
      match skip with
      | S k => replace_from k old new s'
      | O =>
          if String.prefix old s
          then new ++ replace_from (String.length old - 1) old new s'
          else String c (replace_from 0 old new s')
      end
  end.

(** [s.replace("", new)] puts [new] before every character and at the end. *)
Fixpoint intersperse (new s : string) : string :=
  match s with
  | EmptyString => new
  | String c s' => new ++ String c (intersperse new s')
  end.

Definition replace (s old new : string) : string :=
  match old with
  | EmptyString => intersperse new s
  | _ => replace_from 0 old new s
  end.

(** [s.split(sep)[0]] for a one-character separator. *)
Fixpoint split_head (sep : ascii) (s : string) : string :=
  match s with
  | EmptyString => EmptyString
  | String c s' => if Ascii.eqb c sep then EmptyString else String c (split_head sep s')
  end.

(** [s.rstrip(c)] for a one-character set. *)
Fixpoint rstrip (c : ascii) (s : string) : string :=
  match s with
  | EmptyString => EmptyString
  | String a s' =>
      match rstrip c s' with
      | EmptyString => if Ascii.eqb a c then EmptyString else String a EmptyString
      | r => String a r
      end
  end.

(** [str(n)] for an integer. *)
Definition of_nat (n : nat) : string := NilEmpty.string_of_uint (Nat.to_uint n).
Definition of_Z (z : Z) : string := NilEmpty.string_of_int (Z.to_int z).

(** Left padding with zeros up to [width], as in the format [{n:0Wd}]
    for a non-negative [n]. *)
Fixpoint zeros (k : nat) : string :=
  match k with
  | O => EmptyString
  | S k' => String "0" (zeros k')
  end.

Definition zfill (width : nat) (s : string) : string :=
  zeros (width - String.length s) ++ s.

(** Truth value of an optional string: [None] and [""] are false. *)
Definition truthy (o : option string) : bool :=
  match o with
  | Some (String _ _) => true
  | _ => false
  end.

End PyStr.

(** ** Python list sorting

    [l.sort(key=key, reverse=reverse)] is stable in both directions:
    elements with equal keys keep the order they had. *)

Module PyList.

(** [x] is inserted into [l], whose elements all came after [x] in the
    list being sorted: it goes behind those that must come first. *)
Fixpoint insert {A} (key : A -> Z) (reverse : bool) (x : A) (l : list A) : list A :=
  match l with
  | [] => [x]
  | y :: l' =>
      if (if reverse then key x <? key y else key y <? key x)
      then y :: insert key reverse x l'
      else x :: l
  end.

Definition sort {A} (key : A -> Z) (reverse : bool) (l : list A) : list A :=
  foldr (insert key reverse) [] l.

End PyList.

(** ** Python dictionaries *)

Module PyDict.

(** [d.get(key, default)], from the lookup of [key] in [d]. *)
Definition get {A} (field : option A) (default : A) : A :=
  match field with
  | Some v => v
  | None => default
  end.

End PyDict.

(** ** Exceptions *)

Inductive exn : Type :=
  | TypeError
  | AttributeError
  | ValueError (msg : string)
  | KeyError (key : string)
  | RecursionError (msg : string)
  | OSError (msg : string).

Inductive res (A : Type) : Type :=
  | Ok (a : A)
  | Raise (e : exn).
Arguments Ok {A} a.
Arguments Raise {A} e.

Definition res_bind {A B} (m : res A) (k : A -> res B) : res B :=
  match m with
  | Ok a => k a
  | Raise e => Raise e
  end.

Declare Scope res_scope.
Delimit Scope res_scope with res.
Notation "'try!' x ':=' m 'in' k" := (res_bind m (fun x => k))
  (at level 10, x name, m at level 100, k at level 200) : res_scope.

(** ** Calendar dates

    A date is a day number counted from 1970-01-01; [timedelta(days=n)] adds
    [n].  [strftime_ymd] is the format ['%Y-%m-%d']. *)

Module Calendar.

Definition civil_from_days (days : Z) : Z * Z * Z :=
  let z := days + 719468 in
  let era := z / 146097 in
  let doe := z - era * 146097 in
  let yoe := (doe - doe / 1460 + doe / 36524 - doe / 146096) / 365 in
  let doy := doe - (365 * yoe + yoe / 4 - yoe / 100) in
  let mp := (5 * doy + 2) / 153 in
  let d := doy - (153 * mp + 2) / 5 + 1 in
  let m := if mp <? 10 then mp + 3 else mp - 9 in
  let y := yoe + era * 400 + (if m <=? 2 then 1 else 0) in
  (y, m, d).

Definition strftime_ymd (days : Z) : string :=
  let '(y, m, d) := civil_from_days days in
  (PyStr.zfill 4 (PyStr.of_Z y) ++ "-" ++ PyStr.zfill 2 (PyStr.of_Z m)
     ++ "-" ++ PyStr.zfill 2 (PyStr.of_Z d))%string.

End Calendar.

(** ** The issue triage engine ([scripts/analyze_results.py]) *)

Module Analyze.

Local Open Scope res_scope.

(** One entry of the ['results'] array of a test report, as the analyzer
    reads it.  The keys read with [result[...]] are always there; the keys
    read with [result.get(...)] may be absent ([None] at the outer level),
    and when present hold a JSON [null] ([Some None]) or a value, as in
    the fields [Optional[int]] and [Optional[str]] of [TestResult]. *)
Record Result : Type := mkResult {
  r_status : string;
  r_service : string;
  r_endpoint : string;
  r_method : string;
  r_error_message : option (option string);
  r_http_status : option (option Z)
}.

Inductive Severity : Type := Critical | High | Medium | Low.

Inductive Priority : Type := P0 | P1 | P2 | P3.

Definition severity_label (s : Severity) : string :=
  match s with
  | Critical => "Critical"
  | High => "High"
  | Medium => "Medium"
  | Low => "Low"
  end.

Definition priority_label (p : Priority) : string :=
  match p with
  | P0 => "P0 - Critical"
  | P1 => "P1 - High"
  | P2 => "P2 - Medium"
  | P3 => "P3 - Low"
  end.

(** The dataclass [Issue]. *)
Record Issue : Type := mkIssue {
  i_id : string;
  i_type : string;
  i_service : string;
  i_endpoint : string;
  i_method : string;
  i_severity : Severity;
  i_description : string;
  i_error_message : string;
  i_http_status : option Z;
  i_file_location : string;
  i_code_location : string;
  i_suggested_fix : string;
  i_priority_score : Z;
  i_priority : Priority;
  i_assignee : string;
  i_estimated_effort : string;
  i_due_date : string
}.

(** The object state of an [IssueAnalyzer]: [__init__] loads
    [test_results] and sets [issues] to the empty list. *)
Record IssueAnalyzer : Type := mkAnalyzer {
  test_results : list Result;
  issues : list Issue
}.

Definition init (results : list Result) : IssueAnalyzer :=
  {| test_results := results; issues := [] |}.

(** [v >= n] for [v] an integer or [None]: ordering [None] against an
    integer raises [TypeError]. *)
Definition py_ge (v : option Z) (n : Z) : res bool :=
  match v with
  | Some z => Ok (n <=? z)
  | None => Raise TypeError
  end.

(** [v == n]: [None] is different from every integer. *)
Definition py_eq (v : option Z) (n : Z) : bool :=
  match v with
  | Some z => z =? n
  | None => false
  end.

(** [v.lower()] for [v] a string or [None]: [None] has no such method. *)
Definition py_lower (v : option string) : res string :=
  match v with
  | Some s => Ok (PyStr.lower s)
  | None => Raise AttributeError
  end.

Definition determine_severity (result : Result) : res Severity :=
  let http_status := PyDict.get (r_http_status result) (Some 0) in
  try! error_message := py_lower (PyDict.get (r_error_message result) (Some "")) in
  try! ge500 := py_ge http_status 500 in
  if ge500 then Ok Critical
  else
    try! ge400 := py_ge http_status 400 in
    if ge400 then Ok High
    else if PyStr.contains "timeout" error_message then Ok Medium
    else if PyStr.contains "connection" error_message then Ok High
    else if String.eqb (r_status result) "FAIL" then Ok Medium
    else Ok Low.

Definition service_file_map : gmap string string :=
  list_to_map
    [("sabnzbd", "app/api/sabnzbd"); ("sonarr", "app/api/sonarr");
     ("radarr", "app/api/radarr"); ("prowlarr", "app/api/prowlarr");
     ("readarr", "app/api/readarr")].

Definition find_file_location (service endpoint : string) : string :=
  let endpoint_path := PyStr.split_head "?"%char endpoint in
  let base_path := PyDict.get (service_file_map !! service) "" in
  if PyStr.truthy (Some base_path) then
    if PyStr.contains "/queue/" endpoint_path then base_path ++ "/queue/route.ts"
    else if PyStr.contains "/history/" endpoint_path then base_path ++ "/history/route.ts"
    else if PyStr.contains "/system/" endpoint_path then base_path ++ "/system/status/route.ts"
    else base_path ++ "/route.ts"
  else "Unknown location".

Definition suggest_fix (result : Result) : res string :=
  try! error_message := py_lower (PyDict.get (r_error_message result) (Some "")) in
  let http_status := PyDict.get (r_http_status result) (Some 0) in
  let service := r_service result in
  let endpoint := r_endpoint result in
  let loc := find_file_location service endpoint in
  Ok (if py_eq http_status 404 then
        "Check if endpoint exists and is properly routed in " ++ loc
      else if py_eq http_status 500 then
        "Check server-side error logs and exception handling in " ++ loc
      else if PyStr.contains "timeout" error_message then
        "Increase timeout or optimize endpoint performance in " ++ loc
      else if PyStr.contains "connection" error_message then
        "Check " ++ service ++ " backend service connectivity and configuration"
      else if PyStr.contains "authentication" error_message then
        "Verify API key and authentication implementation in " ++ loc
      else if PyStr.contains "validation" error_message then
        "Add proper input validation and error handling in " ++ loc
      else
        "Review endpoint implementation and error handling in " ++ loc).

Definition severity_scores (s : Severity) : Z :=
  match s with
  | Critical => 100
  | High => 75
  | Medium => 50
  | Low => 25
  end.

Definition calculate_priority_score
    (service endpoint : string) (severity : Severity) (error_message : string) : Z :=
  let score := 0 in
  let score := score + severity_scores severity in
  let score := if PyStr.contains "queue" (PyStr.lower endpoint) then score + 20 else score in
  let score := if PyStr.contains "series" (PyStr.lower endpoint) then score + 15 else score in
  let score := if PyStr.contains "history" (PyStr.lower endpoint) then score + 10 else score in
  let score := if PyStr.contains "timeout" (PyStr.lower error_message) then score + 10 else score in
  let score := if PyStr.contains "connection" (PyStr.lower error_message) then score + 15 else score in
  Z.min score 100.

Definition score_to_priority (score : Z) : Priority :=
  if 80 <=? score then P0
  else if 60 <=? score then P1
  else if 40 <=? score then P2
  else P3.

Definition determine_assignee (service : string) (severity : Severity) : string :=
  if String.eqb service "sabnzbd" then "Backend Team - SABnzbd Specialist"
  else if String.eqb service "sonarr" then "Backend Team - Sonarr Specialist"
  else match severity with
       | Critical => "Senior Backend Developer"
       | High => "Backend Developer"
       | _ => "Backend Team - General"
       end.

Definition base_effort (s : Severity) : Z :=
  match s with
  | Critical => 8
  | High => 4
  | Medium => 2
  | Low => 1
  end.

(** The text of the float [effort * (tenths / 10)]; for the four base
    efforts and the factors 1.2 and 1.5 it is the text Python prints. *)
Definition scaled_text (effort tenths : Z) : string :=
  let t := effort * tenths in
  PyStr.of_Z (t / 10) ++ "." ++ PyStr.of_Z (t mod 10).

Definition estimate_effort (severity : Severity) (error_message : string) : string :=
  let effort := base_effort severity in
  if PyStr.contains "timeout" (PyStr.lower error_message) then
    scaled_text effort 12 ++ "h"
  else if PyStr.contains "connection" (PyStr.lower error_message) then
    scaled_text effort 15 ++ "h"
  else PyStr.of_Z effort ++ "h".

Definition base_turnaround (p : Priority) : Z :=
  match p with
  | P0 => 1
  | P1 => 3
  | P2 => 7
  | P3 => 14
  end.

(** [today] is the calendar day of [datetime.now()]. *)
Definition calculate_due_date (today : Z) (priority : Priority) : string :=
  let days := base_turnaround priority in
  let due_date := today + days in
  Calendar.strftime_ymd due_date.

Definition create_issue (today : Z) (result : Result) (issue_id : Z) : res Issue :=
  let service := r_service result in
  let endpoint := r_endpoint result in
  let method := r_method result in
  let error_message := PyDict.get (r_error_message result) (Some "") in
  let http_status := PyDict.get (r_http_status result) None in
  try! severity := determine_severity result in
  let file_location := find_file_location service endpoint in
  try! suggested_fix := suggest_fix result in
  try! error_text := match error_message with
                     | Some s => Ok s
                     | None => Raise AttributeError
                     end in
  let priority_score := calculate_priority_score service endpoint severity error_text in
  let priority := score_to_priority priority_score in
  let assignee := determine_assignee service severity in
  let estimated_effort := estimate_effort severity error_text in
  let due_date := calculate_due_date today priority in
  Ok {| i_id := "ISSUE-" ++ PyStr.zfill 3 (PyStr.of_Z issue_id);
        i_type := "Failing Endpoint";
        i_service := service;
        i_endpoint := endpoint;
        i_method := method;
        i_severity := severity;
        i_description := "Endpoint " ++ endpoint ++ " failed with " ++ method ++ " method";
        i_error_message := error_text;
        i_http_status := http_status;
        i_file_location := file_location;
        i_code_location := file_location ++ ":endpoint_handler";
        i_suggested_fix := suggested_fix;
        i_priority_score := priority_score;
        i_priority := priority;
        i_assignee := assignee;
        i_estimated_effort := estimated_effort;
        i_due_date := due_date |}.

(** [self.issues.sort(key=lambda x: x.priority_score, reverse=True)] *)
Definition prioritize_issues (l : list Issue) : list Issue :=
  PyList.sort i_priority_score true l.

(** The loop of [analyze_results]: every appended issue is in
    [self.issues] at once, also when a later result raises. *)
Fixpoint analyze_loop (today : Z) (results : list Result) (issue_id : Z)
    (acc : list Issue) : res unit * list Issue :=
  match results with
  | [] => (Ok tt, acc)
  | result :: rest =>
      if String.eqb (r_status result) "FAIL" then
        match create_issue today result issue_id with
        | Ok issue => analyze_loop today rest (issue_id + 1) (acc ++ [issue])%list
        | Raise e => (Raise e, acc)
        end
      else analyze_loop today rest issue_id acc
  end.

(** [analyze_results] on the analyzer [self]: the value returned (the
    list [self.issues] after the call) and the analyzer afterwards. *)
Definition analyze_results (today : Z) (self : IssueAnalyzer)
    : res (list Issue) * IssueAnalyzer :=
  match analyze_loop today (test_results self) 1 (issues self) with
  | (Ok _, acc) =>
      let sorted := prioritize_issues acc in
      (Ok sorted, {| test_results := test_results self; issues := sorted |})
  | (Raise e, acc) =>
      (Raise e, {| test_results := test_results self; issues := acc |})
  end.

End Analyze.

(** ** The smoke test runner ([scripts/enhanced_api_smoke_test.py]) *)

Module Smoke.

(** JSON values, for request bodies. *)
#[local] Set Warnings "-register-all".
Inductive json : Type :=
  | JNull
  | JBool (b : bool)
  | JInt (n : Z)
  | JStr (s : string)
  | JList (l : list json)
  | JDict (d : list (string * json)).

(** A value of [path_params]: a string, or an integer from a
    configuration file. *)
Inductive param : Type :=
  | PStr (s : string)
  | PInt (n : Z).

(** [str(value)] *)
Definition param_str (v : param) : string :=
  match v with
  | PStr s => s
  | PInt n => PyStr.of_Z n
  end.

(** The dataclass [EndpointConfig] (its field [tests] is read nowhere). *)
Record EndpointConfig : Type := mkConfig {
  c_name : string;
  c_path : string;
  c_method : string;
  c_description : string;
  c_destructive : bool;
  c_safe_mode : string;
  c_path_params : option (list (string * param));
  c_query_params : option (list (string * string));
  c_headers : option (list (string * string));
  c_body : option (list (string * json));
  c_expected_status : Z
}.

(** [EndpointConfig(name=..., path=..., method=..., description=...)] with
    the defaults of the dataclass. *)
Definition default_config (name path method description : string) : EndpointConfig :=
  {| c_name := name; c_path := path; c_method := method;
     c_description := description; c_destructive := false;
     c_safe_mode := "mock"; c_path_params := None; c_query_params := None;
     c_headers := None; c_body := None; c_expected_status := 200 |}.

Inductive Status : Type := PASS | FAIL | SKIPPED.

(** The dataclass [TestResult]. *)
Record TestResult : Type := mkTestResult {
  t_service : string;
  t_endpoint : string;
  t_method : string;
  t_test_name : string;
  t_status : Status;
  t_http_status : option Z;
  t_error_message : option string;
  t_elapsed_ms : Z;
  t_request_body : option string;
  t_response_body : option string;
  t_validation_results : list (string * bool);
  t_safety_notes : option string
}.

(** What [urllib.request.urlopen] is given: the request object with the
    headers added to it, and the body. *)
Record Request : Type := mkRequest {
  req_url : string;
  req_method : string;
  req_headers : list (string * string);
  req_data : option string;
  req_timeout : Z
}.

(** The dictionary [HTTPClient.request] returns. *)
Record Response : Type := mkResponse {
  resp_status_code : option Z;
  resp_headers : list (string * string);
  resp_body : string;
  resp_elapsed_ms : Z;
  resp_error : option string
}.

(** Library functions and the network, as the runner sees them:
    [json.dumps], whether [json.loads] accepts a text, [urlencode],
    whether [urllib.request.Request] accepts a URL (it raises
    [ValueError] otherwise), the outcome of [urlopen] for a request given
    the requests sent before it, and the identifier that
    [_fetch_real_id] finds in the body of a successful answer. *)
Record Env : Type := mkEnv {
  json_dumps : list (string * json) -> string;
  json_loads_ok : string -> bool;
  urlencode : list (string * string) -> string;
  url_ok : string -> bool;
  urlopen : list Request -> Request -> Response;
  extract_id : string -> string -> option string
}.

(** What changes while tests run: the cache of [MediaIDFetcher], the
    requests sent so far, and the clock in milliseconds, which advances
    across network calls only. *)
Record World : Type := mkWorld {
  id_cache : gmap string string;
  sent : list Request;
  clock : Z
}.

Record HTTPClient : Type := mkClient {
  base_url : string;
  timeout : Z;
  headers : list (string * string)
}.

(** [self.headers.setdefault("Accept", ...)] *)
Fixpoint setdefault (k v : string) (d : list (string * string)) : list (string * string) :=
  match d with
  | [] => [(k, v)]
  | (k', v') :: d' => if String.eqb k' k then d else (k', v') :: setdefault k v d'
  end.

Definition HTTPClient_init (base : string) (tmo : Z)
    (hdrs : option (list (string * string))) : HTTPClient :=
  {| base_url := PyStr.rstrip "/"%char base;
     timeout := tmo;
     headers := setdefault "Accept" "application/json, */*;q=0.1"
                  (match hdrs with Some (h :: t) => h :: t | _ => [] end) |}.

(** Truth value of an optional dictionary: [None] and [{}] are false. *)
Definition truthy_dict {A} (d : option (list A)) : bool :=
  match d with
  | Some (_ :: _) => true
  | _ => false
  end.

(** [HTTPClient.request] up to the call of [urlopen]: the request that is
    sent. *)
Definition prepare (E : Env) (self : HTTPClient) (method endpoint : string)
    (params : option (list (string * string))) (data : option string)
    (json_data : option (list (string * json))) : res Request :=
  let url := base_url self ++ endpoint in
  let url := match params with
             | Some (p :: ps) => url ++ "?" ++ urlencode E (p :: ps)
             | _ => url
             end in
  if negb (url_ok E url) then Raise (ValueError ("unknown url type: '" ++ url ++ "'"))
  else
    let hdrs := headers self in
    let json_branch :=
      (String.eqb (PyStr.upper method) "POST" || String.eqb (PyStr.upper method) "PUT")
      && truthy_dict json_data in
    let hdrs := if json_branch then (hdrs ++ [("Content-Type", "application/json")])%list else hdrs in
    let data := if json_branch
                then match json_data with
                     | Some d => Some (json_dumps E d)
                     | None => data
                     end
                else data in
    Ok {| req_url := url; req_method := PyStr.upper method; req_headers := hdrs;
          req_data := data; req_timeout := timeout self |}.

Definition request (E : Env) (self : HTTPClient) (method endpoint : string)
    (params : option (list (string * string))) (data : option string)
    (json_data : option (list (string * json))) (w : World) : res Response * World :=
  match prepare E self method endpoint params data json_data with
  | Raise e => (Raise e, w)
  | Ok req =>
      let response := urlopen E (sent w) req in
      (Ok response,
       {| id_cache := id_cache w;
          sent := (sent w ++ [req])%list;
          clock := clock w + resp_elapsed_ms response |})
  end.

(** *** [ResponseValidator] *)

Definition _validate_status_code (response : Response) (expected_code : Z) : bool :=
  match resp_status_code response with
  | Some code => code =? expected_code
  | None => false
  end.

(** [json.loads] accepts the body or raises [JSONDecodeError]; another
    exception from it is not caught ([Pool._validate_json_format]). *)
Definition _validate_json_format (E : Env) (response : Response) (expected_format : bool) : bool :=
  if negb expected_format then true else json_loads_ok E (resp_body response).

Definition _validate_response_time (response : Response) (max_time_ms : Z) : bool :=
  resp_elapsed_ms response <=? max_time_ms.

(** [validate] on the expectations that [run_test] passes. *)
Definition validate (E : Env) (response : Response) (status_code : Z)
    (json_format : bool) (response_time : Z) : list (string * bool) :=
  [("status_code", _validate_status_code response status_code);
   ("json_format", _validate_json_format E response json_format);
   ("response_time", _validate_response_time response response_time)].

(** *** [EnhancedOpenAPIFetcher._is_destructive_operation] *)

(** The keys of an operation object that the classifier reads; a key may
    be absent. *)
Record Operation : Type := mkOperation {
  operationId : option string;
  tags : option (list string)
}.

Definition destructive_patterns : list string :=
  ["/delete"; "/remove"; "/pause"; "/resume"; "/cancel"; "/stop"; "/kill";
   "/reset"; "/clear"].

Definition destructive_keywords : list string :=
  ["delete"; "remove"; "pause"; "resume"; "cancel"; "stop"; "kill"; "reset";
   "clear"; "disable"; "shutdown"].

Definition destructive_tags : list string := ["destructive"; "admin"; "system"].

Definition _is_destructive_operation (method path : string) (method_data : Operation) : bool :=
  if String.eqb (PyStr.lower method) "delete" then true
  else if existsb (fun pattern => PyStr.contains pattern (PyStr.lower path)) destructive_patterns
  then true
  else
    let operation_id := PyStr.lower (PyDict.get (operationId method_data) "") in
    if existsb (fun keyword => PyStr.contains keyword operation_id) destructive_keywords
    then true
    else
      let tags := PyDict.get (tags method_data) [] in
      if existsb (fun tag => existsb (String.eqb (PyStr.lower tag)) destructive_tags) tags
      then true
      else false.

(** *** [MediaIDFetcher] *)

Definition id_endpoints : gmap string string :=
  list_to_map
    [("sabnzbd", "/api/sabnzbd/queue"); ("sonarr", "/api/sonarr/series");
     ("radarr", "/api/radarr/movies"); ("prowlarr", "/api/prowlarr/applications");
     ("readarr", "/api/readarr/author");
     ("readarr_audiobooks", "/api/readarr-audiobooks/book")].

Definition fallback_ids : gmap string string :=
  list_to_map
    [("sabnzbd", "test_nzo_123"); ("sonarr", "test_series_123");
     ("radarr", "test_movie_123"); ("prowlarr", "test_app_123");
     ("readarr", "test_author_123"); ("readarr_audiobooks", "test_author_123")].

(** Every exception raised inside [_fetch_real_id] is caught there and
    gives [None]. *)
Definition _fetch_real_id (E : Env) (client : HTTPClient) (service : string) (w : World)
    : option string * World :=
  match id_endpoints !! service with
  | None => (None, w)
  | Some endpoint =>
      match request E client "GET" endpoint None None None w with
      | (Raise _, w') => (None, w')
      | (Ok response, w') =>
          if PyStr.truthy (resp_error response) then (None, w')
          else match resp_status_code response with
               | Some 200 => (extract_id E service (resp_body response), w')
               | _ => (None, w')
               end
      end
  end.

Definition get_id_for_service (E : Env) (client : HTTPClient) (service : string) (w : World)
    : string * World :=
  match id_cache w !! service with
  | Some cached => (cached, w)
  | None =>
      let '(real_id, w') := _fetch_real_id E client service w in
      if PyStr.truthy real_id then
        match real_id with
        | Some i =>
            (i, {| id_cache := <[service := i]> (id_cache w');
                   sent := sent w'; clock := clock w' |})
        | None => (PyDict.get (fallback_ids !! service) "test_id_123", w')
        end
      else (PyDict.get (fallback_ids !! service) "test_id_123", w')
  end.

(** *** [EnhancedAPITester] *)

Record EnhancedAPITester : Type := mkTester {
  safe_mode : bool;
  http_client : HTTPClient;
  endpoint_configs : list EndpointConfig;
  test_results : list TestResult
}.

Definition extract_service_from_path (path : string) : string :=
  if PyStr.contains "/sabnzbd/" path then "sabnzbd"
  else if PyStr.contains "/sonarr/" path then "sonarr"
  else if PyStr.contains "/radarr/" path then "radarr"
  else if PyStr.contains "/prowlarr/" path then "prowlarr"
  else if PyStr.contains "/readarr/" path then "readarr"
  else if PyStr.contains "/readarr-audiobooks/" path then "readarr_audiobooks"
  else "unknown".

(** The loop of [run_test] over [path_params.items()]. *)
Fixpoint substitute (E : Env) (client : HTTPClient) (service : string)
    (path_params : list (string * param)) (endpoint_path : string) (w : World)
    : string * World :=
  match path_params with
  | [] => (endpoint_path, w)
  | (key, value) :: rest =>
      let placeholder := "{" ++ key ++ "}" in
      match value with
      | PStr s =>
          if PyStr.startswith s "test_" then
            let '(real_id, w') := get_id_for_service E client service w in
            substitute E client service rest
              (PyStr.replace endpoint_path placeholder real_id) w'
          else
            substitute E client service rest
              (PyStr.replace endpoint_path placeholder (param_str value)) w
      | PInt _ =>
          substitute E client service rest
            (PyStr.replace endpoint_path placeholder (param_str value)) w
      end
  end.

(** The text ['{"message": "Destructive operation mocked for safety"}']. *)
Definition mock_response_body : string :=
  let q := String "034"%char EmptyString in
  "{" ++ q ++ "message" ++ q ++ ": " ++ q
    ++ "Destructive operation mocked for safety" ++ q ++ "}".

Definition request_body_of (E : Env) (config : EndpointConfig) : option string :=
  match c_body config with
  | Some (kv :: d) => Some (json_dumps E (kv :: d))
  | _ => None
  end.

(** The part of [run_test] after the safety checks: the live request. *)
Definition run_live (E : Env) (self : EnhancedAPITester) (config : EndpointConfig)
    (service : string) (start_time : Z) (w : World) : res TestResult * World :=
  let path_params := PyDict.get (c_path_params config) [] in
  let '(endpoint_path, w1) :=
    substitute E (http_client self) service path_params (c_path config) w in
  match request E (http_client self) (c_method config) endpoint_path
          (c_query_params config) None (c_body config) w1 with
  | (Raise e, w2) => (Raise e, w2)
  | (Ok response, w2) =>
      let validation_results :=
        validate E response (c_expected_status config) true 10000 in
      let '(status, error_message) :=
        if PyStr.truthy (resp_error response) then (FAIL, resp_error response)
        else if forallb snd validation_results then (PASS, None)
        else (FAIL, Some "Validation failed") in
      let elapsed_ms := clock w2 - start_time in
      (Ok {| t_service := service;
             t_endpoint := endpoint_path;
             t_method := c_method config;
             t_test_name := c_name config;
             t_status := status;
             t_http_status := resp_status_code response;
             t_error_message := error_message;
             t_elapsed_ms := elapsed_ms;
             t_request_body := request_body_of E config;
             t_response_body := Some (resp_body response);
             t_validation_results := validation_results;
             t_safety_notes := None |}, w2)
  end.

Definition run_test (E : Env) (self : EnhancedAPITester) (config : EndpointConfig)
    (w : World) : res TestResult * World :=
  let start_time := clock w in
  let service := extract_service_from_path (c_path config) in
  if safe_mode self && c_destructive config then
    if String.eqb (c_safe_mode config) "mock" then
      let elapsed_ms := clock w - start_time in
      (Ok {| t_service := service;
             t_endpoint := c_path config;
             t_method := c_method config;
             t_test_name := c_name config;
             t_status := SKIPPED;
             t_http_status := Some 200;
             t_error_message := None;
             t_elapsed_ms := elapsed_ms;
             t_request_body := request_body_of E config;
             t_response_body := Some mock_response_body;
             t_validation_results := [];
             t_safety_notes := Some "Mocked in safe mode" |}, w)
    else if String.eqb (c_safe_mode config) "skip" then
      let elapsed_ms := clock w - start_time in
      (Ok {| t_service := service;
             t_endpoint := c_path config;
             t_method := c_method config;
             t_test_name := c_name config;
             t_status := SKIPPED;
             t_http_status := None;
             t_error_message := None;
             t_elapsed_ms := elapsed_ms;
             t_request_body := None;
             t_response_body := None;
             t_validation_results := [];
             t_safety_notes := Some "Skipped in safe mode" |}, w)
    else run_live E self config service start_time w
  else run_live E self config service start_time w.

(** [str(e)] *)
Definition exn_text (e : exn) : string :=
  match e with
  | ValueError msg => msg
  | TypeError => "TypeError"
  | AttributeError => "AttributeError"
  | KeyError key => "'" ++ key ++ "'"
  | RecursionError msg => msg
  | OSError msg => msg
  end.

(** The result recorded for a future that raised. *)
Definition runner_exception (e : exn) : TestResult :=
  {| t_service := "unknown"; t_endpoint := "unknown"; t_method := "unknown";
     t_test_name := "unknown"; t_status := FAIL; t_http_status := None;
     t_error_message := Some ("Runner exception: " ++ exn_text e);
     t_elapsed_ms := 0; t_request_body := None; t_response_body := None;
     t_validation_results := []; t_safety_notes := None |}.

(** The futures complete in the order [completed], a list of positions
    in [endpoint_configs]; each test is run as one step, and its result is
    appended to [self.test_results] when it completes.  This is the loop
    with the workers running one after another and with
    [print_test_result] returning; [Pool] below interleaves the steps of
    the workers and lets printing raise. *)
Fixpoint collect (E : Env) (self : EnhancedAPITester) (completed : list nat)
    (acc : list TestResult) (w : World) : list TestResult * World :=
  match completed with
  | [] => (acc, w)
  | i :: rest =>
      match endpoint_configs self !! i with
      | None => collect E self rest acc w
      | Some config =>
          match run_test E self config w with
          | (Ok result, w') => collect E self rest (acc ++ [result])%list w'
          | (Raise e, w') => collect E self rest (acc ++ [runner_exception e])%list w'
          end
      end
  end.

(** The outcome [result] belongs to the case at position [i] of the
    catalog: it carries the path and the name of that case. *)
Definition belongs (self : EnhancedAPITester) (i : nat) (result : TestResult) : Prop :=
  exists c, endpoint_configs self !! i = Some c
            /\ t_endpoint result = c_path c /\ t_test_name result = c_name c.

(** [{config.path: i for i, config in enumerate(self.endpoint_configs)}]:
    a later entry with the same path replaces an earlier one. *)
Fixpoint order_from (i : Z) (configs : list EndpointConfig) (order : gmap string Z)
    : gmap string Z :=
  match configs with
  | [] => order
  | config :: rest => order_from (i + 1) rest (<[c_path config := i]> order)
  end.

Definition run_all_tests (E : Env) (self : EnhancedAPITester) (completed : list nat)
    (w : World) : list TestResult * World :=
  let '(results, w') := collect E self completed (test_results self) w in
  let order := order_from 0 (endpoint_configs self) ∅ in
  (PyList.sort (fun r => PyDict.get (order !! t_endpoint r) (10 ^ 9)) false results, w').

End Smoke.

(** ** The severity rules in the words of the specification *)

Module Spec.

Import Analyze.

(** First matching rule wins: HTTP status at least 500 is Critical; at
    least 400 is High; an error message that mentions "timeout" is
    Medium; one that mentions "connection" is High; any other failure is
    Medium. *)
Definition severity_rule (http_status : Z) (error_message : string) : Severity :=
  if 500 <=? http_status then Critical
  else if 400 <=? http_status then High
  else if PyStr.contains "timeout" (PyStr.lower error_message) then Medium
  else if PyStr.contains "connection" (PyStr.lower error_message) then High
  else Medium.

(** The mutating keywords that the classifier looks for in a path. *)
Definition mutating_keywords : list string :=
  ["delete"; "remove"; "pause"; "resume"; "cancel"; "stop"; "kill"; "reset"; "clear"].

End Spec.

(** ** Concrete inputs

    Outcomes, catalog entries and an environment on which the definitions
    are evaluated below. *)

Module Samples.

Import Analyze Smoke.

(** 2026-11-03 as a day number. *)
Definition a_day : Z := 20760.

(** A server error on a queue endpoint. *)
Definition outcome_500 : Result :=
  {| r_status := "FAIL"; r_service := "sonarr";
     r_endpoint := "/api/sonarr/queue/123"; r_method := "GET";
     r_error_message := Some (Some "Internal Server Error");
     r_http_status := Some (Some 500) |}.

(** A transport failure as the runner reports it: [http_status] is there
    and is [null]. *)
Definition outcome_refused_null : Result :=
  {| r_status := "FAIL"; r_service := "radarr";
     r_endpoint := "/api/radarr/movie"; r_method := "GET";
     r_error_message := Some (Some "connection refused");
     r_http_status := Some None |}.

(** The same failure in a report without the key [http_status]. *)
Definition outcome_refused : Result :=
  {| r_status := "FAIL"; r_service := "radarr";
     r_endpoint := "/api/radarr/movie"; r_method := "GET";
     r_error_message := Some (Some "connection refused");
     r_http_status := None |}.

(** A failure whose message names both a connection and a timeout. *)
Definition outcome_connection_timeout : Result :=
  {| r_status := "FAIL"; r_service := "radarr";
     r_endpoint := "/api/radarr/movie"; r_method := "GET";
     r_error_message := Some (Some "connection timeout");
     r_http_status := None |}.

Definition outcome_404 : Result :=
  {| r_status := "FAIL"; r_service := "radarr";
     r_endpoint := "/api/radarr/movie"; r_method := "GET";
     r_error_message := Some (Some "Not Found");
     r_http_status := Some (Some 404) |}.

Definition outcome_pass : Result :=
  {| r_status := "PASS"; r_service := "radarr";
     r_endpoint := "/api/radarr/movie"; r_method := "GET";
     r_error_message := Some None;
     r_http_status := Some (Some 200) |}.

(** Nothing listens: every request is refused after 3 ms. *)
Definition refused : Response :=
  {| resp_status_code := None; resp_headers := []; resp_body := "";
     resp_elapsed_ms := 3;
     resp_error := Some "URLError: [Errno 111] Connection refused" |}.

(** A stand-in for [json.dumps] that lists the keys. *)
Definition dumps_keys (d : list (string * json)) : string :=
  "{" ++ String.concat ", " (map fst d) ++ "}".

(** A stand-in for [urlencode]. *)
Definition encode_pairs (d : list (string * string)) : string :=
  String.concat "&" (map (fun kv => fst kv ++ "=" ++ snd kv) d).

Definition offline : Env :=
  {| json_dumps := dumps_keys;
     json_loads_ok := fun body => negb (String.eqb body "");
     urlencode := encode_pairs;
     url_ok := fun url => PyStr.startswith url "http";
     urlopen := fun _ _ => refused;
     extract_id := fun _ _ => None |}.

Definition client : HTTPClient := HTTPClient_init "http://localhost:3000" 10 None.

Definition fresh_world : World := {| id_cache := ∅; sent := []; clock := 0 |}.

(** Entries of [get_default_endpoint_configs]. *)
Definition get_sabnzbd_queue_item : EndpointConfig :=
  {| c_name := "Get SABnzbd Queue Item"; c_path := "/api/sabnzbd/queue/{nzoId}";
     c_method := "GET"; c_description := "Get specific queue item";
     c_destructive := false; c_safe_mode := "mock";
     c_path_params := Some [("nzoId", PStr "test_nzo_123")];
     c_query_params := None; c_headers := None; c_body := None;
     c_expected_status := 200 |}.

Definition pause_sabnzbd_queue : EndpointConfig :=
  {| c_name := "Pause SABnzbd Queue"; c_path := "/api/sabnzbd/queue/pause";
     c_method := "POST"; c_description := "Pause entire download queue";
     c_destructive := true; c_safe_mode := "mock";
     c_path_params := None; c_query_params := None; c_headers := None;
     c_body := None; c_expected_status := 200 |}.

(** The base cases of [get_default_endpoint_configs]. *)
Definition default_base_cases : list EndpointConfig :=
  [default_config "Get SABnzbd Base" "/api/sabnzbd" "GET" "Get SABnzbd base information";
   default_config "Get Sonarr Base" "/api/sonarr" "GET" "Get Sonarr base information";
   default_config "Get Radarr Base" "/api/radarr" "GET" "Get Radarr base information";
   default_config "Get Prowlarr Base" "/api/prowlarr" "GET" "Get Prowlarr base information";
   default_config "Get Readarr Base" "/api/readarr" "GET" "Get Readarr base information";
   default_config "Get Readarr Audiobooks Base" "/api/readarr-audiobooks" "GET"
     "Get Readarr Audiobooks base information"].

(** Two entries of a configuration file with one path and two methods,
    and the same pair with a safety mode for the second. *)
Definition list_series : EndpointConfig :=
  default_config "List Series" "/api/sonarr/series" "GET" "List all series".

Definition add_series : EndpointConfig :=
  {| c_name := "Add Series"; c_path := "/api/sonarr/series"; c_method := "POST";
     c_description := "Add a series"; c_destructive := false; c_safe_mode := "allow";
     c_path_params := None; c_query_params := None; c_headers := None;
     c_body := Some [("title", JStr "Example")]; c_expected_status := 200 |}.

Definition skip_series : EndpointConfig :=
  {| c_name := "Delete Series"; c_path := "/api/sonarr/series/{id}"; c_method := "DELETE";
     c_description := "Delete a series"; c_destructive := true; c_safe_mode := "skip";
     c_path_params := Some [("id", PStr "test_series_123")];
     c_query_params := None; c_headers := None; c_body := None;
     c_expected_status := 200 |}.

Definition tester (safe : bool) (configs : list EndpointConfig) : EnhancedAPITester :=
  {| safe_mode := safe; http_client := client; endpoint_configs := configs;
     test_results := [] |}.

End Samples.


(** ** More Python string operations *)

Module PyText.

(** [s.lstrip(c)] for a one-character set. *)
Fixpoint lstrip (c : ascii) (s : string) : string :=
  match s with
  | EmptyString => EmptyString
  | String a s' => if Ascii.eqb a c then lstrip c s' else s
  end.

(** [s[n:]] *)
Fixpoint drop (n : nat) (s : string) : string :=
  match n, s with
  | O, _ => s
  | S n', String _ s' => drop n' s'
  | S _, EmptyString => EmptyString
  end.

(** [s.isascii()]: every character is below 128. *)
Fixpoint is_ascii (s : string) : bool :=
  match s with
  | EmptyString => true
  | String c s' => (nat_of_ascii c <? 128)%nat && is_ascii s'
  end.

(** [int(s)] for a text of decimal digits. *)
Definition to_Z (s : string) : option Z :=
  match NilEmpty.uint_of_string s with
  | Some d => Some (Z.of_uint d)
  | None => None
  end.

End PyText.

(** ** Reports ([ReportGenerator] of both scripts, and the hand-over of the
    runner's report to the analyzer) *)

Module Report.

(** The text of a status in a report. *)
Definition status_text (s : Smoke.Status) : string :=
  match s with
  | Smoke.PASS => "PASS"
  | Smoke.FAIL => "FAIL"
  | Smoke.SKIPPED => "SKIPPED"
  end.

(** One entry of ['results'] in the runner's JSON report, [asdict(result)],
    as the analyzer loads it: every field of the dataclass is a key, and
    [None] is written as [null]. *)
Definition report_entry (t : Smoke.TestResult) : Analyze.Result :=
  {| Analyze.r_status := status_text (Smoke.t_status t);
     Analyze.r_service := Smoke.t_service t;
     Analyze.r_endpoint := Smoke.t_endpoint t;
     Analyze.r_method := Smoke.t_method t;
     Analyze.r_error_message := Some (Smoke.t_error_message t);
     Analyze.r_http_status := Some (Smoke.t_http_status t) |}.

(** [IssueAnalyzer(report)] on the report of a run. *)
Definition analyzer_of_run (results : list Smoke.TestResult) : Analyze.IssueAnalyzer :=
  Analyze.init (map report_entry results).

Definition status_eqb (a b : Smoke.Status) : bool :=
  String.eqb (status_text a) (status_text b).

(** [sum(1 for r in results if r.status == s)] *)
Definition count_status (s : Smoke.Status) (results : list Smoke.TestResult) : nat :=
  length (List.filter (fun r => status_eqb (Smoke.t_status r) s) results).

(** [failed_tests] and the exit code of the runner's [main]. *)
Definition exit_code (results : list Smoke.TestResult) : Z :=
  if (count_status Smoke.FAIL results =? 0)%nat then 0 else 1.

(** [sum(1 for i in issues if i.severity == s)] *)
Definition count_severity (s : Analyze.Severity) (issues : list Analyze.Issue) : nat :=
  length (List.filter
            (fun i => String.eqb (Analyze.severity_label (Analyze.i_severity i))
                        (Analyze.severity_label s)) issues).

(** The dictionary that [generate_console_report] of the analyzer returns:
    total, critical, high, medium, low. *)
Definition summary (issues : list Analyze.Issue) : nat * nat * nat * nat * nat :=
  (length issues, count_severity Analyze.Critical issues,
   count_severity Analyze.High issues, count_severity Analyze.Medium issues,
   count_severity Analyze.Low issues).

(** The rank of a severity, Low lowest. *)
Definition severity_rank (s : Analyze.Severity) : Z :=
  match s with
  | Analyze.Low => 0
  | Analyze.Medium => 1
  | Analyze.High => 2
  | Analyze.Critical => 3
  end.

(** The identifier of the issue numbered [issue_id]. *)
Definition issue_name (issue_id : Z) : string :=
  "ISSUE-" ++ PyStr.zfill 3 (PyStr.of_Z issue_id).

(** The loop that counts the issues of each service. *)
Definition service_counts (issues : list Analyze.Issue) : gmap string nat :=
  foldl (fun counts issue =>
           <[Analyze.i_service issue :=
               (PyDict.get (counts !! Analyze.i_service issue) 0 + 1)%nat]> counts)
        ∅ issues.

End Report.

(** ** Endpoint discovery ([EnhancedOpenAPIFetcher.generate_endpoint_configs]
    and the catalog builders that call it) *)

Module Discovery.

Import Smoke.

(** An entry of ['parameters']: the keys ['in'] and ['name'], which may be
    absent. *)
Record ParameterObject : Type := mkParameterObject {
  p_in : option string;
  p_name : option string
}.

(** An operation object: the keys the classifier reads, and the keys
    ['summary'], ['description'], ['deprecated'] and ['parameters']. *)
Record MethodData : Type := mkMethodData {
  md_operation : Operation;
  md_summary : option string;
  md_description : option string;
  md_deprecated : option bool;
  md_parameters : option (list ParameterObject)
}.

(** An API description: ['basePath'], the ['url'] of each entry of
    ['servers'] (when it has one), and ['paths'] with the items of each
    path object in their order. *)
Record OpenAPISpec : Type := mkSpec {
  basePath : option string;
  servers : option (list (option string));
  paths : list (string * list (string * MethodData))
}.

Definition http_methods : list string :=
  ["get"; "post"; "put"; "delete"; "patch"; "head"; "options"].

(** [d[k] = v] on a dictionary kept in insertion order. *)
Fixpoint dict_set {A} (k : string) (v : A) (d : list (string * A)) : list (string * A) :=
  match d with
  | [] => [(k, v)]
  | (k', v') :: d' => if String.eqb k' k then (k, v) :: d' else (k', v') :: dict_set k v d'
  end.

(** The text of [param_name] inside an f-string: a missing name is [None]. *)
Definition name_text (name : option string) : string := PyDict.get name "None".

(** The loop over ['parameters']: a placeholder for every path parameter.
    A parameter without a name is keyed by [None], which [run_test] formats
    as the text "None"; the key is kept as that text. *)
Definition path_params_of (parameters : list ParameterObject) : list (string * param) :=
  foldl (fun path_params p =>
           match p_in p with
           | Some "path" =>
               dict_set (name_text (p_name p))
                 (PStr ("test_" ++ name_text (p_name p) ++ "_123")) path_params
           | _ => path_params
           end) [] parameters.

(** The base path of the description; [urlpath] is the path that
    [urllib.parse.urlparse] finds in a URL. *)
Definition base_path_of (urlpath : string -> string) (spec : OpenAPISpec) : string :=
  let base_path := PyDict.get (basePath spec) "" in
  match base_path, servers spec with
  | EmptyString, Some (Some server_url :: _) => urlpath server_url
  | _, _ => base_path
  end.

(** The path of an operation: the lines of [generate_endpoint_configs]
    from the API prefix test to the end of the special case for
    [readarr_audiobooks]. *)
Definition full_path_of (service_name base_path path : string) : string :=
  let full_path := if PyStr.startswith path "/api/" then path else base_path ++ path in
  if String.eqb service_name "readarr_audiobooks" then
    if PyStr.startswith full_path "/api/readarr-audiobooks/" then full_path
    else if PyStr.startswith full_path "/api/"
              && negb (PyStr.startswith full_path "/api/readarr-audiobooks/")
    then "/api/readarr-audiobooks" ++ PyText.drop 4 full_path
    else if negb (PyStr.startswith full_path "/api/")
    then "/api/readarr-audiobooks" ++ full_path
    else full_path
  else full_path.

(** The configuration made for one method of one path, if any. *)
Definition config_of (service_name full_path path method : string) (method_data : MethodData)
    : option EndpointConfig :=
  if negb (existsb (String.eqb (PyStr.lower method)) http_methods) then None
  else
    let operation_id :=
      PyDict.get (operationId (md_operation method_data))
        (PyStr.upper method ++ " " ++ full_path) in
    let summary := PyDict.get (md_summary method_data) "" in
    let description :=
      PyDict.get (md_description method_data)
        (match summary with
         | EmptyString => PyStr.upper method ++ " " ++ full_path
         | _ => summary
         end) in
    if PyDict.get (md_deprecated method_data) false then None
    else
      let destructive := _is_destructive_operation method path (md_operation method_data) in
      let path_params := path_params_of (PyDict.get (md_parameters method_data) []) in
      Some {| c_name := operation_id;
              c_path := full_path;
              c_method := PyStr.upper method;
              c_description := description;
              c_destructive := destructive;
              c_safe_mode := if destructive then "mock" else "allow";
              c_path_params := match path_params with
                               | [] => None
                               | _ => Some path_params
                               end;
              c_query_params := None;
              c_headers := None;
              c_body := None;
              c_expected_status := 200 |}.

(** [generate_endpoint_configs], from the description that
    [get_openapi_spec] returned ([None] when there is none). *)
Definition generate_endpoint_configs (urlpath : string -> string) (service_name : string)
    (openapi_spec : option OpenAPISpec) : list EndpointConfig :=
  match openapi_spec with
  | None => []
  | Some spec =>
      let base_path := base_path_of urlpath spec in
      flat_map
        (fun '(path, path_data) =>
           let full_path := full_path_of service_name base_path path in
           omap (fun '(method, method_data) =>
                   config_of service_name full_path path method method_data)
                path_data)
        (paths spec)
  end.

(** The loop of [get_openapi_endpoint_configs] and of
    [get_mixed_endpoint_configs] over the generated configurations: the
    path each one ends with. *)
Definition service_path (service path : string) : string :=
  if String.eqb service "readarr_audiobooks" then
    if negb (PyStr.startswith path "/api/readarr-audiobooks/") then
      if PyStr.startswith path "/api/"
      then "/api/readarr-audiobooks" ++ PyText.drop 4 path
      else "/api/readarr-audiobooks" ++ path
    else path
  else
    if negb (PyStr.startswith path ("/api/" ++ service))
    then "/api/" ++ service ++ path
    else path.

Definition with_service_path (service : string) (config : EndpointConfig) : EndpointConfig :=
  {| c_name := c_name config;
     c_path := service_path service (c_path config);
     c_method := c_method config;
     c_description := c_description config;
     c_destructive := c_destructive config;
     c_safe_mode := c_safe_mode config;
     c_path_params := c_path_params config;
     c_query_params := c_query_params config;
     c_headers := c_headers config;
     c_body := c_body config;
     c_expected_status := c_expected_status config |}.

(** The configurations that the catalog builders add for one service whose
    description was fetched. *)
Definition discovered_configs (urlpath : string -> string) (service : string)
    (spec : OpenAPISpec) : list EndpointConfig :=
  map (with_service_path service) (generate_endpoint_configs urlpath service (Some spec)).

(** [EnhancedAPITester.is_destructive_operation] *)
Definition tester_patterns : list string :=
  ["/queue/pause"; "/queue/resume"; "/delete"; "/remove"; "/command"].

Definition is_destructive_operation (method path : string) : bool :=
  if String.eqb (PyStr.upper method) "DELETE" then true
  else existsb (fun pattern => PyStr.contains pattern (PyStr.lower path)) tester_patterns.

End Discovery.

(** ** The response validator with any expectations ([ResponseValidator]) *)

Module Validator.

Import Smoke.

(** An entry of the dictionary [expectations]: one of the four keys that
    have a validator, with a value of the type its validator takes, or any
    other key. *)
Inductive expectation : Type :=
  | status_code (expected_code : Z)
  | json_format (expected_format : bool)
  | response_time (max_time_ms : Z)
  | required_fields (fields : list string)
  | other_key (key : string).

Definition key_of (e : expectation) : string :=
  match e with
  | status_code _ => "status_code"
  | json_format _ => "json_format"
  | response_time _ => "response_time"
  | required_fields _ => "required_fields"
  | other_key key => key
  end.

(** [field in body] for a parsed JSON value: a key of an object, an element
    of an array, a part of a string; a number, a boolean and [null] are not
    iterable. *)
Definition py_in (field : string) (body : json) : res bool :=
  match body with
  | JDict d => Ok (existsb (String.eqb field) (map fst d))
  | JList l => Ok (existsb (fun x => match x with
                                     | JStr s => String.eqb s field
                                     | _ => false
                                     end) l)
  | JStr s => Ok (PyStr.contains field s)
  | _ => Raise TypeError
  end.

(** [all(field in body for field in fields)]: it stops at the first field
    that is missing. *)
Fixpoint all_in (fields : list string) (body : json) : res bool :=
  match fields with
  | [] => Ok true
  | field :: rest =>
      match py_in field body with
      | Ok true => all_in rest body
      | Ok false => Ok false
      | Raise e => Raise e
      end
  end.

(** [_validate_required_fields]; [loads] is [json.loads], [None] when it
    raises [JSONDecodeError]. *)
Definition _validate_required_fields (loads : string -> option json)
    (response : Response) (fields : list string) : res bool :=
  match loads (resp_body response) with
  | Some body => all_in fields body
  | None => Ok false
  end.

Definition _validate_json_format (loads : string -> option json)
    (response : Response) (expected_format : bool) : bool :=
  if negb expected_format then true
  else match loads (resp_body response) with
       | Some _ => true
       | None => false
       end.

(** [validate]: the loop over [expectations.items()]. *)
Fixpoint validate_from (loads : string -> option json) (response : Response)
    (expectations : list expectation) (results : list (string * bool))
    : res (list (string * bool)) :=
  match expectations with
  | [] => Ok results
  | e :: rest =>
      match e with
      | status_code expected_code =>
          validate_from loads response rest
            (Discovery.dict_set "status_code"
               (Smoke._validate_status_code response expected_code) results)
      | json_format expected_format =>
          validate_from loads response rest
            (Discovery.dict_set "json_format"
               (_validate_json_format loads response expected_format) results)
      | response_time max_time_ms =>
          validate_from loads response rest
            (Discovery.dict_set "response_time"
               (Smoke._validate_response_time response max_time_ms) results)
      | required_fields fields =>
          match _validate_required_fields loads response fields with
          | Ok b => validate_from loads response rest
                      (Discovery.dict_set "required_fields" b results)
          | Raise ex => Raise ex
          end
      | other_key _ => validate_from loads response rest results
      end
  end.

Definition validate (loads : string -> option json) (response : Response)
    (expectations : list expectation) : res (list (string * bool)) :=
  validate_from loads response expectations [].

(** [key in self.validators] *)
Definition has_validator (e : expectation) : bool :=
  match e with
  | other_key _ => false
  | _ => true
  end.

End Validator.

(** ** The simple runner ([scripts/api_smoke_test.py]) *)

Module Simple.

Import Smoke.

(** The dataclass [TestResult] of this script. *)
Record TestResult : Type := mkResult {
  s_endpoint : string;
  s_status : Status;
  s_http_status : option Z;
  s_error_message : option string;
  s_elapsed_ms : Z
}.

(** How [urlopen] ends: an answer with a status code, or one of the three
    exceptions that [fetch_endpoint] catches. *)
Inductive Reply : Type :=
  | Answered (code : Z)
  | HTTPError (code : Z) (reason : string)
  | URLError (reason : string)
  | OtherError (text : string).

(** [urljoin], whether [Request] accepts a URL, and the reply and the time
    taken for a URL given the URLs requested before. *)
Record Net : Type := mkNet {
  urljoin : string -> string -> string;
  url_ok : string -> bool;
  urlopen : list string -> string -> Reply * Z
}.

Record World : Type := mkWorld {
  sent : list string;
  clock : Z
}.

Definition fetch_endpoint (N : Net) (base path : string) (timeout : Z) (w : World)
    : res TestResult * World :=
  let url := urljoin N (PyStr.rstrip "/"%char base ++ "/") (PyText.lstrip "/"%char path) in
  let start := clock w in
  if negb (url_ok N url) then (Raise (ValueError ("unknown url type: '" ++ url ++ "'")), w)
  else
    let '(reply, took) := urlopen N (sent w) url in
    let w' := {| sent := (sent w ++ [url])%list; clock := clock w + took |} in
    let elapsed_ms := clock w' - start in
    (Ok match reply with
        | Answered code =>
            let status_family := code / 100 in
            let passed := status_family =? 2 in
            {| s_endpoint := path;
               s_status := if passed then PASS else FAIL;
               s_http_status := Some code;
               s_error_message :=
                 if passed then None else Some ("Unexpected HTTP " ++ PyStr.of_Z code);
               s_elapsed_ms := elapsed_ms |}
        | HTTPError code reason =>
            {| s_endpoint := path; s_status := FAIL; s_http_status := Some code;
               s_error_message := Some ("HTTPError: " ++ reason);
               s_elapsed_ms := elapsed_ms |}
        | URLError reason =>
            {| s_endpoint := path; s_status := FAIL; s_http_status := None;
               s_error_message := Some ("URLError: " ++ reason);
               s_elapsed_ms := elapsed_ms |}
        | OtherError text =>
            {| s_endpoint := path; s_status := FAIL; s_http_status := None;
               s_error_message := Some ("Exception: " ++ text);
               s_elapsed_ms := elapsed_ms |}
        end, w').

(** [load_endpoints_from_file], from the JSON value read from the file. *)
Fixpoint load_items (items : list json) : res (list string) :=
  match items with
  | [] => Ok []
  | JStr item :: rest =>
      match load_items rest with
      | Ok out => Ok ((if PyStr.startswith item "/" then item else "/" ++ item) :: out)
      | Raise e => Raise e
      end
  | _ :: _ =>
      Raise (ValueError "endpoints-file list entries must be strings (endpoint paths)")
  end.

Definition load_endpoints_from_file (data : json) : res (list string) :=
  match data with
  | JList items => load_items items
  | _ => Raise (ValueError "endpoints-file JSON must be a list of endpoint path strings")
  end.


Definition runner_exception (e : exn) : TestResult :=
  {| s_endpoint := "UNKNOWN"; s_status := FAIL; s_http_status := None;
     s_error_message := Some ("Runner exception: " ++ Smoke.exn_text e);
     s_elapsed_ms := 0 |}.

(** The futures complete in the order [completed], a list of positions in
    [unique_endpoints]; each fetch is one step. *)
Fixpoint collect (N : Net) (base : string) (timeout : Z) (unique_endpoints : list string)
    (completed : list nat) (results : list TestResult) (w : World)
    : list TestResult * World :=
  match completed with
  | [] => (results, w)
  | i :: rest =>
      match unique_endpoints !! i with
      | None => collect N base timeout unique_endpoints rest results w
      | Some ep =>
          match fetch_endpoint N base ep timeout w with
          | (Ok res, w') =>
              collect N base timeout unique_endpoints rest (results ++ [res])%list w'
          | (Raise e, w') =>
              collect N base timeout unique_endpoints rest
                (results ++ [runner_exception e])%list w'
          end
      end
  end.

(** [{ep: i for i, ep in enumerate(unique_endpoints)}] *)
Fixpoint order_from (i : Z) (endpoints : list string) (order : gmap string Z)
    : gmap string Z :=
  match endpoints with
  | [] => order
  | ep :: rest => order_from (i + 1) rest (<[ep := i]> order)
  end.


(** [print_report]: the numbers of passed and failed results. *)
Definition print_report (results : list TestResult) : Z * Z :=
  let passed :=
    Z.of_nat (length (List.filter (fun r => Report.status_eqb (s_status r) PASS) results)) in
  let failed := Z.of_nat (length results) - passed in
  (passed, failed).

(** The exit code of [main] after the tests ran. *)
Definition exit_code (results : list TestResult) : Z :=
  let '(passed, failed) := print_report results in
  if failed =? 0 then 0 else 1.

End Simple.

(** ** What a run leaves behind *)

Module Trace.

Import Smoke.

(** A request of the client [client]: its URL starts with the base URL of
    the client and it carries the client's timeout. *)
Definition of_client (client : HTTPClient) (req : Request) : Prop :=
  String.prefix (base_url client) (req_url req) = true
  /\ req_timeout req = timeout client.

(** From [w] to [w'] the identifier cache kept its entries, and the
    requests sent were extended by requests of [client]. *)
Definition extends (client : HTTPClient) (w w' : World) : Prop :=
  id_cache w ⊆ id_cache w'
  /\ exists new, sent w' = (sent w ++ new)%list /\ Forall (of_client client) new.

End Trace.

(** ** More concrete inputs *)

Module MoreSamples.

Import Smoke Discovery.

(** A server that answers every request with status 200 and a JSON list,
    in which the identifier 42 is found. *)
Definition answered : Response :=
  {| resp_status_code := Some 200; resp_headers := []; resp_body := "[{id: 42}]";
     resp_elapsed_ms := 5; resp_error := None |}.

Definition online : Env :=
  {| json_dumps := Samples.dumps_keys;
     json_loads_ok := fun body => negb (String.eqb body "");
     urlencode := Samples.encode_pairs;
     url_ok := fun _ => true;
     urlopen := fun _ _ => answered;
     extract_id := fun _ _ => Some "42" |}.

(** A description with a deprecated operation, an item that is no method,
    a DELETE with a path parameter, and a plain GET. *)
Definition series_spec : OpenAPISpec :=
  {| basePath := Some "/api/v3";
     servers := None;
     paths :=
       [("/series/{id}",
         [("parameters", mkMethodData (mkOperation None None) None None None None);
          ("get", mkMethodData (mkOperation (Some "getSeries") (Some ["series"]))
                    (Some "Get a series") None (Some true)
                    (Some [mkParameterObject (Some "path") (Some "id")]));
          ("delete", mkMethodData (mkOperation (Some "removeSeries") None)
                       None None None
                       (Some [mkParameterObject (Some "path") (Some "id");
                              mkParameterObject (Some "query") (Some "force")]))]);
        ("/series", [("get", mkMethodData (mkOperation None None) None None None None)])] |}.

(** The configuration generated for the DELETE operation of [series_spec]. *)
Definition remove_series : EndpointConfig :=
  {| c_name := "removeSeries"; c_path := "/api/v3/series/{id}"; c_method := "DELETE";
     c_description := "DELETE /api/v3/series/{id}"; c_destructive := true;
     c_safe_mode := "mock"; c_path_params := Some [("id", PStr "test_id_123")];
     c_query_params := None; c_headers := None; c_body := None;
     c_expected_status := 200 |}.

(** A body parser that knows two texts. *)
Definition loads_sample (body : string) : option json :=
  if String.eqb body "{id, title}" then Some (JDict [("id", JInt 1); ("title", JStr "x")])
  else if String.eqb body "7" then Some (JInt 7)
  else None.

Definition body_response (body : string) : Response :=
  {| resp_status_code := Some 200; resp_headers := []; resp_body := body;
     resp_elapsed_ms := 5; resp_error := None |}.

(** A network for the simple runner: "/api/sabnzbd" answers 204, every
    other URL answers 500 as an HTTP error. *)
Definition simple_net : Simple.Net :=
  {| Simple.urljoin := fun base path => base ++ path;
     Simple.url_ok := fun _ => true;
     Simple.urlopen := fun _ url =>
       if String.eqb url "http://localhost:3000/api/sabnzbd"
       then (Simple.Answered 204, 4)
       else (Simple.HTTPError 500 "Internal Server Error", 9) |}.

Definition simple_world : Simple.World := {| Simple.sent := []; Simple.clock := 0 |}.

End MoreSamples.

(** ** The runner as a pool of workers

    [Smoke.run_test] and [Smoke.collect] run the tests one after another,
    each as one step, and take [json.loads] and [print] to return.  Here a
    test is a program of single steps on what the workers share (the clock,
    the identifier cache of the one [MediaIDFetcher], the network); the
    steps of the workers are interleaved by a schedule; [json.loads] may
    raise another exception than [JSONDecodeError], and printing may
    raise. *)

Module Pool.

Import Smoke.

Local Open Scope res_scope.

(** A worker's program: what it returns or raises, or its next step and
    what follows for each answer to that step. *)
Inductive prog (A : Type) : Type :=
  | Ret (a : A)
  | Throw (e : exn)
  | Now (k : Z -> prog A)
  | CacheHas (service : string) (k : bool -> prog A)
  | CacheGet (service : string) (k : option string -> prog A)
  | CacheSet (service id : string) (k : prog A)
  | Urlopen (req : Request) (k : Response -> prog A).
Arguments Ret {A} a.
Arguments Throw {A} e.
Arguments Now {A} k.
Arguments CacheHas {A} service k.
Arguments CacheGet {A} service k.
Arguments CacheSet {A} service id k.
Arguments Urlopen {A} req k.

Fixpoint bind {A B} (p : prog A) (f : A -> prog B) : prog B :=
  match p with
  | Ret a => f a
  | Throw e => Throw e
  | Now k => Now (fun t => bind (k t) f)
  | CacheHas service k => CacheHas service (fun b => bind (k b) f)
  | CacheGet service k => CacheGet service (fun v => bind (k v) f)
  | CacheSet service id k => CacheSet service id (bind k f)
  | Urlopen req k => Urlopen req (fun response => bind (k response) f)
  end.

(** [try: p except Exception as e: h e] *)
Fixpoint catch {A} (p : prog A) (h : exn -> prog A) : prog A :=
  match p with
  | Ret a => Ret a
  | Throw e => h e
  | Now k => Now (fun t => catch (k t) h)
  | CacheHas service k => CacheHas service (fun b => catch (k b) h)
  | CacheGet service k => CacheGet service (fun v => catch (k v) h)
  | CacheSet service id k => CacheSet service id (catch k h)
  | Urlopen req k => Urlopen req (fun response => catch (k response) h)
  end.

Notation "'do!' x ':=' p 'in' q" := (bind p (fun x => q))
  (at level 10, x name, p at level 100, q at level 200).

(** [self.id_cache[service]]: reading an entry that is not in the
    dictionary raises [KeyError]. *)
Definition cache_get (service : string) : prog string :=
  CacheGet service (fun entry =>
    match entry with
    | Some id => Ret id
    | None => Throw (KeyError service)
    end).

(** What can fail besides a request: [json.loads] raising another
    exception than [JSONDecodeError] on a text (a [RecursionError] on deeply
    nested brackets), the lines printed before the tests start, and
    [print_test_result] on a result, given the results listed so far. *)
Record Faults : Type := mkFaults {
  loads_raises : string -> option exn;
  banner_raises : option exn;
  print_raises : list TestResult -> TestResult -> option exn
}.

(** *** The steps of one test *)

(** [HTTPClient.request]: the request is built, then exchanged. *)
Definition request (E : Env) (self : HTTPClient) (method endpoint : string)
    (params : option (list (string * string))) (data : option string)
    (json_data : option (list (string * json))) : prog Response :=
  match prepare E self method endpoint params data json_data with
  | Raise e => Throw e
  | Ok req => Urlopen req Ret
  end.

Definition _fetch_real_id (E : Env) (client : HTTPClient) (service : string)
    : prog (option string) :=
  match id_endpoints !! service with
  | None => Ret None
  | Some endpoint =>
      catch
        (do! response := request E client "GET" endpoint None None None in
         if PyStr.truthy (resp_error response) then Ret None
         else match resp_status_code response with
              | Some 200 => Ret (extract_id E service (resp_body response))
              | _ => Ret None
              end)
        (fun _ => Ret None)
  end.

(** [get_id_for_service]: the test [service in self.id_cache], the entry
    read for the line printed and read again for the value returned, or
    else the fetch and the write.  Nothing is locked in between. *)
Definition get_id_for_service (E : Env) (client : HTTPClient) (service : string)
    : prog string :=
  CacheHas service (fun cached =>
    if cached then
      do! printed := cache_get service in
      cache_get service
    else
      do! fetched :=
        catch
          (do! real_id := _fetch_real_id E client service in
           if PyStr.truthy real_id then
             match real_id with
             | Some i => CacheSet service i (Ret (Some i))
             | None => Ret None
             end
           else Ret None)
          (fun _ => Ret None) in
      match fetched with
      | Some real_id => Ret real_id
      | None => Ret (PyDict.get (fallback_ids !! service) "test_id_123")
      end).

Fixpoint substitute (E : Env) (client : HTTPClient) (service : string)
    (path_params : list (string * param)) (endpoint_path : string) : prog string :=
  match path_params with
  | [] => Ret endpoint_path
  | (key, value) :: rest =>
      let placeholder := "{" ++ key ++ "}" in
      match value with
      | PStr s =>
          if PyStr.startswith s "test_" then
            do! real_id := get_id_for_service E client service in
            substitute E client service rest
              (PyStr.replace endpoint_path placeholder real_id)
          else
            substitute E client service rest
              (PyStr.replace endpoint_path placeholder (param_str value))
      | PInt _ =>
          substitute E client service rest
            (PyStr.replace endpoint_path placeholder (param_str value))
      end
  end.

(** [_validate_json_format]: only [JSONDecodeError] is caught. *)
Definition _validate_json_format (F : Faults) (E : Env) (response : Response)
    (expected_format : bool) : res bool :=
  if negb expected_format then Ok true
  else match loads_raises F (resp_body response) with
       | Some e => Raise e
       | None => Ok (json_loads_ok E (resp_body response))
       end.

(** [validate] on the expectations that [run_test] passes. *)
Definition validate (F : Faults) (E : Env) (response : Response) (status_code : Z)
    (json_format : bool) (response_time : Z) : res (list (string * bool)) :=
  let status_ok := _validate_status_code response status_code in
  try! format_ok := _validate_json_format F E response json_format in
  let time_ok := _validate_response_time response response_time in
  Ok [("status_code", status_ok); ("json_format", format_ok); ("response_time", time_ok)].

(** The part of [run_test] after the safety checks. *)
Definition run_live (F : Faults) (E : Env) (self : EnhancedAPITester)
    (config : EndpointConfig) (service : string) (start_time : Z) : prog TestResult :=
  let path_params := PyDict.get (c_path_params config) [] in
  do! endpoint_path :=
    substitute E (http_client self) service path_params (c_path config) in
  do! response :=
    request E (http_client self) (c_method config) endpoint_path
      (c_query_params config) None (c_body config) in
  match validate F E response (c_expected_status config) true 10000 with
  | Raise e => Throw e
  | Ok validation_results =>
      let '(status, error_message) :=
        if PyStr.truthy (resp_error response) then (FAIL, resp_error response)
        else if forallb snd validation_results then (PASS, None)
        else (FAIL, Some "Validation failed") in
      Now (fun t =>
        Ret {| t_service := service;
               t_endpoint := endpoint_path;
               t_method := c_method config;
               t_test_name := c_name config;
               t_status := status;
               t_http_status := resp_status_code response;
               t_error_message := error_message;
               t_elapsed_ms := t - start_time;
               t_request_body := request_body_of E config;
               t_response_body := Some (resp_body response);
               t_validation_results := validation_results;
               t_safety_notes := None |})
  end.

Definition run_test (F : Faults) (E : Env) (self : EnhancedAPITester)
    (config : EndpointConfig) : prog TestResult :=
  Now (fun start_time =>
    let service := extract_service_from_path (c_path config) in
    if safe_mode self && c_destructive config then
      if String.eqb (c_safe_mode config) "mock" then
        Now (fun t =>
          Ret {| t_service := service;
                 t_endpoint := c_path config;
                 t_method := c_method config;
                 t_test_name := c_name config;
                 t_status := SKIPPED;
                 t_http_status := Some 200;
                 t_error_message := None;
                 t_elapsed_ms := t - start_time;
                 t_request_body := request_body_of E config;
                 t_response_body := Some mock_response_body;
                 t_validation_results := [];
                 t_safety_notes := Some "Mocked in safe mode" |})
      else if String.eqb (c_safe_mode config) "skip" then
        Now (fun t =>
          Ret {| t_service := service;
                 t_endpoint := c_path config;
                 t_method := c_method config;
                 t_test_name := c_name config;
                 t_status := SKIPPED;
                 t_http_status := None;
                 t_error_message := None;
                 t_elapsed_ms := t - start_time;
                 t_request_body := None;
                 t_response_body := None;
                 t_validation_results := [];
                 t_safety_notes := Some "Skipped in safe mode" |})
      else run_live F E self config service start_time
    else run_live F E self config service start_time).

(** *** Running the steps *)

Definition with_cache (cache : gmap string string) (w : World) : World :=
  {| id_cache := cache; sent := sent w; clock := clock w |}.

(** The exchange of [req] with the server: the answer depends on the
    requests sent before, and the clock advances by the time it took. *)
Definition exchange (E : Env) (req : Request) (w : World) : Response * World :=
  let response := urlopen E (sent w) req in
  (response,
   {| id_cache := id_cache w;
      sent := (sent w ++ [req])%list;
      clock := clock w + resp_elapsed_ms response |}).

(** One step of a program; a program that returned or raised stays as it
    is. *)
Definition step {A} (E : Env) (p : prog A) (w : World) : prog A * World :=
  match p with
  | Ret a => (Ret a, w)
  | Throw e => (Throw e, w)
  | Now k => (k (clock w), w)
  | CacheHas service k => (k (bool_decide (is_Some (id_cache w !! service))), w)
  | CacheGet service k => (k (id_cache w !! service), w)
  | CacheSet service id k => (k, with_cache (<[service := id]> (id_cache w)) w)
  | Urlopen req k => let '(response, w') := exchange E req w in (k response, w')
  end.

(** A program run to its end without another worker in between. *)
Fixpoint run {A} (E : Env) (p : prog A) (w : World) : res A * World :=
  match p with
  | Ret a => (Ok a, w)
  | Throw e => (Raise e, w)
  | Now k => run E (k (clock w)) w
  | CacheHas service k => run E (k (bool_decide (is_Some (id_cache w !! service)))) w
  | CacheGet service k => run E (k (id_cache w !! service)) w
  | CacheSet service id k => run E k (with_cache (<[service := id]> (id_cache w)) w)
  | Urlopen req k => let '(response, w') := exchange E req w in run E (k response) w'
  end.

(** The futures of the pool, one per submitted test; [schedule] names, step
    by step, the future whose worker takes the next step. *)
Fixpoint exec {A} (E : Env) (schedule : list nat) (futures : list (prog A)) (w : World)
    : list (prog A) * World :=
  match schedule with
  | [] => (futures, w)
  | i :: rest =>
      match futures !! i with
      | None => exec E rest futures w
      | Some p =>
          let '(p', w') := step E p w in
          exec E rest (<[i := p']> futures) w'
      end
  end.

(** The pool is left only when every future is done: what the schedule
    has not finished runs to its end, future by future. *)
Fixpoint finish {A} (E : Env) (futures : list (prog A)) (w : World)
    : list (res A) * World :=
  match futures with
  | [] => ([], w)
  | p :: rest =>
      let '(r, w1) := run E p w in
      let '(rs, w2) := finish E rest w1 in
      (r :: rs, w2)
  end.

(** The loop over [as_completed(futures)], which yields the futures in the
    order [completed].  The result of a future is appended and printed;
    when the future raised, or when printing its result raises, the
    handler appends a synthetic failure and prints that; an exception from
    this second print leaves the loop. *)
Fixpoint collect (F : Faults) (results : list (res TestResult)) (completed : list nat)
    (acc : list TestResult) : res (list TestResult) :=
  match completed with
  | [] => Ok acc
  | i :: rest =>
      match results !! i with
      | None => collect F results rest acc
      | Some r =>
          let '(acc1, raised) :=
            match r with
            | Raise e => (acc, Some e)
            | Ok result =>
                let acc1 := (acc ++ [result])%list in
                (acc1, print_raises F acc1 result)
            end in
          match raised with
          | None => collect F results rest acc1
          | Some e =>
              let result := runner_exception e in
              let acc2 := (acc1 ++ [result])%list in
              match print_raises F acc2 result with
              | None => collect F results rest acc2
              | Some e' => Raise e'
              end
          end
      end
  end.

(** [run_all_tests] with [self.concurrency] workers: the value returned,
    or the exception raised, and the world when the pool has shut down.
    [ThreadPoolExecutor] refuses a number of workers below 1.  The
    schedule may be any interleaving of the futures' steps, also one that
    needs more workers than there are. *)
Definition run_all_tests (F : Faults) (E : Env) (self : EnhancedAPITester)
    (concurrency : Z) (schedule completed : list nat) (w : World)
    : res (list TestResult) * World :=
  match banner_raises F with
  | Some e => (Raise e, w)
  | None =>
      if concurrency <=? 0
      then (Raise (ValueError "max_workers must be greater than 0"), w)
      else
        let futures := map (run_test F E self) (endpoint_configs self) in
        let '(futures', w1) := exec E schedule futures w in
        let '(results, w2) := finish E futures' w1 in
        match collect F results completed (test_results self) with
        | Raise e => (Raise e, w2)
        | Ok collected =>
            let order := order_from 0 (endpoint_configs self) ∅ in
            (Ok (PyList.sort (fun r => PyDict.get (order !! t_endpoint r) (10 ^ 9))
                   false collected), w2)
        end
  end.

(** *** What holds on every path of a program *)

(** Every request of [p] satisfies [sends], every value it returns
    [returns], every exception it raises [raises]. *)
Fixpoint always {A} (sends : Request -> Prop) (returns : A -> Prop) (raises : exn -> Prop)
    (p : prog A) : Prop :=
  match p with
  | Ret a => returns a
  | Throw e => raises e
  | Now k => forall t, always sends returns raises (k t)
  | CacheHas _ k => forall b, always sends returns raises (k b)
  | CacheGet _ k => forall entry, always sends returns raises (k entry)
  | CacheSet _ _ k => always sends returns raises k
  | Urlopen req k => sends req /\ forall response, always sends returns raises (k response)
  end.

(** Every request of the program is a request of [client]. *)
Definition sends_as (client : HTTPClient) {A} (p : prog A) : Prop :=
  always (Trace.of_client client) (fun _ => True) (fun _ => True) p.

(** From [w] to [w'] no service lost its entry in the identifier cache,
    and the requests sent were extended by requests of [client]. *)
Definition keeps (client : HTTPClient) (w w' : World) : Prop :=
  (forall service, is_Some (id_cache w !! service) -> is_Some (id_cache w' !! service))
  /\ exists new, sent w' = (sent w ++ new)%list /\ Forall (Trace.of_client client) new.

(** The outcome listed for a future. *)
Definition outcome_of (r : res TestResult) : TestResult :=
  match r with
  | Ok result => result
  | Raise e => runner_exception e
  end.

End Pool.

(** ** Concrete inputs for the pool *)

Module PoolSamples.

Import Smoke Pool.

Definition no_faults : Faults :=
  {| loads_raises := fun _ => None; banner_raises := None;
     print_raises := fun _ _ => None |}.

(** The output stream refuses the line of the test "List Series". *)
Definition print_fails : Faults :=
  {| loads_raises := fun _ => None; banner_raises := None;
     print_raises := fun _ result =>
       if String.eqb (t_test_name result) "List Series"
       then Some (OSError "[Errno 32] Broken pipe") else None |}.

(** A server whose answers are too deeply nested for [json.loads]. *)
Definition deep_answers : Faults :=
  {| loads_raises := fun body =>
       if String.eqb body "" then None
       else Some (RecursionError "maximum recursion depth exceeded");
     banner_raises := None;
     print_raises := fun _ _ => None |}.

(** A server that answers every request with status 200 and, as body, the
    number of requests it had before; the identifier found in a body is
    the body. *)
Definition counting : Env :=
  {| json_dumps := Samples.dumps_keys;
     json_loads_ok := fun _ => true;
     urlencode := Samples.encode_pairs;
     url_ok := fun _ => true;
     urlopen := fun before _ =>
       {| resp_status_code := Some 200; resp_headers := [];
          resp_body := PyStr.of_nat (length before);
          resp_elapsed_ms := 5; resp_error := None |};
     extract_id := fun _ body => Some body |}.

(** Two cases of the default catalog with a placeholder. *)
Definition get_series : EndpointConfig :=
  {| c_name := "Get Sonarr Series by ID"; c_path := "/api/sonarr/series/{id}";
     c_method := "GET"; c_description := "Get series by ID";
     c_destructive := false; c_safe_mode := "mock";
     c_path_params := Some [("id", PStr "test_series_123")];
     c_query_params := None; c_headers := None; c_body := None;
     c_expected_status := 200 |}.

Definition get_episode : EndpointConfig :=
  {| c_name := "Get Sonarr Episode"; c_path := "/api/sonarr/episode/{id}";
     c_method := "GET"; c_description := "Get episode by ID";
     c_destructive := false; c_safe_mode := "mock";
     c_path_params := Some [("id", PStr "test_episode_123")];
     c_query_params := None; c_headers := None; c_body := None;
     c_expected_status := 200 |}.

End PoolSamples.

(** * Properties *)

(** ** Strings and sorting *)

Section StringFacts.

Lemma prefix_contains (needle s : string) :
  String.prefix needle s = true -> PyStr.contains needle s = true.
Proof.
  intros H. destruct s; simpl in *; rewrite H; reflexivity.
Qed.

Lemma contains_tail (needle : string) (c : ascii) (s : string) :
  PyStr.contains needle s = true -> PyStr.contains needle (String c s) = true.
Proof.
  intros H. simpl. rewrite H. apply orb_true_r.
Qed.

(** A text that contains [c ++ k] contains [k]. *)
Lemma contains_drop_first (c : ascii) (k s : string) :
  PyStr.contains (String c k) s = true -> PyStr.contains k s = true.
Proof.
  induction s as [|a s IH]; simpl.
  - discriminate.
  - intros H. apply orb_true_iff in H. destruct H as [H|H].
    + destruct (ascii_dec c a) as [->|Hne]; [|discriminate].
      apply orb_true_iff. right. apply prefix_contains. exact H.
    + apply orb_true_iff. right. apply IH.
      destruct s; exact H.
Qed.

Lemma contains_cons (needle : string) (a : ascii) (s : string) :
  PyStr.contains needle (String a s)
  = String.prefix needle (String a s) || PyStr.contains needle s.
Proof. reflexivity. Qed.

Lemma prefix_cons (c : ascii) (p : string) (a : ascii) (s : string) :
  String.prefix (String c p) (String a s)
  = if ascii_dec c a then String.prefix p s else false.
Proof. reflexivity. Qed.

Lemma prefix_one (c a : ascii) (s : string) :
  String.prefix (String c EmptyString) (String a s)
  = if ascii_dec c a then true else false.
Proof. rewrite prefix_cons. destruct (ascii_dec c a), s; reflexivity. Qed.

End StringFacts.

Section SortFacts.

Context {A : Type} (key : A -> Z) (reverse : bool).

Lemma insert_Permutation (x : A) (l : list A) :
  Permutation (PyList.insert key reverse x l) (x :: l).
Proof.
  induction l as [|y l IH]; simpl; [reflexivity|].
  destruct (if reverse then key x <? key y else key y <? key x); [|reflexivity].
  rewrite IH. apply perm_swap.
Qed.

Lemma sort_Permutation (l : list A) : Permutation (PyList.sort key reverse l) l.
Proof.
  induction l as [|x l IH]; simpl; [reflexivity|].
  unfold PyList.sort in *. simpl. rewrite insert_Permutation, IH. reflexivity.
Qed.

Lemma sort_length (l : list A) : length (PyList.sort key reverse l) = length l.
Proof. apply Permutation_length, sort_Permutation. Qed.

Lemma sort_Forall (P : A -> Prop) (l : list A) :
  Forall P l -> Forall P (PyList.sort key reverse l).
Proof.
  intros H. eapply Permutation_Forall; [symmetry; apply sort_Permutation | exact H].
Qed.

End SortFacts.

(** ** The triage engine *)

Section Triage.

Import Analyze.

(** [suggest_fix] returns whenever the error message is a string or
    absent. *)
Lemma suggest_fix_returns (result : Result) :
  r_error_message result <> Some None ->
  exists text, suggest_fix result = Ok text.
Proof.
  intros Hmsg. unfold suggest_fix.
  destruct (r_error_message result) as [[msg|]|]; [| congruence |];
    simpl; eexists; reflexivity.
Qed.

(** When severity derivation returns, [create_issue] returns an issue
    whose severity, score, priority and due date are derived from it. *)
Lemma create_issue_returns (today : Z) (result : Result) (issue_id : Z)
    (severity : Severity) :
  determine_severity result = Ok severity ->
  exists issue,
    create_issue today result issue_id = Ok issue
    /\ i_severity issue = severity
    /\ i_priority_score issue =
         calculate_priority_score (r_service result) (r_endpoint result) severity
           (i_error_message issue)
    /\ i_error_message issue = PyDict.get (PyDict.get (r_error_message result) (Some "")) ""
    /\ i_priority issue = score_to_priority (i_priority_score issue)
    /\ i_due_date issue = calculate_due_date today (i_priority issue).
Proof.
  intros Hsev.
  assert (Hmsg : r_error_message result <> Some None).
  { intros Hnull. unfold determine_severity in Hsev. rewrite Hnull in Hsev.
    simpl in Hsev. discriminate. }
  destruct (suggest_fix_returns result Hmsg) as [text Htext].
  unfold create_issue. rewrite Hsev, Htext. simpl.
  destruct (r_error_message result) as [[msg|]|]; [| congruence |];
    simpl; eexists; (split; [reflexivity|]); simpl; repeat split; reflexivity.
Qed.

(** An issue comes from a result on which severity derivation returned. *)
Lemma create_issue_severity (today : Z) (result : Result) (issue_id : Z) (issue : Issue) :
  create_issue today result issue_id = Ok issue ->
  determine_severity result = Ok (i_severity issue).
Proof.
  intros H. destruct (determine_severity result) as [severity|e] eqn:Hsev.
  - destruct (create_issue_returns today result issue_id severity Hsev)
      as (issue' & Hc & Hs & _).
    rewrite Hc in H. injection H as <-. rewrite Hs. reflexivity.
  - unfold create_issue in H. rewrite Hsev in H. simpl in H. discriminate.
Qed.

(** Severity derivation follows the rules of the specification on every
    failing outcome whose status is an integer or absent and whose error
    message is a string or absent. *)
Lemma determine_severity_rule (result : Result) :
  r_status result = "FAIL" ->
  r_http_status result <> Some None ->
  r_error_message result <> Some None ->
  determine_severity result =
    Ok (Spec.severity_rule
          (PyDict.get (PyDict.get (r_http_status result) (Some 0)) 0)
          (PyDict.get (PyDict.get (r_error_message result) (Some "")) "")).
Proof.
  intros Hfail Hst Hmsg. unfold determine_severity, Spec.severity_rule.
  destruct (r_http_status result) as [[code|]|]; [| congruence |];
    (destruct (r_error_message result) as [[msg|]|]; [| congruence |]);
    simpl; rewrite Hfail, String.eqb_refl;
    repeat match goal with
           | |- context [if ?b then _ else _] => destruct b
           end; reflexivity.
Qed.

(** Severity derivation never gives Low on a failing outcome. *)
Lemma determine_severity_not_Low (result : Result) (severity : Severity) :
  r_status result = "FAIL" ->
  determine_severity result = Ok severity ->
  severity <> Low.
Proof.
  intros Hfail. unfold determine_severity. rewrite Hfail.
  destruct (py_lower _) as [msg|]; simpl; [|discriminate].
  destruct (py_ge _ 500) as [[|]|]; simpl; try discriminate.
  - intros [= <-]. discriminate.
  - destruct (py_ge _ 400) as [[|]|]; simpl; try discriminate.
    + intros [= <-]. discriminate.
    + destruct (PyStr.contains "timeout" msg); [intros [= <-]; discriminate|].
      destruct (PyStr.contains "connection" msg); intros [= <-]; discriminate.
Qed.

(** The loop keeps a property of the issues that holds of every issue
    made from a failing outcome. *)
Lemma analyze_loop_Forall (P : Issue -> Prop) (today : Z) :
  (forall result issue_id issue,
      r_status result = "FAIL" ->
      create_issue today result issue_id = Ok issue -> P issue) ->
  forall results issue_id acc,
    Forall P acc -> Forall P (snd (analyze_loop today results issue_id acc)).
Proof.
  intros Hnew. induction results as [|result rest IH]; intros issue_id acc Hacc; simpl.
  - exact Hacc.
  - destruct (String.eqb_spec (r_status result) "FAIL") as [Hfail|_].
    + destruct (create_issue today result issue_id) as [issue|e] eqn:Hc; simpl.
      * apply IH. apply Forall_app. split; [exact Hacc|].
        constructor; [|constructor]. eapply Hnew; eassumption.
      * exact Hacc.
    + apply IH. exact Hacc.
Qed.

Lemma analyze_results_Forall (P : Issue -> Prop) (today : Z) (self : IssueAnalyzer) :
  (forall result issue_id issue,
      r_status result = "FAIL" ->
      create_issue today result issue_id = Ok issue -> P issue) ->
  Forall P (issues self) ->
  Forall P (issues (snd (analyze_results today self))).
Proof.
  intros Hnew Hold. unfold analyze_results.
  pose proof (analyze_loop_Forall P today Hnew (test_results self) 1 (issues self) Hold) as H.
  destruct (analyze_loop today (test_results self) 1 (issues self)) as [[u|e] acc];
    simpl in *.
  - apply sort_Forall. exact H.
  - exact H.
Qed.

(** What [analyze_results] returns is the list it leaves in the
    analyzer. *)
Lemma analyze_results_returns_issues (today : Z) (self : IssueAnalyzer) (l : list Issue) :
  fst (analyze_results today self) = Ok l ->
  issues (snd (analyze_results today self)) = l.
Proof.
  unfold analyze_results.
  destruct (analyze_loop today (test_results self) 1 (issues self)) as [[u|e] acc];
    simpl; [intros [= <-]; reflexivity | discriminate].
Qed.

(** The priority score stays between 0 and 100. *)
Lemma calculate_priority_score_bounds (service endpoint : string) (severity : Severity)
    (error_message : string) :
  0 <= calculate_priority_score service endpoint severity error_message <= 100.
Proof.
  unfold calculate_priority_score.
  repeat match goal with
         | |- context [if ?b then _ else _] => destruct b
         end; destruct severity; simpl; lia.
Qed.

(** Triage of a single failing outcome. *)
Lemma analyze_results_single (today : Z) (result : Result) (issue : Issue) :
  r_status result = "FAIL" ->
  create_issue today result 1 = Ok issue ->
  fst (analyze_results today (init [result])) = Ok [issue].
Proof.
  intros Hfail Hc. unfold analyze_results, init.
  cbn [test_results issues analyze_loop].
  rewrite Hfail, String.eqb_refl, Hc. reflexivity.
Qed.

End Triage.

Section TriageClaims.

Import Analyze Samples.

(** The severity rules where they apply.  On a failing outcome whose HTTP
    status is an integer or absent and whose error message is a string,
    severity derivation returns the severity of the first matching rule.
    In a report without the key [http_status] the status counts as 0: when
    the message mentions "connection" and not "timeout", and the endpoint
    mentions none of "queue", "series" and "history", the issue has
    severity High, score 75 + 15 = 90 and priority P0. *)
Theorem connection_failure_without_status
    (today : Z) (result : Result) (issue_id : Z) (msg : string) :
  r_status result = "FAIL" ->
  r_http_status result <> Some None ->
  r_error_message result = Some (Some msg) ->
  determine_severity result
  = Ok (Spec.severity_rule (PyDict.get (PyDict.get (r_http_status result) (Some 0)) 0) msg)
  /\ (r_http_status result = None ->
      PyStr.contains "connection" (PyStr.lower msg) = true ->
      PyStr.contains "timeout" (PyStr.lower msg) = false ->
      PyStr.contains "queue" (PyStr.lower (r_endpoint result)) = false ->
      PyStr.contains "series" (PyStr.lower (r_endpoint result)) = false ->
      PyStr.contains "history" (PyStr.lower (r_endpoint result)) = false ->
      exists issue,
        create_issue today result issue_id = Ok issue
        /\ i_severity issue = High
        /\ i_priority_score issue = 90
        /\ i_priority issue = P0).
Proof.
  intros Hfail Hst Hmsg.
  assert (Hrule : determine_severity result
                  = Ok (Spec.severity_rule
                          (PyDict.get (PyDict.get (r_http_status result) (Some 0)) 0) msg)).
  { rewrite determine_severity_rule; [| exact Hfail | exact Hst | congruence].
    rewrite Hmsg. reflexivity. }
  split; [exact Hrule|].
  intros Habsent Hconn Htime Hq Hs Hh.
  rewrite Habsent in Hrule. simpl in Hrule.
  assert (Hhigh : Spec.severity_rule 0 msg = High).
  { unfold Spec.severity_rule. simpl. rewrite Htime, Hconn. reflexivity. }
  rewrite Hhigh in Hrule.
  destruct (create_issue_returns today result issue_id High Hrule)
    as (issue & Hc & Hsev & Hscore & Htext & Hprio & _).
  assert (H90 : i_priority_score issue = 90).
  { rewrite Hscore, Htext, Hmsg. simpl.
    unfold calculate_priority_score. rewrite Hq, Hs, Hh, Htime, Hconn. reflexivity. }
  exists issue. repeat split; try assumption.
  rewrite Hprio, H90. reflexivity.
Qed.

(** C4.  A failing outcome with HTTP status 500, endpoint
    "/api/sonarr/queue/123" and message "Internal Server Error" is triaged
    into one issue with severity Critical, score 100 (100 + 20, capped),
    priority P0 and the day after the triage date as due date. *)
Theorem scenario_A_server_error_on_queue
    (today : Z) (service method : string) :
  exists issue,
    fst (analyze_results today
           (init [ {| r_status := "FAIL"; r_service := service;
                      r_endpoint := "/api/sonarr/queue/123"; r_method := method;
                      r_error_message := Some (Some "Internal Server Error");
                      r_http_status := Some (Some 500) |} ])) = Ok [issue]
    /\ i_severity issue = Critical
    /\ i_priority_score issue = 100
    /\ i_priority issue = P0
    /\ i_due_date issue = Calendar.strftime_ymd (today + 1).
Proof.
  set (outcome := {| r_status := "FAIL"; r_service := service;
                     r_endpoint := "/api/sonarr/queue/123"; r_method := method;
                     r_error_message := Some (Some "Internal Server Error");
                     r_http_status := Some (Some 500) |}).
  assert (Hsev : determine_severity outcome = Ok Critical) by reflexivity.
  destruct (create_issue_returns today outcome 1 Critical Hsev)
    as (issue & Hc & Hs & Hscore & Htext & Hprio & Hdue).
  assert (H100 : i_priority_score issue = 100).
  { rewrite Hscore, Htext. reflexivity. }
  assert (HP0 : i_priority issue = P0).
  { rewrite Hprio, H100. reflexivity. }
  exists issue. split.
  - apply analyze_results_single; [reflexivity | exact Hc].
  - repeat split; try assumption.
    rewrite Hdue, HP0. reflexivity.
Qed.

(** C9.  Every issue that triage returns has severity Critical, High or
    Medium. *)
Theorem triage_never_assigns_Low
    (today : Z) (results : list Result) (l : list Issue) :
  fst (analyze_results today (init results)) = Ok l ->
  Forall (fun issue => i_severity issue = Critical \/ i_severity issue = High
                       \/ i_severity issue = Medium) l.
Proof.
  intros Hl. apply analyze_results_returns_issues in Hl. rewrite <- Hl.
  apply analyze_results_Forall; [|constructor].
  intros result issue_id issue Hfail Hc.
  apply create_issue_severity in Hc.
  pose proof (determine_severity_not_Low result _ Hfail Hc) as Hlow.
  destruct (i_severity issue); auto. congruence.
Qed.

End TriageClaims.

Section TriageExamples.

Import Analyze Samples.

Lemma connection_failure_without_status_witness :
  determine_severity outcome_refused = Ok High
  /\ exists issue,
       create_issue a_day outcome_refused 1 = Ok issue
       /\ i_severity issue = High
       /\ i_priority_score issue = 90
       /\ i_priority issue = P0.
Proof.
  destruct (connection_failure_without_status a_day outcome_refused 1 "connection refused")
    as [Hsev Hissue]; [reflexivity | discriminate | reflexivity |].
  split; [exact Hsev|].
  apply Hissue; reflexivity.
Defined.

(** Scenario B as the runner reports it, with a [null] status, gives no
    issue: ordering [None] against 500 raises.  In a report without the
    key, a message that mentions "connection" and "timeout" matches the
    timeout rule first: Medium, score 50 + 10 + 15 = 75, priority P1. *)
Lemma connection_failure_counterexample :
  create_issue a_day outcome_refused_null 1 = Raise TypeError
  /\ determine_severity outcome_refused_null = Raise TypeError
  /\ exists issue,
       create_issue a_day outcome_connection_timeout 1 = Ok issue
       /\ i_severity issue = Medium
       /\ i_priority_score issue = 75
       /\ i_priority issue = P1.
Proof.
  split; [reflexivity|]. split; [reflexivity|].
  eexists. split; [reflexivity|]. repeat split; reflexivity.
Qed.

(** Scenario A on 2026-11-03: the issue is due on the next day. *)
Example scenario_A_on_a_day :
  (fun r => match r with
            | Ok [issue] => Some (i_id issue, i_priority_score issue, i_due_date issue)
            | _ => None
            end) (fst (analyze_results a_day (init [outcome_500])))
  = Some ("ISSUE-001", 100, "2026-11-04").
Proof. vm_compute. reflexivity. Qed.

Example strftime_ymd_leap_day :
  Calendar.strftime_ymd 0 = "1970-01-01"
  /\ Calendar.strftime_ymd 19782 = "2024-02-29"
  /\ Calendar.strftime_ymd 19783 = "2024-03-01".
Proof. repeat split; vm_compute; reflexivity. Qed.

(** Scenario C: a 404 is High with score 75 and priority P1. *)
Example scenario_C_not_found :
  (fun r => match r with
            | Ok issue => Some (i_severity issue, i_priority_score issue, i_priority issue)
            | Raise _ => None
            end) (create_issue a_day outcome_404 1)
  = Some (High, 75, P1).
Proof. vm_compute. reflexivity. Qed.


Lemma triage_never_assigns_Low_witness :
  Forall (fun issue => i_severity issue = Critical \/ i_severity issue = High
                       \/ i_severity issue = Medium)
    (issues (snd (analyze_results a_day (init [outcome_404; outcome_pass; outcome_500])))).
Proof.
  apply (triage_never_assigns_Low a_day [outcome_404; outcome_pass; outcome_500]).
  reflexivity.
Defined.

End TriageExamples.

(** ** The HTTP client adapter *)

Section Adapter.

Import Smoke.

Context (E : Env).

(** A request that is sent is the prepared one, appended to the log. *)
Lemma request_sends (self : HTTPClient) (method endpoint : string)
    (params : option (list (string * string))) (data : option string)
    (json_data : option (list (string * json))) (w w' : World) (response : Response) :
  request E self method endpoint params data json_data w = (Ok response, w') ->
  exists req,
    prepare E self method endpoint params data json_data = Ok req
    /\ sent w' = (sent w ++ [req])%list.
Proof.
  unfold request.
  destruct (prepare E self method endpoint params data json_data) as [req|e];
    [|discriminate].
  intros [= _ <-]. exists req. split; reflexivity.
Qed.

(** C8, as amended.  In a request that is sent, a non-empty JSON body
    given with the method POST or PUT (in any letter case) adds the JSON
    content type to the client's headers and is sent serialized; with any
    other method, and when no JSON body is given, no header is added and
    the body is the raw data of the caller, none when there is none. *)
Theorem json_body_only_with_POST_or_PUT (self : HTTPClient) (method endpoint : string)
    (params : option (list (string * string))) (data : option string)
    (json_data : option (list (string * json))) (w w' : World) (response : Response) :
  request E self method endpoint params data json_data w = (Ok response, w') ->
  exists req,
    sent w' = (sent w ++ [req])%list
    /\ (forall kv d,
          PyStr.upper method = "POST" \/ PyStr.upper method = "PUT" ->
          json_data = Some (kv :: d) ->
          req_headers req = (headers self ++ [("Content-Type", "application/json")])%list
          /\ req_data req = Some (json_dumps E (kv :: d)))
    /\ (PyStr.upper method <> "POST" /\ PyStr.upper method <> "PUT"
        \/ json_data = None \/ json_data = Some [] ->
        req_headers req = headers self /\ req_data req = data).
Proof.
  intros Hreq. destruct (request_sends _ _ _ _ _ _ _ _ _ Hreq) as (req & Hprep & Hsent).
  exists req. split; [exact Hsent|].
  unfold prepare in Hprep.
  destruct (negb (url_ok E _)); [discriminate|].
  injection Hprep as <-. simpl. split.
  - intros kv d Hm ->. simpl.
    assert (Hb : (String.eqb (PyStr.upper method) "POST"
                  || String.eqb (PyStr.upper method) "PUT") = true).
    { destruct Hm as [-> | ->]; reflexivity. }
    rewrite Hb. simpl. split; reflexivity.
  - intros [[Hpost Hput] | [-> | ->]].
    + apply String.eqb_neq in Hpost, Hput. rewrite Hpost, Hput. simpl.
      split; reflexivity.
    + rewrite andb_false_r. split; reflexivity.
    + rewrite andb_false_r. split; reflexivity.
Qed.

End Adapter.

(** ** The destructive-operation classifier *)

Section Classifier.

Import Smoke.

Lemma existsb_true_iff {A} (f : A -> bool) (l : list A) :
  existsb f l = true <-> exists x, In x l /\ f x = true.
Proof. apply existsb_exists. Qed.

Lemma destructive_patterns_keywords :
  destructive_patterns = map (String "/"%char) Spec.mutating_keywords.
Proof. reflexivity. Qed.

(** C6, as amended.  The classifier returns true exactly when the method
    is DELETE, or the path contains a mutating keyword right after a
    slash, or the operation identifier contains one of those keywords or
    "disable" or "shutdown", or a tag is "destructive", "admin" or
    "system"; letter case is ignored throughout. *)
Theorem destructive_classification (method path : string) (method_data : Operation) :
  _is_destructive_operation method path method_data = true <->
    PyStr.lower method = "delete"
    \/ (exists k, In k Spec.mutating_keywords
                  /\ PyStr.contains (String "/"%char k) (PyStr.lower path) = true)
    \/ (exists k, In k (Spec.mutating_keywords ++ ["disable"; "shutdown"])%list
                  /\ PyStr.contains k
                       (PyStr.lower (PyDict.get (operationId method_data) "")) = true)
    \/ (exists tag, In tag (PyDict.get (tags method_data) [])
                    /\ In (PyStr.lower tag) ["destructive"; "admin"; "system"]).
Proof.
  unfold _is_destructive_operation.
  rewrite destructive_patterns_keywords.
  change destructive_keywords
    with (Spec.mutating_keywords ++ ["disable"; "shutdown"])%list.
  destruct (String.eqb_spec (PyStr.lower method) "delete") as [Hm|Hm].
  { split; [intros _; left; exact Hm | reflexivity]. }
  destruct (existsb _ (map _ _)) eqn:Hpath.
  { split; [intros _ | reflexivity]. right. left.
    apply existsb_true_iff in Hpath. destruct Hpath as (pat & Hin & Hc).
    apply in_map_iff in Hin. destruct Hin as (k & <- & Hk).
    exists k. split; assumption. }
  destruct (existsb _ (_ ++ _)%list) eqn:Hop.
  { split; [intros _ | reflexivity]. right. right. left.
    apply existsb_true_iff in Hop. exact Hop. }
  destruct (existsb _ (PyDict.get (tags method_data) [])) eqn:Htag.
  { split; [intros _ | reflexivity]. right. right. right.
    apply existsb_true_iff in Htag. destruct Htag as (tag & Hin & Ht).
    exists tag. split; [exact Hin|].
    apply existsb_true_iff in Ht. destruct Ht as (t & Ht & Heq).
    apply String.eqb_eq in Heq. rewrite Heq. exact Ht. }
  split; [discriminate|].
  intros [H | [(k & Hk & Hc) | [(k & Hk & Hc) | (tag & Hin & Ht)]]].
  - contradiction.
  - assert (Hex : existsb (fun pattern => PyStr.contains pattern (PyStr.lower path))
                    (map (String "/"%char) Spec.mutating_keywords) = true).
    { apply existsb_true_iff. exists (String "/"%char k). split; [|exact Hc].
      apply in_map. exact Hk. }
    rewrite Hpath in Hex. discriminate.
  - assert (Hex : existsb
                    (fun keyword => PyStr.contains keyword
                       (PyStr.lower (PyDict.get (operationId method_data) "")))
                    (Spec.mutating_keywords ++ ["disable"; "shutdown"])%list = true).
    { apply existsb_true_iff. exists k. split; assumption. }
    rewrite Hop in Hex. discriminate.
  - assert (Hex : existsb
                    (fun tag => existsb (String.eqb (PyStr.lower tag)) destructive_tags)
                    (PyDict.get (tags method_data) []) = true).
    { apply existsb_true_iff. exists tag. split; [exact Hin|].
      apply existsb_true_iff. exists (PyStr.lower tag). split; [exact Ht|].
      apply String.eqb_refl. }
    rewrite Htag in Hex. discriminate.
Qed.

End Classifier.

(** ** The safety-gated executor *)

Section Executor.

Import Smoke.

Context (E : Env).

(** C3.  In safe mode a destructive case with safety mode "mock" sends
    nothing: the outcome is SKIPPED with the mock status 200, the mock
    response body and the note "Mocked in safe mode", and the requests
    sent, the identifier cache and the clock are as before. *)
Theorem mock_in_safe_mode (self : EnhancedAPITester) (config : EndpointConfig) (w : World) :
  safe_mode self = true ->
  c_destructive config = true ->
  c_safe_mode config = "mock" ->
  exists result,
    run_test E self config w = (Ok result, w)
    /\ sent (snd (run_test E self config w)) = sent w
    /\ t_status result = SKIPPED
    /\ t_http_status result = Some 200
    /\ t_response_body result = Some mock_response_body
    /\ t_safety_notes result = Some "Mocked in safe mode"
    /\ t_test_name result = c_name config.
Proof.
  intros Hsafe Hd Hmode. unfold run_test. rewrite Hsafe, Hd, Hmode. simpl.
  eexists. split; [reflexivity|]. repeat split; reflexivity.
Qed.

(** C7.  In safe mode a destructive case with safety mode "skip" sends
    nothing: the outcome is SKIPPED with no HTTP status and the note
    "Skipped in safe mode". *)
Theorem skip_in_safe_mode (self : EnhancedAPITester) (config : EndpointConfig) (w : World) :
  safe_mode self = true ->
  c_destructive config = true ->
  c_safe_mode config = "skip" ->
  exists result,
    run_test E self config w = (Ok result, w)
    /\ sent (snd (run_test E self config w)) = sent w
    /\ t_status result = SKIPPED
    /\ t_http_status result = None
    /\ t_safety_notes result = Some "Skipped in safe mode"
    /\ t_test_name result = c_name config.
Proof.
  intros Hsafe Hd Hmode. unfold run_test. rewrite Hsafe, Hd, Hmode. simpl.
  eexists. split; [reflexivity|]. repeat split; reflexivity.
Qed.

(** The service recorded in an outcome is the one found in the path of
    the case. *)
Lemma run_live_service (self : EnhancedAPITester) (config : EndpointConfig)
    (service : string) (start_time : Z) (w w' : World) (result : TestResult) :
  run_live E self config service start_time w = (Ok result, w') ->
  t_service result = service.
Proof.
  unfold run_live.
  destruct (substitute E _ _ _ _ _) as [endpoint_path w1].
  destruct (request E _ _ _ _ _ _ _) as [[response|e] w2]; [|discriminate].
  destruct (PyStr.truthy _); [|destruct (forallb _ _)]; intros [= <- _]; reflexivity.
Qed.

Lemma run_test_service (self : EnhancedAPITester) (config : EndpointConfig)
    (w w' : World) (result : TestResult) :
  run_test E self config w = (Ok result, w') ->
  t_service result = extract_service_from_path (c_path config).
Proof.
  unfold run_test.
  destruct (safe_mode self && c_destructive config).
  - destruct (String.eqb (c_safe_mode config) "mock"); [intros [= <- _]; reflexivity|].
    destruct (String.eqb (c_safe_mode config) "skip"); [intros [= <- _]; reflexivity|].
    apply run_live_service.
  - apply run_live_service.
Qed.

(** A text without a slash has no prefix with a slash. *)
Lemma prefix_slash (p s : string) :
  String.prefix p s = true ->
  PyStr.contains "/" p = true -> PyStr.contains "/" s = true.
Proof.
  revert s. induction p as [|c p IH]; intros s Hp Hc; [discriminate|].
  destruct s as [|a s]; [discriminate|].
  rewrite prefix_cons in Hp. destruct (ascii_dec c a) as [<-|]; [|discriminate].
  rewrite contains_cons, prefix_one in *.
  destruct (ascii_dec "/" c); [reflexivity|].
  apply IH; assumption.
Qed.

Lemma contains_slash (p s : string) :
  PyStr.contains "/" s = false ->
  PyStr.contains "/" p = true -> PyStr.contains p s = false.
Proof.
  intros Hs Hp. induction s as [|a s IH].
  - destruct p; [discriminate | reflexivity].
  - rewrite contains_cons.
    destruct (String.prefix p (String a s)) eqn:Hpre.
    + rewrite (prefix_slash _ _ Hpre Hp) in Hs. discriminate.
    + rewrite contains_cons in Hs. apply orb_false_iff in Hs.
      destruct Hs as [_ Hs]. rewrite (IH Hs). reflexivity.
Qed.

(** C10.  A base path "/api/" followed by a name without a slash, such
    as "/api/sonarr" or "/api/readarr-audiobooks", has no service segment
    closed by a slash: the service found is "unknown", and that is the
    service recorded in the outcome of a case with this path. *)
Theorem base_path_service_unknown (self : EnhancedAPITester) (config : EndpointConfig)
    (name : string) (w : World) :
  PyStr.contains "/" name = false ->
  c_path config = "/api/" ++ name ->
  extract_service_from_path (c_path config) = "unknown"
  /\ forall result w',
       run_test E self config w = (Ok result, w') -> t_service result = "unknown".
Proof.
  intros Hname Hpath.
  assert (Hu : extract_service_from_path (c_path config) = "unknown").
  { rewrite Hpath. unfold extract_service_from_path.
    assert (Hno : forall pat : string,
               PyStr.contains "/" pat = true ->
               String.prefix pat ("/api/" ++ name) = false ->
               String.prefix pat ("api/" ++ name) = false ->
               String.prefix pat ("pi/" ++ name) = false ->
               String.prefix pat ("i/" ++ name) = false ->
               String.prefix pat ("/" ++ name) = false ->
               PyStr.contains pat ("/api/" ++ name) = false).
    { intros pat Hp H0 H1 H2 H3 H4.
      change (PyStr.contains pat ("/api/" ++ name))
        with (String.prefix pat ("/api/" ++ name)
              || (String.prefix pat ("api/" ++ name)
                  || (String.prefix pat ("pi/" ++ name)
                      || (String.prefix pat ("i/" ++ name)
                          || (String.prefix pat ("/" ++ name)
                              || PyStr.contains pat name))))).
      rewrite H0, H1, H2, H3, H4, (contains_slash pat name Hname Hp). reflexivity. }
    assert (Hseg : forall seg : string,
               PyStr.contains "/" seg = true ->
               String.prefix seg name = false).
    { intros seg Hs. destruct (String.prefix seg name) eqn:Hpre; [|reflexivity].
      rewrite (prefix_slash _ _ Hpre Hs) in Hname. discriminate. }
    rewrite !Hno; try reflexivity;
      simpl; apply Hseg; reflexivity. }
  split; [exact Hu|].
  intros result w' Hrun. rewrite (run_test_service _ _ _ _ _ Hrun). exact Hu.
Qed.

End Executor.

Section RunAll.

Import Smoke.

Context (E : Env) (self : EnhancedAPITester).

(** Every completed future adds one result. *)
Lemma collect_length (completed : list nat) (acc : list TestResult) (w : World) :
  Forall (fun i => (i < length (endpoint_configs self))%nat) completed ->
  length (fst (collect E self completed acc w)) = (length acc + length completed)%nat.
Proof.
  revert acc w. induction completed as [|i rest IH]; intros acc w Hall; simpl.
  - lia.
  - inversion Hall as [|? ? Hi Hrest]; subst.
    destruct (lookup_lt_is_Some_2 (endpoint_configs self) i Hi) as [config Hconfig].
    rewrite Hconfig.
    destruct (run_test E self config w) as [[result|e] w'];
      rewrite (IH _ _ Hrest), length_app; simpl; lia.
Qed.

(** When the tests run one after another and printing returns: whatever
    the order of completion, a run of a fresh tester returns as many
    outcomes as the catalog has cases. *)
Lemma run_all_tests_length (completed : list nat) (w : World) :
  test_results self = [] ->
  Permutation completed (seq 0 (length (endpoint_configs self))) ->
  length (fst (run_all_tests E self completed w)) = length (endpoint_configs self).
Proof.
  intros Hfresh Hperm. unfold run_all_tests.
  pose proof (collect_length completed (test_results self) w) as Hlen.
  destruct (collect E self completed (test_results self) w) as [results w'].
  simpl in *. rewrite sort_length, Hlen, Hfresh.
  - simpl. rewrite (Permutation_length Hperm). apply length_seq.
  - eapply Permutation_Forall; [symmetry; exact Hperm|].
    apply Forall_forall. intros i Hi. apply elem_of_seq in Hi. lia.
Qed.

End RunAll.

(** *** When the outcomes do come back in catalog order

    The sort key of an outcome is the position that the dictionary [order]
    gives to its endpoint.  When the paths of the catalog are pairwise
    different, no case has a placeholder to substitute (or it is mocked or
    skipped, which keeps the path), and no future raises, every outcome is
    keyed by the position of its case, and the sorted list is in catalog
    order for every order of completion. *)

Section CatalogOrder.

Import Smoke.

Context (E : Env) (self : EnhancedAPITester).

Hypothesis fresh : test_results self = [].
Hypothesis urls_accepted : forall url, url_ok E url = true.
Hypothesis paths_differ : NoDup (map c_path (endpoint_configs self)).
Hypothesis paths_kept :
  Forall (fun c => c_path_params c = None
                   \/ (safe_mode self = true /\ c_destructive c = true
                       /\ (c_safe_mode c = "mock" \/ c_safe_mode c = "skip")))
    (endpoint_configs self).

Lemma insert_Sorted {A} (key : A -> Z) (x : A) (l : list A) :
  Sorted Z.le (map key l) -> Sorted Z.le (map key (PyList.insert key false x l)).
Proof.
  induction l as [|y l IH]; simpl; intros Hs.
  - repeat constructor.
  - destruct (key y <? key x) eqn:Hlt; simpl.
    + apply Sorted_inv in Hs. destruct Hs as [Hs Hhd].
      constructor; [apply IH; exact Hs|].
      destruct l as [|z l]; simpl.
      * constructor. lia.
      * apply HdRel_inv in Hhd.
        destruct (key z <? key x); simpl; constructor; lia.
    + constructor; [exact Hs|]. constructor. lia.
Qed.

Lemma sort_Sorted {A} (key : A -> Z) (l : list A) :
  Sorted Z.le (map key (PyList.sort key false l)).
Proof.
  induction l as [|x l IH]; [constructor|].
  unfold PyList.sort in *. simpl. apply insert_Sorted. exact IH.
Qed.

Lemma order_from_other (configs : list EndpointConfig) (k : Z) (m : gmap string Z)
    (p : string) :
  p ∉ map c_path configs -> order_from k configs m !! p = m !! p.
Proof.
  revert k m. induction configs as [|c rest IH]; intros k m Hp; simpl; [reflexivity|].
  simpl in Hp. apply not_elem_of_cons in Hp. destruct Hp as [Hne Hp].
  rewrite (IH _ _ Hp). apply lookup_insert_ne. congruence.
Qed.

Lemma order_from_position (configs : list EndpointConfig) (k : Z) (m : gmap string Z)
    (i : nat) (c : EndpointConfig) :
  NoDup (map c_path configs) ->
  configs !! i = Some c ->
  order_from k configs m !! c_path c = Some (k + Z.of_nat i).
Proof.
  revert k m i. induction configs as [|c0 rest IH]; intros k m i Hnd Hi; [discriminate|].
  simpl in Hnd. apply NoDup_cons in Hnd. destruct Hnd as [Hfirst Hnd].
  destruct i as [|i]; simpl in *.
  - injection Hi as ->. rewrite (order_from_other _ _ _ _ Hfirst).
    rewrite lookup_insert_eq. f_equal. lia.
  - rewrite (IH _ _ _ Hnd Hi). f_equal. lia.
Qed.

(** The outcome of a case that keeps its path. *)
Lemma run_test_keeps_path (c : EndpointConfig) (w : World) :
  c_path_params c = None
  \/ (safe_mode self = true /\ c_destructive c = true
      /\ (c_safe_mode c = "mock" \/ c_safe_mode c = "skip")) ->
  exists result w',
    run_test E self c w = (Ok result, w')
    /\ t_endpoint result = c_path c /\ t_test_name result = c_name c.
Proof.
  assert (Hlive : c_path_params c = None ->
            forall service start_time,
            exists result w',
              run_live E self c service start_time w = (Ok result, w')
              /\ t_endpoint result = c_path c /\ t_test_name result = c_name c).
  { intros Hnone service start_time. unfold run_live. rewrite Hnone. simpl.
    unfold request, prepare. rewrite urls_accepted. simpl.
    destruct (PyStr.truthy _); [|destruct (_ && _)];
      eexists; eexists; (split; [reflexivity|]); split; reflexivity. }
  intros [Hnone | (Hsafe & Hd & Hmode)]; unfold run_test.
  - destruct (safe_mode self && c_destructive c); [|apply Hlive; exact Hnone].
    destruct (String.eqb (c_safe_mode c) "mock");
      [eexists; eexists; (split; [reflexivity|]); split; reflexivity|].
    destruct (String.eqb (c_safe_mode c) "skip");
      [eexists; eexists; (split; [reflexivity|]); split; reflexivity|].
    apply Hlive; exact Hnone.
  - rewrite Hsafe, Hd. simpl. destruct Hmode as [-> | ->]; simpl;
      eexists; eexists; (split; [reflexivity|]); split; reflexivity.
Qed.

(** Every completed future adds the outcome of its own case. *)
Lemma collect_belongs (completed : list nat) (acc : list TestResult) (w : World) :
  Forall (fun i => (i < length (endpoint_configs self))%nat) completed ->
  exists results,
    fst (collect E self completed acc w) = (acc ++ results)%list
    /\ Forall2 (belongs self) completed results.
Proof.
  revert acc w. induction completed as [|i rest IH]; intros acc w Hall; simpl.
  - exists []. split; [symmetry; apply app_nil_r | constructor].
  - apply Forall_cons in Hall. destruct Hall as [Hi Hall].
    destruct (lookup_lt_is_Some_2 (endpoint_configs self) i Hi) as [c Hc].
    rewrite Hc.
    assert (Hkept := proj1 (Forall_lookup _ _) paths_kept i c Hc). simpl in Hkept.
    destruct (run_test_keeps_path c w Hkept) as (result & w' & Hrun & He & Hn).
    rewrite Hrun.
    destruct (IH (acc ++ [result])%list w' Hall) as (results & Hres & Hbel).
    exists (result :: results). split.
    + rewrite Hres, <- app_assoc. reflexivity.
    + constructor; [|exact Hbel]. exists c. repeat split; assumption.
Qed.

Lemma seq_Sorted (k n : nat) : Sorted Z.le (map Z.of_nat (seq k n)).
Proof.
  revert k. induction n as [|n IH]; intros k; simpl; [constructor|].
  constructor; [apply IH|].
  destruct n; simpl; constructor. lia.
Qed.

(** An outcome that belongs to position [i] is keyed by [i]. *)
Lemma belongs_key (i : nat) (result : TestResult) :
  belongs self i result ->
  PyDict.get (order_from 0 (endpoint_configs self) ∅ !! t_endpoint result) (10 ^ 9)
  = Z.of_nat i.
Proof.
  intros (c & Hc & He & _). rewrite He.
  rewrite (order_from_position _ 0 ∅ i c paths_differ Hc). reflexivity.
Qed.

(** Outcomes that belong, one each, to the positions of the catalog come
    out of the sort in catalog order, in whatever order they were
    listed. *)
Lemma sorted_in_catalog_order (completed : list nat) (results : list TestResult) :
  Permutation completed (seq 0 (length (endpoint_configs self))) ->
  Forall2 (belongs self) completed results ->
  Forall2 (fun c result => t_test_name result = c_name c /\ t_endpoint result = c_path c)
    (endpoint_configs self)
    (PyList.sort
       (fun r => PyDict.get (order_from 0 (endpoint_configs self) ∅ !! t_endpoint r) (10 ^ 9))
       false results).
Proof.
  intros Hperm Hbel.
  set (key := fun r : TestResult =>
                PyDict.get (order_from 0 (endpoint_configs self) ∅ !! t_endpoint r) (10 ^ 9)).
  set (sorted := PyList.sort key false results).
  assert (Hkeys : map key results = map Z.of_nat completed).
  { clear -Hbel paths_differ. induction Hbel as [|i r idx rs Hb _ IH]; [reflexivity|].
    simpl. rewrite IH. f_equal. apply belongs_key. exact Hb. }
  assert (Hsorted : map key sorted = map Z.of_nat (seq 0 (length (endpoint_configs self)))).
  { apply (Sorted_unique Z.le).
    - apply sort_Sorted.
    - apply seq_Sorted.
    - unfold sorted. rewrite (sort_Permutation key false results), Hkeys, Hperm.
      reflexivity. }
  assert (Hsome : Forall (fun r => exists i, belongs self i r) sorted).
  { apply sort_Forall. clear -Hbel.
    induction Hbel as [|i r idx rs Hb _ IH]; constructor; eauto. }
  apply Forall2_same_length_lookup_2.
  - unfold sorted. rewrite sort_length, <- (Forall2_length _ _ _ Hbel).
    rewrite (Permutation_length Hperm), length_seq. reflexivity.
  - intros i c r Hc Hr.
    assert (Hi : key r = Z.of_nat i).
    { assert (Hk : map key sorted !! i = Some (key r)).
      { rewrite list_lookup_fmap, Hr. reflexivity. }
      rewrite Hsorted, list_lookup_fmap in Hk.
      rewrite lookup_seq_lt in Hk by (apply lookup_lt_Some in Hc; exact Hc).
      simpl in Hk. congruence. }
    assert (Hr' := proj1 (Forall_lookup _ _) Hsome i r Hr). simpl in Hr'.
    destruct Hr' as (j & Hj).
    pose proof (belongs_key j r Hj) as Hkj. fold (key r) in Hkj.
    assert (j = i) by lia. subst j.
    destruct Hj as (c' & Hc' & He & Hn).
    rewrite Hc in Hc'. injection Hc' as <-. split; assumption.
Qed.

(** When the tests run one after another and no future raises: for every
    order of completion, the outcome at each position of the returned list
    is the outcome of the case at that position of the catalog. *)
Theorem run_all_tests_catalog_order (completed : list nat) (w : World) :
  Permutation completed (seq 0 (length (endpoint_configs self))) ->
  Forall2 (fun c result => t_test_name result = c_name c /\ t_endpoint result = c_path c)
    (endpoint_configs self) (fst (run_all_tests E self completed w)).
Proof.
  intros Hperm.
  assert (Hall : Forall (fun i => (i < length (endpoint_configs self))%nat) completed).
  { eapply Permutation_Forall; [symmetry; exact Hperm|].
    apply Forall_forall. intros i Hi. apply elem_of_seq in Hi. lia. }
  destruct (collect_belongs completed (test_results self) w Hall) as (results & Hres & Hbel).
  rewrite fresh in Hres. simpl in Hres.
  unfold run_all_tests. rewrite fresh.
  destruct (collect E self completed [] w) as [collected w']. simpl in Hres. subst collected.
  simpl. exact (sorted_in_catalog_order completed results Hperm Hbel).
Qed.

End CatalogOrder.

Section ExecutorExamples.

Import Smoke Samples.

Lemma mock_in_safe_mode_witness :
  exists result,
    run_test offline (tester true [pause_sabnzbd_queue]) pause_sabnzbd_queue fresh_world
    = (Ok result, fresh_world)
    /\ sent (snd (run_test offline (tester true [pause_sabnzbd_queue])
                    pause_sabnzbd_queue fresh_world)) = sent fresh_world
    /\ t_status result = SKIPPED
    /\ t_http_status result = Some 200
    /\ t_response_body result = Some mock_response_body
    /\ t_safety_notes result = Some "Mocked in safe mode"
    /\ t_test_name result = "Pause SABnzbd Queue".
Proof.
  apply (mock_in_safe_mode offline (tester true [pause_sabnzbd_queue])
           pause_sabnzbd_queue fresh_world); reflexivity.
Defined.

Lemma skip_in_safe_mode_witness :
  exists result,
    run_test offline (tester true [skip_series]) skip_series fresh_world
    = (Ok result, fresh_world)
    /\ sent (snd (run_test offline (tester true [skip_series]) skip_series fresh_world))
       = sent fresh_world
    /\ t_status result = SKIPPED
    /\ t_http_status result = None
    /\ t_safety_notes result = Some "Skipped in safe mode"
    /\ t_test_name result = "Delete Series".
Proof.
  apply (skip_in_safe_mode offline (tester true [skip_series]) skip_series fresh_world);
    reflexivity.
Defined.

(** Without safe mode the same case is sent. *)
Example skip_series_live :
  length (sent (snd (run_test offline (tester false [skip_series]) skip_series fresh_world)))
  = 2%nat.
Proof. reflexivity. Qed.

Lemma base_path_service_unknown_witness :
  extract_service_from_path "/api/sonarr" = "unknown"
  /\ forall result w',
       run_test offline (tester true default_base_cases)
         (default_config "Get Sonarr Base" "/api/sonarr" "GET" "Get Sonarr base information")
         fresh_world = (Ok result, w') ->
       t_service result = "unknown".
Proof.
  apply (base_path_service_unknown offline (tester true default_base_cases)
           (default_config "Get Sonarr Base" "/api/sonarr" "GET" "Get Sonarr base information")
           "sonarr" fresh_world); reflexivity.
Defined.

(** The six base cases of the default catalog are all recorded under
    the service "unknown". *)
Example default_base_cases_unknown :
  map t_service
    (fst (run_all_tests offline (tester true default_base_cases) (seq 0 6) fresh_world))
  = ["unknown"; "unknown"; "unknown"; "unknown"; "unknown"; "unknown"].
Proof. vm_compute. reflexivity. Qed.

Lemma json_body_only_with_POST_or_PUT_witness :
  exists req,
    sent (snd (request offline client "post" "/api/sonarr/series" None None
                 (Some [("title", JStr "Example")]) fresh_world))
    = (sent fresh_world ++ [req])%list
    /\ (forall kv d,
          PyStr.upper "post" = "POST" \/ PyStr.upper "post" = "PUT" ->
          Some [("title", JStr "Example")] = Some (kv :: d) ->
          req_headers req = (headers client ++ [("Content-Type", "application/json")])%list
          /\ req_data req = Some (json_dumps offline (kv :: d)))
    /\ (PyStr.upper "post" <> "POST" /\ PyStr.upper "post" <> "PUT"
        \/ Some [("title", JStr "Example")] = None
        \/ Some [("title", JStr "Example")] = Some [] ->
        req_headers req = headers client /\ req_data req = None).
Proof.
  apply (json_body_only_with_POST_or_PUT offline client "post" "/api/sonarr/series"
           None None (Some [("title", JStr "Example")]) fresh_world _ refused).
  reflexivity.
Defined.

(** The base cases have different paths and no placeholders: they come
    back in catalog order from a scrambled completion order. *)
Example default_base_cases_in_order :
  map t_test_name
    (fst (run_all_tests offline (tester true default_base_cases)
            [3; 0; 5; 1; 4; 2]%nat fresh_world))
  = map c_name default_base_cases.
Proof. vm_compute. reflexivity. Qed.

(** C8 as stated fails: a JSON body given with PATCH is not sent, and no
    content type is set. *)
Lemma json_body_counterexample :
  exists req,
    sent (snd (request offline client "PATCH" "/api/sonarr/series/1" None None
                 (Some [("title", JStr "Example")]) fresh_world)) = [req]
    /\ req_method req = "PATCH"
    /\ req_data req = None
    /\ req_headers req = [("Accept", "application/json, */*;q=0.1")].
Proof.
  eexists. split; [reflexivity|]. repeat split; reflexivity.
Qed.

Lemma destructive_classification_witness :
  _is_destructive_operation "get" "/series/{id}"
    {| operationId := Some "deleteSeries"; tags := None |} = true.
Proof.
  apply (proj2 (destructive_classification "get" "/series/{id}"
                  {| operationId := Some "deleteSeries"; tags := None |})).
  right. right. left. exists "delete". split; [left; reflexivity | reflexivity].
Defined.

(** C6 as stated fails: a path that contains "delete", but not right
    after a slash, is not classified destructive. *)
Lemma destructive_classification_counterexample :
  PyStr.contains "delete" "/series/bulkdelete" = true
  /\ _is_destructive_operation "post" "/series/bulkdelete"
       {| operationId := Some "bulkEdit"; tags := Some ["series"] |} = false.
Proof. split; reflexivity. Qed.

(** C1 fails on the code.  With the first case's placeholder
    substituted, its outcome is listed after that of the second case,
    whatever the order of completion; with one path under two methods,
    the outcomes stay in their order of completion. *)
Theorem catalog_order_lost :
  (forall completed,
      completed = [0; 1]%nat \/ completed = [1; 0]%nat ->
      map t_test_name
        (fst (run_all_tests offline
                (tester true [get_sabnzbd_queue_item; pause_sabnzbd_queue])
                completed fresh_world))
      = ["Pause SABnzbd Queue"; "Get SABnzbd Queue Item"])
  /\ map t_test_name
       (fst (run_all_tests offline (tester true [list_series; add_series])
               [1; 0]%nat fresh_world))
     = ["Add Series"; "List Series"].
Proof.
  split.
  - intros completed [-> | ->]; vm_compute; reflexivity.
  - vm_compute. reflexivity.
Qed.

Lemma catalog_order_lost_witness :
  map t_test_name
    (fst (run_all_tests offline
            (tester true [get_sabnzbd_queue_item; pause_sabnzbd_queue])
            [0; 1]%nat fresh_world))
  = ["Pause SABnzbd Queue"; "Get SABnzbd Queue Item"].
Proof.
  apply (proj1 catalog_order_lost). left. reflexivity.
Defined.

End ExecutorExamples.


(** * Further properties of the triage engine *)

Section TriageMore.

Import Analyze.

(** An issue carries what [create_issue] derived from its outcome. *)
Lemma create_issue_fields (today : Z) (result : Result) (issue_id : Z) (issue : Issue) :
  create_issue today result issue_id = Ok issue ->
  determine_severity result = Ok (i_severity issue)
  /\ i_priority_score issue
     = calculate_priority_score (r_service result) (r_endpoint result) (i_severity issue)
         (i_error_message issue)
  /\ i_priority issue = score_to_priority (i_priority_score issue)
  /\ i_due_date issue = calculate_due_date today (i_priority issue)
  /\ i_service issue = r_service result
  /\ i_id issue = Report.issue_name issue_id.
Proof.
  intros Hc. pose proof (create_issue_severity _ _ _ _ Hc) as Hsev.
  split; [exact Hsev|].
  unfold create_issue in Hc. rewrite Hsev in Hc. simpl in Hc.
  destruct (suggest_fix result) as [text|]; simpl in Hc; [|discriminate].
  destruct (PyDict.get (r_error_message result) (Some "")) as [msg|]; simpl in Hc;
    [|discriminate].
  injection Hc as <-. simpl. repeat split; reflexivity.
Qed.

Lemma calculate_priority_score_base (service endpoint : string) (severity : Severity)
    (error_message : string) :
  severity_scores severity
  <= calculate_priority_score service endpoint severity error_message.
Proof.
  unfold calculate_priority_score.
  repeat match goal with
         | |- context [if ?b then _ else _] => destruct b
         end; destruct severity; simpl; lia.
Qed.

(** X1.  Every issue of a triage run has a score from 50 to 100 and a priority
    other than P3, hence a turnaround of at most 7 days. *)
Theorem triage_scores_and_bands (today : Z) (results : list Result) (l : list Issue) :
  fst (analyze_results today (init results)) = Ok l ->
  Forall (fun issue => 50 <= i_priority_score issue <= 100
                       /\ i_priority issue <> P3
                       /\ base_turnaround (i_priority issue) <= 7) l.
Proof.
  intros Hl. apply analyze_results_returns_issues in Hl. rewrite <- Hl.
  apply analyze_results_Forall; [|constructor].
  intros result issue_id issue Hfail Hc.
  destruct (create_issue_fields _ _ _ _ Hc) as (Hsev & Hscore & Hprio & _).
  pose proof (determine_severity_not_Low result _ Hfail Hsev) as Hlow.
  pose proof (calculate_priority_score_base (r_service result) (r_endpoint result)
                (i_severity issue) (i_error_message issue)) as Hbase.
  pose proof (calculate_priority_score_bounds (r_service result) (r_endpoint result)
                (i_severity issue) (i_error_message issue)) as Hbound.
  rewrite <- Hscore in Hbase, Hbound.
  assert (H50 : 50 <= i_priority_score issue).
  { destruct (i_severity issue); simpl in Hbase; try lia. congruence. }
  split; [lia|].
  rewrite Hprio. unfold score_to_priority.
  destruct (80 <=? i_priority_score issue) eqn:H80; [split; [discriminate | simpl; lia]|].
  destruct (60 <=? i_priority_score issue) eqn:H60; [split; [discriminate | simpl; lia]|].
  destruct (40 <=? i_priority_score issue) eqn:H40; [split; [discriminate | simpl; lia]|].
  lia.
Qed.

(** Sorting with [reverse=True] puts larger keys first. *)
Lemma insert_desc_Sorted {A} (key : A -> Z) (x : A) (l : list A) :
  Sorted (fun a b => key b <= key a) l ->
  Sorted (fun a b => key b <= key a) (PyList.insert key true x l).
Proof.
  induction l as [|y l IH]; simpl; intros Hs.
  - repeat constructor.
  - destruct (key x <? key y) eqn:Hlt.
    + apply Sorted_inv in Hs. destruct Hs as [Hs Hhd].
      constructor; [apply IH; exact Hs|].
      destruct l as [|z l]; simpl.
      * constructor. lia.
      * apply HdRel_inv in Hhd.
        destruct (key x <? key z); constructor; lia.
    + constructor; [exact Hs|]. constructor. lia.
Qed.

Lemma sort_desc_Sorted {A} (key : A -> Z) (l : list A) :
  Sorted (fun a b => key b <= key a) (PyList.sort key true l).
Proof.
  induction l as [|x l IH]; [constructor|].
  unfold PyList.sort in *. simpl. apply insert_desc_Sorted. exact IH.
Qed.

(** X2.  The list that triage returns is ordered by descending score: no issue
    comes before an issue with a higher score.  It holds for every
    analyzer, whatever its list held before. *)
Theorem triage_sorted_by_score (today : Z) (self : IssueAnalyzer) (l : list Issue) :
  fst (analyze_results today self) = Ok l ->
  StronglySorted (fun a b => i_priority_score b <= i_priority_score a) l.
Proof.
  unfold analyze_results.
  destruct (analyze_loop today (test_results self) 1 (issues self)) as [[u|e] acc];
    simpl; [|discriminate].
  intros [= <-]. apply Sorted_StronglySorted.
  - intros a b c Hab Hbc. lia.
  - apply sort_desc_Sorted.
Qed.

(** The loop appends one issue for every failing outcome and numbers them
    in order. *)
Lemma analyze_loop_ids (today : Z) (results : list Result) (issue_id : Z)
    (acc acc' : list Issue) :
  analyze_loop today results issue_id acc = (Ok tt, acc') ->
  exists created,
    acc' = (acc ++ created)%list
    /\ length created
       = length (List.filter (fun r => String.eqb (r_status r) "FAIL") results)
    /\ map i_id created
       = map (fun k => Report.issue_name (issue_id + Z.of_nat k))
           (seq 0 (length created)).
Proof.
  revert issue_id acc. induction results as [|result rest IH]; intros issue_id acc; simpl.
  - intros [= <-]. exists []. rewrite app_nil_r. repeat split; reflexivity.
  - destruct (String.eqb (r_status result) "FAIL").
    + destruct (create_issue today result issue_id) as [issue|e] eqn:Hc; [|discriminate].
      intros Hloop. destruct (IH _ _ Hloop) as (created & Hacc & Hlen & Hids). subst acc'.
      exists (issue :: created). rewrite <- app_assoc. split; [reflexivity|].
      split; [simpl; rewrite Hlen; reflexivity|].
      simpl. f_equal.
      * destruct (create_issue_fields _ _ _ _ Hc) as (_ & _ & _ & _ & _ & Hid).
        rewrite Hid. f_equal. lia.
      * rewrite Hids, <- seq_shift, map_map. apply map_ext. intros k. f_equal. lia.
    + apply IH.
Qed.

(** Reading the number back from an identifier. *)
Lemma to_Z_zeros (k : nat) (s : string) :
  PyText.to_Z (PyStr.zeros k ++ s) = PyText.to_Z s.
Proof.
  induction k as [|k IH]; [reflexivity|].
  unfold PyText.to_Z in *. simpl.
  change (NilEmpty.uint_of_string (String "0" (PyStr.zeros k ++ s)))
    with (match NilEmpty.uint_of_string (PyStr.zeros k ++ s) with
          | Some d => Some (Decimal.D0 d)
          | None => None
          end).
  destruct (NilEmpty.uint_of_string (PyStr.zeros k ++ s)) as [d|];
    destruct (NilEmpty.uint_of_string s) as [d'|]; try discriminate; try reflexivity.
  injection IH as IH. f_equal. exact IH.
Qed.

Lemma to_Z_of_Z (z : Z) : 0 <= z -> PyText.to_Z (PyStr.of_Z z) = Some z.
Proof.
  intros Hz. unfold PyText.to_Z, PyStr.of_Z.
  destruct z as [|p|p]; [reflexivity | | lia].
  change (NilEmpty.string_of_int (Z.to_int (Z.pos p)))
    with (NilEmpty.string_of_uint (Pos.to_uint p)).
  rewrite NilEmpty.usu. f_equal. unfold Z.of_uint.
  rewrite DecimalPos.Unsigned.of_to. reflexivity.
Qed.

Lemma issue_name_inj (a b : Z) :
  0 <= a -> 0 <= b -> Report.issue_name a = Report.issue_name b -> a = b.
Proof.
  intros Ha Hb H. unfold Report.issue_name in H.
  assert (Hx : PyStr.zfill 3 (PyStr.of_Z a) = PyStr.zfill 3 (PyStr.of_Z b)).
  { injection H as H. exact H. }
  assert (Ht : PyText.to_Z (PyStr.zfill 3 (PyStr.of_Z a))
               = PyText.to_Z (PyStr.zfill 3 (PyStr.of_Z b))) by (rewrite Hx; reflexivity).
  unfold PyStr.zfill in Ht. rewrite !to_Z_zeros, !to_Z_of_Z in Ht by assumption.
  congruence.
Qed.

(** X3.  A triage run on a fresh analyzer returns as many issues as there are
    failing outcomes; their identifiers are ISSUE-001, ISSUE-002, ... up to
    that number, so no two issues share an identifier. *)
Theorem triage_counts_and_numbers (today : Z) (results : list Result) (l : list Issue) :
  fst (analyze_results today (init results)) = Ok l ->
  length l = length (List.filter (fun r => String.eqb (r_status r) "FAIL") results)
  /\ Permutation (map i_id l)
       (map (fun k => Report.issue_name (1 + Z.of_nat k)) (seq 0 (length l)))
  /\ NoDup (map i_id l).
Proof.
  unfold analyze_results, init. simpl.
  destruct (analyze_loop today results 1 []) as [[[]|e] acc] eqn:Hloop; simpl; [|discriminate].
  intros [= <-]. destruct (analyze_loop_ids _ _ _ _ _ Hloop) as (created & Hacc & Hlen & Hids).
  subst acc.
  simpl. unfold prioritize_issues. rewrite sort_length. split; [exact Hlen|].
  assert (Hperm : Permutation (map i_id (PyList.sort i_priority_score true created))
                    (map (fun k => Report.issue_name (1 + Z.of_nat k))
                       (seq 0 (length created)))).
  { rewrite <- Hids. apply Permutation_map. apply sort_Permutation. }
  split; [exact Hperm|].
  rewrite Hperm. apply NoDup_fmap_2; [|apply NoDup_seq].
  intros a b Hab. apply issue_name_inj in Hab; lia.
Qed.

End TriageMore.

Section TriageRules.

Import Analyze.

(** X4.  Raising the HTTP status of an otherwise identical outcome never lowers
    its severity. *)
Theorem severity_monotone_in_status
    (status service endpoint method msg : string) (a b : Z) :
  a <= b ->
  exists s1 s2,
    determine_severity (mkResult status service endpoint method (Some (Some msg))
                          (Some (Some a))) = Ok s1
    /\ determine_severity (mkResult status service endpoint method (Some (Some msg))
                             (Some (Some b))) = Ok s2
    /\ Report.severity_rank s1 <= Report.severity_rank s2.
Proof.
  intros Hab. unfold determine_severity. simpl.
  destruct (500 <=? a) eqn:Ha5; destruct (500 <=? b) eqn:Hb5; simpl; try lia;
    destruct (400 <=? a) eqn:Ha4; destruct (400 <=? b) eqn:Hb4; simpl; try lia;
    repeat match goal with
           | |- context [if ?c then _ else _] => destruct c
           end;
    eexists; eexists; (split; [reflexivity|]); (split; [reflexivity|]); simpl; lia.
Qed.

(** X5.  An issue with a higher score is never given a longer turnaround. *)
Theorem turnaround_antitone_in_score (s1 s2 : Z) :
  s1 <= s2 ->
  base_turnaround (score_to_priority s2) <= base_turnaround (score_to_priority s1).
Proof.
  intros H. unfold score_to_priority.
  destruct (80 <=? s1) eqn:A1; destruct (80 <=? s2) eqn:A2;
    destruct (60 <=? s1) eqn:B1; destruct (60 <=? s2) eqn:B2;
    destruct (40 <=? s1) eqn:C1; destruct (40 <=? s2) eqn:C2; simpl; lia.
Qed.

(** An outcome whose [http_status] is [null] makes issue creation raise. *)
Lemma create_issue_null_status (today : Z) (result : Result) (issue_id : Z) :
  r_http_status result = Some None ->
  exists e, create_issue today result issue_id = Raise e.
Proof.
  intros Hnull. unfold create_issue, determine_severity. rewrite Hnull. simpl.
  destruct (py_lower _); simpl; eexists; reflexivity.
Qed.

Lemma analyze_loop_raises (today : Z) (results : list Result) (result : Result) :
  In result results ->
  r_status result = "FAIL" ->
  (forall issue_id, exists e, create_issue today result issue_id = Raise e) ->
  forall issue_id acc, exists e acc',
    analyze_loop today results issue_id acc = (Raise e, acc').
Proof.
  intros Hin Hfail Hraise.
  induction results as [|r rest IH]; intros issue_id acc; [contradiction|].
  simpl. destruct Hin as [-> | Hin].
  - rewrite Hfail, String.eqb_refl.
    destruct (Hraise issue_id) as [e He]. rewrite He. eauto.
  - destruct (String.eqb (r_status r) "FAIL"); [|apply IH; exact Hin].
    destruct (create_issue today r issue_id) as [issue|e]; [apply IH; exact Hin | eauto].
Qed.

(** X6.  One failing outcome with a [null] status in the report aborts the
    whole analysis: no issue list is returned. *)
Theorem null_status_aborts_analysis (today : Z) (self : IssueAnalyzer) (result : Result) :
  In result (test_results self) ->
  r_status result = "FAIL" ->
  r_http_status result = Some None ->
  exists e, fst (analyze_results today self) = Raise e.
Proof.
  intros Hin Hfail Hnull. unfold analyze_results.
  destruct (analyze_loop_raises today (test_results self) result Hin Hfail
              (fun issue_id => create_issue_null_status today result issue_id Hnull)
              1 (issues self)) as (e & acc' & ->).
  exists e. reflexivity.
Qed.

Lemma split_head_stops (path query : string) :
  PyStr.contains "?" path = false ->
  PyStr.split_head "?"%char (path ++ "?" ++ query) = path
  /\ PyStr.split_head "?"%char path = path.
Proof.
  induction path as [|c path IH]; intros Hno; [split; reflexivity|].
  rewrite contains_cons, prefix_one in Hno.
  apply orb_false_iff in Hno. destruct Hno as [Hc Hno].
  destruct (IH Hno) as [IH1 IH2]. simpl.
  destruct (Ascii.eqb_spec c "?") as [->|Hne].
  - destruct (ascii_dec "?" "?"); [discriminate | contradiction].
  - rewrite IH2. split; [|reflexivity]. f_equal. exact IH1.
Qed.

(** X7.  The file location does not depend on the query string of the endpoint. *)
Theorem find_file_location_ignores_query (service path query : string) :
  PyStr.contains "?" path = false ->
  find_file_location service (path ++ "?" ++ query) = find_file_location service path.
Proof.
  intros Hno. unfold find_file_location.
  destruct (split_head_stops path query Hno) as [-> ->]. reflexivity.
Qed.

End TriageRules.

Section TriageTwice.

Import Analyze.







End TriageTwice.

(** * Further properties of the runner *)

Section TextFacts.

Lemma lower_upper_ascii (c : ascii) :
  PyStr.lower_ascii (PyStr.upper_ascii c) = PyStr.lower_ascii c.
Proof. destruct c as [[] [] [] [] [] [] [] []]; reflexivity. Qed.

Lemma lower_upper (s : string) : PyStr.lower (PyStr.upper s) = PyStr.lower s.
Proof.
  induction s as [|c s IH]; [reflexivity|].
  unfold PyStr.lower, PyStr.upper in *. simpl. rewrite lower_upper_ascii, IH. reflexivity.
Qed.

Lemma lower_app (a b : string) : PyStr.lower (a ++ b) = PyStr.lower a ++ PyStr.lower b.
Proof.
  induction a as [|c a IH]; [reflexivity|].
  unfold PyStr.lower in *. simpl. rewrite IH. reflexivity.
Qed.

Lemma prefix_empty (s : string) : String.prefix "" s = true.
Proof. destruct s; reflexivity. Qed.

Lemma prefix_app (p s : string) : String.prefix p (p ++ s) = true.
Proof.
  induction p as [|c p IH]; [apply prefix_empty|].
  simpl. destruct (ascii_dec c c); [exact IH | contradiction].
Qed.

Lemma prefix_app_r (p s t : string) :
  String.prefix p s = true -> String.prefix p (s ++ t) = true.
Proof.
  revert s. induction p as [|c p IH]; intros s Hp; [apply prefix_empty|].
  destruct s as [|a s]; [discriminate|].
  rewrite prefix_cons in Hp. simpl. destruct (ascii_dec c a); [|discriminate].
  apply IH. exact Hp.
Qed.

Lemma contains_app_r (p s t : string) :
  PyStr.contains p s = true -> PyStr.contains p (s ++ t) = true.
Proof.
  induction s as [|a s IH]; intros Hc.
  - destruct p; [|discriminate]. apply prefix_contains, prefix_empty.
  - rewrite contains_cons in Hc. apply orb_true_iff in Hc.
    change (String a s ++ t) with (String a (s ++ t)). rewrite contains_cons.
    apply orb_true_iff. destruct Hc as [Hc|Hc].
    + left. apply (prefix_app_r p (String a s) t Hc).
    + right. apply IH. exact Hc.
Qed.

Lemma contains_app_l (p s t : string) :
  PyStr.contains p s = true -> PyStr.contains p (t ++ s) = true.
Proof.
  intros Hc. induction t as [|a t IH]; [exact Hc|].
  change (String a t ++ s) with (String a (t ++ s)). apply contains_tail. exact IH.
Qed.

(** A text that contains [pre ++ k] contains [k]. *)
Lemma contains_drop_prefix (pre k s : string) :
  PyStr.contains (pre ++ k) s = true -> PyStr.contains k s = true.
Proof.
  induction pre as [|c pre IH]; intros H; [exact H|].
  apply IH. apply (contains_drop_first c). exact H.
Qed.

End TextFacts.

Section RunTestOutcome.

Import Smoke.

Context (E : Env).

(** What a live request records. *)
Lemma run_live_outcome (self : EnhancedAPITester) (config : EndpointConfig)
    (service : string) (start_time : Z) (w w' : World) (result : TestResult) :
  run_live E self config service start_time w = (Ok result, w') ->
  t_safety_notes result = None
  /\ t_test_name result = c_name config
  /\ t_method result = c_method config
  /\ ((t_status result = PASS
       /\ t_error_message result = None
       /\ t_http_status result = Some (c_expected_status config)
       /\ t_validation_results result
          = [("status_code", true); ("json_format", true); ("response_time", true)]
       /\ exists body, t_response_body result = Some body /\ json_loads_ok E body = true)
      \/ (t_status result = FAIL
          /\ exists msg, t_error_message result = Some msg /\ msg <> "")).
Proof.
  unfold run_live.
  destruct (substitute E _ _ _ _ _) as [endpoint_path w1].
  destruct (request E _ _ _ _ _ _ _) as [[response|e] w2]; [|discriminate].
  destruct (PyStr.truthy (resp_error response)) eqn:Herr.
  - intros [= <- _]. simpl. repeat split. right. split; [reflexivity|].
    destruct (resp_error response) as [[|c msg]|]; try discriminate.
    eexists. split; [reflexivity | discriminate].
  - destruct (forallb snd (validate E response (c_expected_status config) true 10000))
      eqn:Hall; intros [= <- _]; simpl; repeat split.
    + left. unfold validate in *. simpl in Hall.
      apply andb_true_iff in Hall. destruct Hall as [Hcode Hall].
      apply andb_true_iff in Hall. destruct Hall as [Hjson Hall].
      apply andb_true_iff in Hall. destruct Hall as [Htime _].
      repeat split.
      * unfold _validate_status_code in Hcode.
        destruct (resp_status_code response) as [code|]; [|discriminate].
        apply Z.eqb_eq in Hcode. rewrite Hcode. reflexivity.
      * rewrite Hcode, Hjson, Htime. reflexivity.
      * eexists. split; [reflexivity | exact Hjson].
    + right. split; [reflexivity|]. eexists. split; [reflexivity | discriminate].
Qed.

(** X10.  An outcome is SKIPPED exactly when safe mode is on and the case is
    destructive with safety mode "mock" or "skip"; then nothing was sent
    and the world is as before.  In every other case, "allow" included,
    and whenever safe mode is off, the request is made and the outcome is
    PASS or FAIL without a safety note. *)
Theorem run_test_skips_exactly_when_gated (self : EnhancedAPITester)
    (config : EndpointConfig) (w w' : World) (result : TestResult) :
  run_test E self config w = (Ok result, w') ->
  (t_status result = SKIPPED <->
     safe_mode self = true /\ c_destructive config = true
     /\ (c_safe_mode config = "mock" \/ c_safe_mode config = "skip"))
  /\ (t_status result = SKIPPED -> w' = w /\ t_safety_notes result <> None)
  /\ (t_status result <> SKIPPED -> t_safety_notes result = None).
Proof.
  unfold run_test.
  assert (Hlive : forall service start_time,
             run_live E self config service start_time w = (Ok result, w') ->
             t_status result <> SKIPPED /\ t_safety_notes result = None).
  { intros service start_time Hrun.
    destruct (run_live_outcome _ _ _ _ _ _ _ Hrun) as (Hnote & _ & _ & [(Hs & _) | (Hs & _)]);
      rewrite Hs; split; (discriminate || exact Hnote). }
  destruct (safe_mode self) eqn:Hsafe; destruct (c_destructive config) eqn:Hd; simpl;
    try (intros Hrun; destruct (Hlive _ _ Hrun) as [Hns Hnote];
         split; [split; [intros; contradiction | intros (? & ? & _); discriminate]|];
         split; [intros; contradiction | intros _; exact Hnote]).
  destruct (String.eqb_spec (c_safe_mode config) "mock") as [Hmock|Hmock].
  { intros [= <- <-]. simpl. split; [split; auto|].
    split; [intros _; split; [reflexivity | discriminate] | intros H; contradiction]. }
  destruct (String.eqb_spec (c_safe_mode config) "skip") as [Hskip|Hskip].
  { intros [= <- <-]. simpl. split; [split; auto|].
    split; [intros _; split; [reflexivity | discriminate] | intros H; contradiction]. }
  intros Hrun. destruct (Hlive _ _ Hrun) as [Hns Hnote].
  split; [split; [intros; contradiction | intros (_ & _ & [H|H]); contradiction]|].
  split; [intros; contradiction | intros _; exact Hnote].
Qed.

(** X11.  A PASS outcome has no error message, the expected HTTP status, a body
    that parses as JSON and all three validations true; a FAIL outcome
    always has a non-empty error message. *)
Theorem run_test_pass_and_fail (self : EnhancedAPITester) (config : EndpointConfig)
    (w w' : World) (result : TestResult) :
  run_test E self config w = (Ok result, w') ->
  (t_status result = PASS ->
     t_error_message result = None
     /\ t_http_status result = Some (c_expected_status config)
     /\ t_validation_results result
        = [("status_code", true); ("json_format", true); ("response_time", true)]
     /\ exists body, t_response_body result = Some body /\ json_loads_ok E body = true)
  /\ (t_status result = FAIL ->
        exists msg, t_error_message result = Some msg /\ msg <> "").
Proof.
  unfold run_test.
  assert (Hlive : forall service start_time,
             run_live E self config service start_time w = (Ok result, w') ->
             (t_status result = PASS ->
                t_error_message result = None
                /\ t_http_status result = Some (c_expected_status config)
                /\ t_validation_results result
                   = [("status_code", true); ("json_format", true); ("response_time", true)]
                /\ exists body, t_response_body result = Some body
                                /\ json_loads_ok E body = true)
             /\ (t_status result = FAIL ->
                   exists msg, t_error_message result = Some msg /\ msg <> "")).
  { intros service start_time Hrun.
    destruct (run_live_outcome _ _ _ _ _ _ _ Hrun)
      as (_ & _ & _ & [(Hs & Hrest) | (Hs & Hrest)]); rewrite Hs;
      split; intros H; try discriminate; exact Hrest. }
  destruct (safe_mode self && c_destructive config); [|apply Hlive].
  destruct (String.eqb (c_safe_mode config) "mock");
    [intros [= <- _]; simpl; split; discriminate|].
  destruct (String.eqb (c_safe_mode config) "skip");
    [intros [= <- _]; simpl; split; discriminate|].
  apply Hlive.
Qed.

End RunTestOutcome.

Section RunTrace.

Import Smoke Trace.

Context (E : Env).

Lemma extends_refl (client : HTTPClient) (w : World) : extends client w w.
Proof.
  split; [reflexivity|]. exists []. split; [symmetry; apply app_nil_r | constructor].
Qed.

Lemma extends_trans (client : HTTPClient) (w1 w2 w3 : World) :
  extends client w1 w2 -> extends client w2 w3 -> extends client w1 w3.
Proof.
  intros [Hc1 (n1 & Hs1 & Hf1)] [Hc2 (n2 & Hs2 & Hf2)]. split.
  - etransitivity; eassumption.
  - exists (n1 ++ n2)%list. split.
    + rewrite Hs2, Hs1, <- app_assoc. reflexivity.
    + apply Forall_app. split; assumption.
Qed.

Lemma prefix_app_app (p a b : string) : String.prefix p ((p ++ a) ++ b) = true.
Proof. apply prefix_app_r, prefix_app. Qed.

(** A prepared request goes to the base URL with the client's timeout. *)
Lemma prepare_of_client (client : HTTPClient) (method endpoint : string)
    (params : option (list (string * string))) (data : option string)
    (json_data : option (list (string * json))) (req : Request) :
  prepare E client method endpoint params data json_data = Ok req ->
  of_client client req.
Proof.
  unfold prepare. destruct (negb (url_ok E _)); [discriminate|].
  intros [= <-]. split; simpl; [|reflexivity].
  destruct params as [[|p ps]|]; try apply prefix_app. apply prefix_app_app.
Qed.

Lemma request_extends (client : HTTPClient) (method endpoint : string)
    (params : option (list (string * string))) (data : option string)
    (json_data : option (list (string * json))) (w : World) :
  extends client w (snd (request E client method endpoint params data json_data w)).
Proof.
  unfold request.
  destruct (prepare E client method endpoint params data json_data) as [req|e] eqn:Hp;
    simpl; [|apply extends_refl].
  split; [reflexivity|]. exists [req]. split; [reflexivity|].
  constructor; [|constructor]. eapply prepare_of_client. exact Hp.
Qed.

Lemma fetch_real_id_extends (client : HTTPClient) (service : string) (w : World) :
  extends client w (snd (_fetch_real_id E client service w)).
Proof.
  unfold _fetch_real_id. destruct (id_endpoints !! service) as [endpoint|];
    [|apply extends_refl].
  pose proof (request_extends client "GET" endpoint None None None w) as H.
  destruct (request E client "GET" endpoint None None None w) as [[response|e] w'];
    simpl in *; [|exact H].
  destruct (PyStr.truthy _); [exact H|].
  destruct (resp_status_code response) as [[|[]|]|]; try exact H.
  repeat match goal with
         | |- context [match ?p with _ => _ end] => destruct p; try exact H
         end.
Qed.

Lemma fetch_real_id_cache (client : HTTPClient) (service : string) (w : World) :
  id_cache (snd (_fetch_real_id E client service w)) = id_cache w.
Proof.
  unfold _fetch_real_id, request. destruct (id_endpoints !! service) as [endpoint|];
    [|reflexivity].
  destruct (prepare E client "GET" endpoint None None None) as [req|e]; [|reflexivity].
  destruct (PyStr.truthy _); [reflexivity|].
  repeat match goal with
         | |- context [match ?p with _ => _ end] => destruct p; try reflexivity
         end.
Qed.

(** An identifier lookup keeps every entry of the cache: only a fetched
    identifier of a service that had none is added, and a fallback
    identifier is never stored. *)
Lemma get_id_for_service_extends (client : HTTPClient) (service : string) (w : World) :
  extends client w (snd (get_id_for_service E client service w)).
Proof.
  unfold get_id_for_service.
  destruct (id_cache w !! service) as [cached|] eqn:Hcache; [apply extends_refl|].
  pose proof (fetch_real_id_extends client service w) as H.
  pose proof (fetch_real_id_cache client service w) as Heq.
  destruct (_fetch_real_id E client service w) as [real_id w']. simpl in H, Heq.
  destruct (PyStr.truthy real_id); [|exact H].
  destruct real_id as [i|]; [|exact H]. simpl.
  destruct H as [Hc Hs]. split; [|exact Hs]. simpl.
  rewrite Heq. apply insert_subseteq. exact Hcache.
Qed.

Lemma substitute_extends (client : HTTPClient) (service : string)
    (path_params : list (string * param)) (endpoint_path : string) (w : World) :
  extends client w (snd (substitute E client service path_params endpoint_path w)).
Proof.
  revert endpoint_path w.
  induction path_params as [|[key value] rest IH]; intros endpoint_path w; simpl;
    [apply extends_refl|].
  destruct value as [s|n]; [|apply IH].
  destruct (PyStr.startswith s "test_"); [|apply IH].
  pose proof (get_id_for_service_extends client service w) as H.
  destruct (get_id_for_service E client service w) as [real_id w']. simpl in H.
  eapply extends_trans; [exact H | apply IH].
Qed.

Lemma run_test_extends (self : EnhancedAPITester) (config : EndpointConfig) (w : World) :
  extends (http_client self) w (snd (run_test E self config w)).
Proof.
  assert (Hlive : forall service start_time,
             extends (http_client self) w
               (snd (run_live E self config service start_time w))).
  { intros service start_time. unfold run_live.
    pose proof (substitute_extends (http_client self) service
                  (PyDict.get (c_path_params config) []) (c_path config) w) as H1.
    destruct (substitute E _ _ _ _ _) as [endpoint_path w1]. simpl in H1.
    pose proof (request_extends (http_client self) (c_method config) endpoint_path
                  (c_query_params config) None (c_body config) w1) as H2.
    destruct (request E _ _ _ _ _ _ _) as [[response|e] w2]; simpl in H2.
    - destruct (PyStr.truthy _); [|destruct (forallb _ _)]; simpl;
        eapply extends_trans; eassumption.
    - simpl. eapply extends_trans; eassumption. }
  unfold run_test.
  destruct (safe_mode self && c_destructive config); [|apply Hlive].
  destruct (String.eqb (c_safe_mode config) "mock"); [apply extends_refl|].
  destruct (String.eqb (c_safe_mode config) "skip"); [apply extends_refl|].
  apply Hlive.
Qed.

Lemma collect_extends (self : EnhancedAPITester) (completed : list nat)
    (acc : list TestResult) (w : World) :
  extends (http_client self) w (snd (collect E self completed acc w)).
Proof.
  revert acc w. induction completed as [|i rest IH]; intros acc w; simpl;
    [apply extends_refl|].
  destruct (endpoint_configs self !! i) as [config|]; [|apply IH].
  pose proof (run_test_extends self config w) as H.
  destruct (run_test E self config w) as [[result|e] w']; simpl in H;
    (eapply extends_trans; [exact H | apply IH]).
Qed.

(** When the tests run one after another, the identifier cache only
    grows (an entry, once there, is never changed or dropped), and every
    request sent goes to a URL under the client's base URL with the
    client's timeout. *)
Theorem run_all_tests_stays_on_base (self : EnhancedAPITester) (completed : list nat)
    (w : World) :
  id_cache w ⊆ id_cache (snd (run_all_tests E self completed w))
  /\ exists new,
       sent (snd (run_all_tests E self completed w)) = (sent w ++ new)%list
       /\ Forall (fun req =>
                    String.prefix (base_url (http_client self)) (req_url req) = true
                    /\ req_timeout req = timeout (http_client self)) new.
Proof.
  unfold run_all_tests.
  pose proof (collect_extends self completed (test_results self) w) as H.
  destruct (collect E self completed (test_results self) w) as [results w']. exact H.
Qed.

(** X13.  Once a service has an identifier in the cache, asking again returns the
    same identifier and sends nothing: a service is looked up over the
    network at most once after it resolved. *)
Theorem get_id_for_service_settles (client : HTTPClient) (service : string) (w : World) :
  is_Some (id_cache (snd (get_id_for_service E client service w)) !! service) ->
  get_id_for_service E client service (snd (get_id_for_service E client service w))
  = get_id_for_service E client service w.
Proof.
  unfold get_id_for_service at 1 3 4.
  destruct (id_cache w !! service) as [cached|] eqn:Hcache.
  - simpl. intros _. unfold get_id_for_service. rewrite Hcache. reflexivity.
  - pose proof (fetch_real_id_cache client service w) as Heq.
    destruct (_fetch_real_id E client service w) as [real_id w']. simpl in Heq.
    destruct (PyStr.truthy real_id) eqn:Ht.
    + destruct real_id as [i|]; [|discriminate]. simpl. intros _.
      unfold get_id_for_service. simpl. rewrite lookup_insert_eq. reflexivity.
    + simpl. rewrite Heq, Hcache. intros [v Hv]. discriminate.
Qed.

End RunTrace.

(** * Properties of endpoint discovery *)

Section ClassifierMore.

Import Smoke Discovery.

Lemma existsb_impl {A} (f g : A -> bool) (l : list A) :
  (forall x, f x = true -> g x = true) -> existsb f l = true -> existsb g l = true.
Proof.
  intros Hfg H. apply existsb_exists in H. destruct H as (x & Hin & Hf).
  apply existsb_exists. exists x. split; [exact Hin | apply Hfg; exact Hf].
Qed.

(** X14.  Classification is conservative under extension of the path: an
    operation classified destructive stays so when its path is put under
    a prefix or gets a suffix, as when the service prefix is added. *)
Theorem destructive_under_prefix (method path pre post : string) (method_data : Operation) :
  _is_destructive_operation method path method_data = true ->
  _is_destructive_operation method (pre ++ path ++ post) method_data = true.
Proof.
  unfold _is_destructive_operation.
  destruct (String.eqb (PyStr.lower method) "delete"); [reflexivity|].
  destruct (existsb (fun pattern => PyStr.contains pattern (PyStr.lower path))
              destructive_patterns) eqn:Hpath.
  - intros _.
    assert (Hext : existsb (fun pattern =>
                      PyStr.contains pattern (PyStr.lower (pre ++ path ++ post)))
                     destructive_patterns = true).
    { eapply existsb_impl; [|exact Hpath].
      intros pattern Hc. simpl in Hc. simpl.
      rewrite !lower_app. apply contains_app_l, contains_app_r. exact Hc. }
    rewrite Hext. reflexivity.
  - intros H.
    destruct (existsb (fun pattern =>
                PyStr.contains pattern (PyStr.lower (pre ++ path ++ post)))
                destructive_patterns); [reflexivity | exact H].
Qed.

(** X15.  On ASCII text the letter case of the method and of the path does
    not matter.  (Outside ASCII it can: Python's upper-casing turns the
    long s of a path into "S", and with it "/stop" appears.) *)
Theorem destructive_ignores_case (method path : string) (method_data : Operation) :
  PyText.is_ascii method = true ->
  PyText.is_ascii path = true ->
  _is_destructive_operation (PyStr.upper method) (PyStr.upper path) method_data
  = _is_destructive_operation method path method_data.
Proof.
  intros _ _.
  unfold _is_destructive_operation. rewrite !lower_upper. reflexivity.
Qed.

Lemma upper_DELETE (method : string) :
  PyStr.upper method = "DELETE" -> PyStr.lower method = "delete".
Proof.
  intros H. rewrite <- lower_upper, H. reflexivity.
Qed.

(** X16.  What the tester's own check calls destructive, the discovery
    classifier calls destructive too, except for paths it matches only by
    "/command". *)
Theorem tester_check_implies_classifier (method path : string) (method_data : Operation) :
  is_destructive_operation method path = true ->
  PyStr.contains "/command" (PyStr.lower path) = false ->
  _is_destructive_operation method path method_data = true.
Proof.
  unfold is_destructive_operation, _is_destructive_operation.
  destruct (String.eqb_spec (PyStr.upper method) "DELETE") as [Hm|Hm].
  - intros _ _. rewrite (upper_DELETE _ Hm). reflexivity.
  - intros Hpat Hcmd.
    destruct (String.eqb (PyStr.lower method) "delete"); [reflexivity|].
    assert (Hex : existsb (fun pattern => PyStr.contains pattern (PyStr.lower path))
                    destructive_patterns = true).
    { unfold tester_patterns in Hpat. simpl in Hpat.
      rewrite Hcmd in Hpat. rewrite !orb_false_r in Hpat.
      apply orb_true_iff in Hpat. destruct Hpat as [H|Hpat].
      { apply existsb_exists. exists "/pause". split; [simpl; auto|].
        apply (contains_drop_prefix "/queue" "/pause"). exact H. }
      apply orb_true_iff in Hpat. destruct Hpat as [H|Hpat].
      { apply existsb_exists. exists "/resume". split; [simpl; auto|].
        apply (contains_drop_prefix "/queue" "/resume"). exact H. }
      apply orb_true_iff in Hpat. destruct Hpat as [H|H].
      { apply existsb_exists. exists "/delete". split; [simpl; auto | exact H]. }
      { apply existsb_exists. exists "/remove". split; [simpl; auto | exact H]. } }
    rewrite Hex. reflexivity.
Qed.

End ClassifierMore.

Section DiscoveryFacts.

Import Smoke Discovery.

Context (E : Env) (urlpath : string -> string).

(** Every generated configuration is made by [config_of] from an
    operation of the description. *)
Lemma generated_from_operation (service_name : string) (spec : OpenAPISpec)
    (c : EndpointConfig) :
  In c (generate_endpoint_configs urlpath service_name (Some spec)) ->
  exists path path_data method method_data,
    In (path, path_data) (paths spec)
    /\ In (method, method_data) path_data
    /\ config_of service_name
         (full_path_of service_name (base_path_of urlpath spec) path)
         path method method_data = Some c.
Proof.
  unfold generate_endpoint_configs. intros Hin.
  apply in_flat_map in Hin. destruct Hin as ([path path_data] & Hp & Hin).
  apply list_elem_of_In, list_elem_of_omap in Hin.
  destruct Hin as ([method method_data] & Hm & Hc).
  apply list_elem_of_In in Hm.
  exists path, path_data, method, method_data. repeat split; assumption.
Qed.

Lemma path_params_placeholders (parameters : list ParameterObject) (key : string)
    (value : param) :
  In (key, value) (path_params_of parameters) ->
  value = PStr ("test_" ++ key ++ "_123").
Proof.
  unfold path_params_of.
  assert (Hgen : forall acc : list (string * param),
             (forall k v, In (k, v) acc -> v = PStr ("test_" ++ k ++ "_123")) ->
             forall k v,
               In (k, v)
                 (foldl (fun path_params p =>
                           match p_in p with
                           | Some "path" =>
                               dict_set (name_text (p_name p))
                                 (PStr ("test_" ++ name_text (p_name p) ++ "_123"))
                                 path_params
                           | _ => path_params
                           end) acc parameters) ->
               v = PStr ("test_" ++ k ++ "_123")).
  { induction parameters as [|p rest IH]; intros acc Hacc k v; simpl; [apply Hacc|].
    apply IH. clear IH k v.
    assert (Hset : forall (k0 : string) (d : list (string * param)),
               (forall k v, In (k, v) d -> v = PStr ("test_" ++ k ++ "_123")) ->
               forall k v,
                 In (k, v) (dict_set k0 (PStr ("test_" ++ k0 ++ "_123")) d) ->
                 v = PStr ("test_" ++ k ++ "_123")).
    { intros k0 d. induction d as [|[k' v'] d IHd]; intros Hd k v; simpl.
      - intros [[= <- <-] | []]. reflexivity.
      - destruct (String.eqb k' k0); simpl.
        + intros [[= <- <-] | Hin]; [reflexivity|]. apply Hd. right. exact Hin.
        + intros [[= <- <-] | Hin]; [apply Hd; left; reflexivity|].
          apply IHd; [|exact Hin]. intros k1 v1 H1. apply Hd. right. exact H1. }
    destruct (p_in p) as [kind|]; [|exact Hacc].
    destruct (String.eqb_spec kind "path") as [->|Hne].
    - apply Hset. exact Hacc.
    - intros k v. revert Hne. clear -Hacc.
      repeat match goal with
             | |- context [match ?x with _ => _ end] =>
                 destruct x; try (intros; apply Hacc; assumption)
             end.
      intros Hne. contradiction. }
  apply Hgen. intros k v [].
Qed.

Lemma generated_config_fields (service_name : string) (spec : OpenAPISpec)
    (c : EndpointConfig) :
  In c (generate_endpoint_configs urlpath service_name (Some spec)) ->
  exists path path_data method method_data,
    In (path, path_data) (paths spec)
    /\ In (method, method_data) path_data
    /\ md_deprecated method_data <> Some true
    /\ In (PyStr.lower method) http_methods
    /\ c_method c = PyStr.upper method
    /\ c_destructive c = _is_destructive_operation method path (md_operation method_data)
    /\ c_safe_mode c = (if c_destructive c then "mock" else "allow")
    /\ c_expected_status c = 200
    /\ c_path_params c <> Some []
    /\ forall params key value,
         c_path_params c = Some params -> In (key, value) params ->
         value = PStr ("test_" ++ key ++ "_123").
Proof.
  intros Hin. destruct (generated_from_operation _ _ _ Hin)
    as (path & path_data & method & method_data & Hp & Hm & Hc).
  exists path, path_data, method, method_data.
  split; [exact Hp|]. split; [exact Hm|].
  unfold config_of in Hc.
  destruct (existsb (String.eqb (PyStr.lower method)) http_methods) eqn:Hmeth;
    simpl in Hc; [|discriminate].
  destruct (md_deprecated method_data) as [[|]|] eqn:Hdep; simpl in Hc; try discriminate;
    injection Hc as <-; simpl;
    (split; [discriminate|]);
    (split; [apply existsb_exists in Hmeth; destruct Hmeth as (m & Hm1 & Hm2);
             apply String.eqb_eq in Hm2; rewrite Hm2; exact Hm1|]);
    (split; [reflexivity|]); (split; [reflexivity|]); (split; [reflexivity|]);
    (split; [reflexivity|]);
    (split; [destruct (path_params_of _); discriminate|]);
    intros params key value Hparams Hkv;
    destruct (path_params_of (PyDict.get (md_parameters method_data) [])) eqn:Hpp;
    try discriminate; injection Hparams as <-;
    apply (path_params_placeholders (PyDict.get (md_parameters method_data) []));
    rewrite Hpp; exact Hkv.
Qed.

(** X17.  Discovery never yields a deprecated operation or an item of a path
    that is no HTTP method.  Every configuration has the method in upper
    case, expects status 200, is in safety mode "mock" when classified
    destructive and "allow" otherwise, and all its placeholders for path
    parameters have the form "test_<name>_123". *)
Theorem discovery_yields_live_operations (service_name : string) (spec : OpenAPISpec)
    (c : EndpointConfig) :
  In c (generate_endpoint_configs urlpath service_name (Some spec)) ->
  exists path path_data method method_data,
    In (path, path_data) (paths spec)
    /\ In (method, method_data) path_data
    /\ md_deprecated method_data <> Some true
    /\ In (PyStr.lower method) http_methods
    /\ c_method c = PyStr.upper method
    /\ c_destructive c = _is_destructive_operation method path (md_operation method_data)
    /\ c_safe_mode c = (if c_destructive c then "mock" else "allow")
    /\ c_expected_status c = 200
    /\ c_path_params c <> Some []
    /\ forall params key value,
         c_path_params c = Some params -> In (key, value) params ->
         value = PStr ("test_" ++ key ++ "_123").
Proof. apply generated_config_fields. Qed.

(** X18.  In safe mode nothing is sent for a discovered configuration that is
    classified destructive or has the method DELETE: the outcome is the
    mock one. *)
Theorem discovered_destructive_never_sent (self : EnhancedAPITester)
    (service : string) (spec : OpenAPISpec) (c : EndpointConfig) (w : World) :
  In c (discovered_configs urlpath service spec) ->
  safe_mode self = true ->
  c_destructive c = true \/ c_method c = "DELETE" ->
  snd (run_test E self c w) = w
  /\ exists result,
       fst (run_test E self c w) = Ok result
       /\ t_status result = SKIPPED
       /\ t_safety_notes result = Some "Mocked in safe mode".
Proof.
  intros Hin Hsafe Hkind. unfold discovered_configs in Hin.
  apply in_map_iff in Hin. destruct Hin as (c0 & <- & Hin0).
  destruct (generated_config_fields _ _ _ Hin0)
    as (path & path_data & method & method_data & _ & _ & _ & _ & Hmeth & Hd & Hmode & _).
  assert (Hdes : c_destructive c0 = true).
  { destruct Hkind as [H|H]; [exact H|]. simpl in H.
    rewrite Hd. unfold _is_destructive_operation.
    rewrite Hmeth in H. rewrite (upper_DELETE _ H). reflexivity. }
  rewrite Hdes in Hmode.
  unfold run_test. simpl. rewrite Hsafe, Hdes, Hmode. simpl.
  split; [reflexivity|]. eexists. repeat split; reflexivity.
Qed.

End DiscoveryFacts.

Section PathPrefix.

Import Smoke Discovery.

(** A text that starts with [p] is [p] followed by the rest. *)
Lemma prefix_split (p s : string) :
  String.prefix p s = true -> s = p ++ PyText.drop (String.length p) s.
Proof.
  revert s. induction p as [|c p IH]; intros s Hp; [reflexivity|].
  destruct s as [|a s]; [discriminate|].
  rewrite prefix_cons in Hp. destruct (ascii_dec c a) as [<-|]; [|discriminate].
  change (String c s = String c (p ++ PyText.drop (String.length p) s)).
  f_equal. apply IH. exact Hp.
Qed.

Lemma api_prefix_rest (s : string) :
  PyStr.startswith s "/api/" = true ->
  exists rest, s = "/api/" ++ rest /\ PyText.drop 4 s = "/" ++ rest.
Proof.
  intros H. unfold PyStr.startswith in H. apply prefix_split in H.
  exists (PyText.drop 5 s). split; [exact H|]. rewrite H at 1. reflexivity.
Qed.

Lemma slash_first (s : string) :
  PyStr.startswith s "/" = true -> exists rest, s = "/" ++ rest.
Proof.
  intros H. unfold PyStr.startswith in H. apply prefix_split in H. eexists. exact H.
Qed.

(** X19.  The paths generated for [readarr_audiobooks] always start with
    "/api/readarr-audiobooks"; when the path of the description (joined
    with the base path) starts with a slash, the result is under
    "/api/readarr-audiobooks/" and the catalog builder leaves it as it is:
    the prefix is not added twice. *)
Theorem audiobooks_prefix_once (base_path path : string) :
  PyStr.startswith (full_path_of "readarr_audiobooks" base_path path)
    "/api/readarr-audiobooks" = true
  /\ (PyStr.startswith (if PyStr.startswith path "/api/" then path else base_path ++ path)
        "/" = true ->
      PyStr.startswith (full_path_of "readarr_audiobooks" base_path path)
        "/api/readarr-audiobooks/" = true
      /\ service_path "readarr_audiobooks"
           (full_path_of "readarr_audiobooks" base_path path)
         = full_path_of "readarr_audiobooks" base_path path).
Proof.
  unfold full_path_of. simpl String.eqb. cbv iota.
  set (full_path := if PyStr.startswith path "/api/" then path else base_path ++ path).
  assert (Hkeep : forall p, PyStr.startswith p "/api/readarr-audiobooks/" = true ->
                    service_path "readarr_audiobooks" p = p).
  { intros p Hp. unfold service_path. simpl String.eqb. cbv iota. rewrite Hp. reflexivity. }
  destruct (PyStr.startswith full_path "/api/readarr-audiobooks/") eqn:Hfull; cbv iota.
  - split.
    + pose proof Hfull as Hsplit.
      unfold PyStr.startswith in Hsplit |- *. apply prefix_split in Hsplit.
      rewrite Hsplit.
      apply (prefix_app_r "/api/readarr-audiobooks" "/api/readarr-audiobooks/").
      reflexivity.
    + intros _. split; [exact Hfull | apply Hkeep; exact Hfull].
  - destruct (PyStr.startswith full_path "/api/") eqn:Hapi; simpl negb; cbv iota;
      simpl andb; cbv iota.
    + destruct (api_prefix_rest _ Hapi) as (rest & _ & ->).
      assert (Hs : PyStr.startswith ("/api/readarr-audiobooks" ++ "/" ++ rest)
                     "/api/readarr-audiobooks/" = true).
      { apply (prefix_app "/api/readarr-audiobooks/" rest). }
      split.
      * apply (prefix_app_r "/api/readarr-audiobooks" "/api/readarr-audiobooks/" rest).
        reflexivity.
      * intros _. split; [exact Hs | apply Hkeep; exact Hs].
    + split; [apply (prefix_app "/api/readarr-audiobooks" full_path)|].
      intros Hslash. destruct (slash_first _ Hslash) as (rest & ->).
      assert (Hs : PyStr.startswith ("/api/readarr-audiobooks" ++ "/" ++ rest)
                     "/api/readarr-audiobooks/" = true).
      { apply (prefix_app "/api/readarr-audiobooks/" rest). }
      split; [exact Hs | apply Hkeep; exact Hs].
Qed.

(** X20.  The prefixing done by the catalog builders settles: applied to a path
    that starts with a slash, the result is under "/api/" followed by the
    service name (or "readarr-audiobooks"), and a second application
    changes nothing. *)
Theorem service_path_idempotent (service path : string) :
  PyStr.startswith path "/" = true ->
  PyStr.startswith (service_path service path)
    (if String.eqb service "readarr_audiobooks" then "/api/readarr-audiobooks/"
     else "/api/" ++ service) = true
  /\ service_path service (service_path service path) = service_path service path.
Proof.
  intros Hslash.
  assert (Hkeep : forall p,
             PyStr.startswith p
               (if String.eqb service "readarr_audiobooks" then "/api/readarr-audiobooks/"
                else "/api/" ++ service) = true ->
             service_path service p = p).
  { intros p Hp. unfold service_path.
    destruct (String.eqb service "readarr_audiobooks"); rewrite Hp; reflexivity. }
  assert (Hunder : PyStr.startswith (service_path service path)
                     (if String.eqb service "readarr_audiobooks"
                      then "/api/readarr-audiobooks/" else "/api/" ++ service) = true).
  { unfold service_path.
    destruct (String.eqb service "readarr_audiobooks").
    - destruct (PyStr.startswith path "/api/readarr-audiobooks/") eqn:Hfull;
        simpl negb; cbv iota; [exact Hfull|].
      destruct (PyStr.startswith path "/api/") eqn:Hapi.
      + destruct (api_prefix_rest _ Hapi) as (rest & _ & ->).
        apply (prefix_app "/api/readarr-audiobooks/" rest).
      + destruct (slash_first _ Hslash) as (rest & ->).
        apply (prefix_app "/api/readarr-audiobooks/" rest).
    - destruct (PyStr.startswith path ("/api/" ++ service)) eqn:Hpre;
        simpl negb; cbv iota; [exact Hpre|].
      unfold PyStr.startswith.
      change ("/api/" ++ service ++ path) with (("/api/" ++ service) ++ path).
      apply prefix_app. }
  split; [exact Hunder | apply Hkeep; exact Hunder].
Qed.

End PathPrefix.

(** * Properties of the response validator and of the client *)

Section ValidatorFacts.

Import Smoke Validator.

Context (loads : string -> option json).

Lemma validate_from_ignores_unknown (response : Response) (expectations : list expectation)
    (results : list (string * bool)) :
  validate_from loads response expectations results
  = validate_from loads response (List.filter has_validator expectations) results.
Proof.
  revert results. induction expectations as [|e rest IH]; intros results; [reflexivity|].
  destruct e; simpl; try apply IH.
  destruct (_validate_required_fields loads response fields); [apply IH | reflexivity].
Qed.

(** X21.  Expectations under keys that have no validator are ignored: they
    change neither the results nor whether validation raises. *)
Theorem validate_ignores_unknown_keys (response : Response)
    (expectations : list expectation) :
  validate loads response expectations
  = validate loads response (List.filter has_validator expectations).
Proof. apply validate_from_ignores_unknown. Qed.

Lemma all_in_dict (fields : list string) (d : list (string * json)) :
  all_in fields (JDict d)
  = Ok (forallb (fun field => existsb (String.eqb field) (map fst d)) fields).
Proof.
  induction fields as [|field rest IH]; [reflexivity|].
  simpl. destruct (existsb (String.eqb field) (map fst d)); [exact IH | reflexivity].
Qed.

(** X22.  Required fields: on a body that is a JSON object the check is true
    exactly when every field is a key of the object; a body that does not
    parse gives false; a body that is a number, a boolean or null makes the
    check raise [TypeError] as soon as one field is asked for, and pass
    when none is. *)
Theorem required_fields_by_body (response : Response) (fields : list string) :
  (forall d, loads (resp_body response) = Some (JDict d) ->
     _validate_required_fields loads response fields
     = Ok (forallb (fun field => existsb (String.eqb field) (map fst d)) fields))
  /\ (loads (resp_body response) = None ->
      _validate_required_fields loads response fields = Ok false)
  /\ (forall body,
        loads (resp_body response) = Some body ->
        (body = JNull \/ (exists b, body = JBool b) \/ (exists n, body = JInt n)) ->
        _validate_required_fields loads response fields
        = match fields with
          | [] => Ok true
          | _ :: _ => Raise TypeError
          end).
Proof.
  unfold _validate_required_fields. repeat split.
  - intros d ->. apply all_in_dict.
  - intros ->. reflexivity.
  - intros body -> [-> | [[b ->] | [n ->]]]; destruct fields; reflexivity.
Qed.

(** The validation that [run_test] asks for is the general one on the
    three expectations it passes. *)
Theorem run_test_validation_is_general (E : Env) (response : Response) (expected : Z) :
  (forall body, json_loads_ok E body = match loads body with
                                       | Some _ => true
                                       | None => false
                                       end) ->
  validate loads response
    [status_code expected; json_format true; response_time 10000]
  = Ok (Smoke.validate E response expected true 10000).
Proof.
  intros Hloads. unfold validate, Smoke.validate. simpl.
  unfold _validate_json_format, Smoke._validate_json_format. simpl.
  rewrite Hloads. reflexivity.
Qed.

End ValidatorFacts.

Section ClientFacts.

Import Smoke.

Lemma rstrip_no_trailing (c : ascii) (s t : string) :
  PyStr.rstrip c s <> t ++ String c EmptyString.
Proof.
  revert t. induction s as [|a s IH]; intros t; simpl.
  - destruct t; discriminate.
  - destruct (PyStr.rstrip c s) as [|b r] eqn:Hr.
    + destruct (Ascii.eqb_spec a c) as [->|Hne].
      * destruct t; discriminate.
      * destruct t as [|x [|y t]]; simpl; try discriminate.
        intros [= ->]. contradiction.
    + destruct t as [|x t]; [destruct r; discriminate|].
      change (String x t ++ String c "") with (String x (t ++ String c "")).
      intros [= _ H]. apply (IH t). exact H.
Qed.

Lemma setdefault_has (k v : string) (d : list (string * string)) :
  (exists v', In (k, v') (setdefault k v d))
  /\ (forall kv, In kv d -> In kv (setdefault k v d))
  /\ ((exists v', In (k, v') d) -> setdefault k v d = d).
Proof.
  induction d as [|[k' v'] d IH]; simpl.
  - split; [eexists; left; reflexivity|].
    split; [intros kv [] | intros [v' []]].
  - destruct (String.eqb_spec k' k) as [->|Hne].
    + split; [eexists; left; reflexivity|]. split; [auto | reflexivity].
    + destruct IH as (Hex & Hkeep & Hsame).
      split; [destruct Hex as [v0 H0]; exists v0; right; exact H0|].
      split.
      * intros kv [<- | Hin]; [left; reflexivity | right; apply Hkeep; exact Hin].
      * intros [v0 [Heq | Hin]]; [injection Heq as -> _; contradiction|].
        f_equal. apply Hsame. eexists. exact Hin.
Qed.

(** X23.  A client never has a base URL that ends in a slash, always has an
    Accept header, keeps every header the caller gave, and keeps the
    caller's headers unchanged when they already set Accept. *)
Theorem client_base_and_accept (base : string) (tmo : Z)
    (hdrs : option (list (string * string))) :
  (forall t, base_url (HTTPClient_init base tmo hdrs) <> t ++ "/")
  /\ (exists v, In ("Accept", v) (headers (HTTPClient_init base tmo hdrs)))
  /\ (forall given kv, hdrs = Some given -> In kv given ->
        In kv (headers (HTTPClient_init base tmo hdrs)))
  /\ (forall given v, hdrs = Some given -> In ("Accept", v) given ->
        headers (HTTPClient_init base tmo hdrs) = given).
Proof.
  unfold HTTPClient_init. simpl.
  split; [intros t; apply rstrip_no_trailing|].
  split; [apply setdefault_has|].
  split.
  - intros given kv -> Hin. destruct given as [|h g]; [contradiction|].
    apply setdefault_has. exact Hin.
  - intros given v -> Hin. destruct given as [|h g]; [contradiction|].
    apply setdefault_has. eexists. exact Hin.
Qed.

End ClientFacts.


(** * From the runner's report to the analyzer *)

Section Pipeline.

Import Smoke Analyze Report.

(** Issue creation returns exactly when severity derivation does. *)
Lemma create_issue_ok_iff (today : Z) (result : Result) (issue_id : Z) :
  (exists issue, create_issue today result issue_id = Ok issue)
  <-> exists severity, determine_severity result = Ok severity.
Proof.
  split.
  - intros [issue Hc]. eexists. eapply create_issue_severity. exact Hc.
  - intros [severity Hs].
    destruct (create_issue_returns today result issue_id severity Hs) as (issue & Hc & _).
    eexists. exact Hc.
Qed.

Lemma analyze_loop_ok_iff (today : Z) (results : list Result) (issue_id : Z)
    (acc : list Issue) :
  (exists acc', analyze_loop today results issue_id acc = (Ok tt, acc'))
  <-> Forall (fun r => r_status r = "FAIL" ->
                       exists severity, determine_severity r = Ok severity) results.
Proof.
  revert issue_id acc. induction results as [|r rest IH]; intros issue_id acc; simpl.
  - split; [constructor | eauto].
  - destruct (String.eqb_spec (r_status r) "FAIL") as [Hfail|Hfail].
    + destruct (create_issue today r issue_id) as [issue|e] eqn:Hc.
      * rewrite IH. split.
        -- intros H. constructor; [|exact H]. intros _.
           apply (create_issue_ok_iff today r issue_id). eauto.
        -- intros H. apply Forall_cons in H. apply H.
      * split.
        -- intros [acc' H]. discriminate.
        -- intros H. apply Forall_cons in H. destruct H as [H _].
           apply (create_issue_ok_iff today r issue_id) in H; [|exact Hfail].
           destruct H as [issue H]. congruence.
    + rewrite IH. split.
      * intros H. constructor; [intros; contradiction | exact H].
      * intros H. apply Forall_cons in H. apply H.
Qed.

(** Severity derivation on an entry of the runner's report. *)
Lemma determine_severity_of_entry (t : TestResult) :
  t_error_message t <> None ->
  ((exists severity, determine_severity (report_entry t) = Ok severity)
   <-> t_http_status t <> None).
Proof.
  intros Hmsg. unfold determine_severity, report_entry. simpl.
  destruct (t_error_message t) as [msg|]; [|contradiction]. simpl.
  destruct (t_http_status t) as [code|]; simpl.
  - split; [discriminate|]. intros _.
    repeat match goal with
           | |- context [if ?b then _ else _] => destruct b
           end; eexists; reflexivity.
  - split; [intros [s H]; discriminate | intros H; contradiction].
Qed.

Lemma status_text_FAIL (s : Status) : status_text s = "FAIL" <-> s = FAIL.
Proof. destruct s; simpl; split; intros H; (reflexivity || discriminate). Qed.

(** The analyzer returns an issue list for a report whose failing outcomes
    all have an error message exactly when each of them also has an HTTP
    status. *)
Lemma analysis_of_report (today : Z) (results : list TestResult) :
  Forall (fun t => t_status t = FAIL -> t_error_message t <> None) results ->
  ((exists l, fst (analyze_results today (analyzer_of_run results)) = Ok l)
   <-> Forall (fun t => t_status t = FAIL -> t_http_status t <> None) results).
Proof.
  intros Hmsgs. unfold analyze_results, analyzer_of_run, init. simpl.
  pose proof (analyze_loop_ok_iff today (map report_entry results) 1 []) as Hiff.
  assert (Hequiv :
            Forall (fun r => r_status r = "FAIL" ->
                             exists severity, determine_severity r = Ok severity)
              (map report_entry results)
            <-> Forall (fun t => t_status t = FAIL -> t_http_status t <> None) results).
  { rewrite Forall_map. split; intros H.
    - apply Forall_forall. intros t Ht Hfail.
      pose proof (proj1 (Forall_forall _ _) H t Ht) as H1. simpl in H1.
      pose proof (proj1 (Forall_forall _ _) Hmsgs t Ht Hfail) as H2.
      apply (determine_severity_of_entry t H2). apply H1. apply status_text_FAIL. exact Hfail.
    - apply Forall_forall. intros t Ht. simpl. intros Hfail. apply status_text_FAIL in Hfail.
      pose proof (proj1 (Forall_forall _ _) H t Ht Hfail) as H1.
      pose proof (proj1 (Forall_forall _ _) Hmsgs t Ht Hfail) as H2.
      apply (determine_severity_of_entry t H2). exact H1. }
  rewrite <- Hequiv, <- Hiff.
  destruct (analyze_loop today (map report_entry results) 1 []) as [[[]|e] acc]; simpl.
  - split; eauto.
  - split; intros [x H]; discriminate.
Qed.

End Pipeline.

Section PipelineRun.

Import Smoke Analyze Report.

Context (E : Env).

Lemma run_test_failure_message (self : EnhancedAPITester) (config : EndpointConfig)
    (w w' : World) (result : TestResult) :
  run_test E self config w = (Ok result, w') ->
  t_status result = FAIL -> t_error_message result <> None.
Proof.
  unfold run_test.
  assert (Hlive : forall service start_time,
             run_live E self config service start_time w = (Ok result, w') ->
             t_status result = FAIL -> t_error_message result <> None).
  { intros service start_time Hrun Hfail.
    destruct (run_live_outcome E _ _ _ _ _ _ _ Hrun)
      as (_ & _ & _ & [(Hs & _) | (_ & msg & Hm & _)]); [congruence|].
    rewrite Hm. discriminate. }
  destruct (safe_mode self && c_destructive config); [|apply Hlive].
  destruct (String.eqb (c_safe_mode config) "mock"); [intros [= <- _]; discriminate|].
  destruct (String.eqb (c_safe_mode config) "skip"); [intros [= <- _]; discriminate|].
  apply Hlive.
Qed.

Lemma collect_failure_messages (self : EnhancedAPITester) (completed : list nat)
    (acc : list TestResult) (w : World) :
  Forall (fun t => t_status t = FAIL -> t_error_message t <> None) acc ->
  Forall (fun t => t_status t = FAIL -> t_error_message t <> None)
    (fst (collect E self completed acc w)).
Proof.
  revert acc w. induction completed as [|i rest IH]; intros acc w Hacc; simpl; [exact Hacc|].
  destruct (endpoint_configs self !! i) as [config|]; [|apply IH; exact Hacc].
  destruct (run_test E self config w) as [[result|e] w'] eqn:Hrun; apply IH;
    apply Forall_app; (split; [exact Hacc|]); constructor; try constructor.
  - eapply run_test_failure_message. exact Hrun.
  - intros _. discriminate.
Qed.

(** X9.  The runner hands its report to the analyzer when a test failed.  For
    the report of a run of a fresh tester, the analysis returns an issue
    list exactly when every failing outcome has an HTTP status: one
    transport failure or runner exception, recorded with status [null],
    makes the analysis raise. *)
Theorem analysis_of_a_run (today : Z) (self : EnhancedAPITester) (completed : list nat)
    (w : World) :
  Smoke.test_results self = [] ->
  ((exists l, fst (analyze_results today
                     (analyzer_of_run (fst (run_all_tests E self completed w)))) = Ok l)
   <-> Forall (fun t => t_status t = FAIL -> t_http_status t <> None)
         (fst (run_all_tests E self completed w))).
Proof.
  intros Hfresh. apply analysis_of_report.
  unfold run_all_tests.
  pose proof (collect_failure_messages self completed (Smoke.test_results self) w) as H.
  destruct (collect E self completed (Smoke.test_results self) w) as [results w']. simpl in *.
  apply sort_Forall. apply H. rewrite Hfresh. constructor.
Qed.

(** The count kept for a service is the number of issues of that service. *)
Lemma service_counts_from (issues : list Issue) (counts : gmap string nat) (s : string) :
  PyDict.get
    (foldl (fun counts issue =>
              <[i_service issue := (PyDict.get (counts !! i_service issue) 0 + 1)%nat]> counts)
       counts issues !! s) 0%nat
  = (PyDict.get (counts !! s) 0
     + length (List.filter (fun i => String.eqb (i_service i) s) issues))%nat.
Proof.
  revert counts. induction issues as [|issue rest IH]; intros counts; simpl; [lia|].
  rewrite IH. destruct (String.eqb_spec (i_service issue) s) as [Heq|Hne].
  - rewrite Heq. rewrite lookup_insert_eq. simpl. lia.
  - rewrite lookup_insert_ne by exact Hne. lia.
Qed.

Lemma service_counts_none (issues : list Issue) (counts : gmap string nat) (s : string) :
  foldl (fun counts issue =>
           <[i_service issue := (PyDict.get (counts !! i_service issue) 0 + 1)%nat]> counts)
    counts issues !! s = None
  <-> counts !! s = None /\ Forall (fun i => i_service i <> s) issues.
Proof.
  revert counts. induction issues as [|issue rest IH]; intros counts; simpl.
  - split; [intros H; split; [exact H | constructor] | intros [H _]; exact H].
  - rewrite IH. destruct (String.eqb_spec (i_service issue) s) as [Heq|Hne].
    + rewrite Heq at 1. rewrite lookup_insert_eq. split; [intros [H _]; discriminate|].
      intros [_ H]. apply Forall_cons in H. destruct H as [H _]. contradiction.
    + rewrite lookup_insert_ne by exact Hne. split.
      * intros [H1 H2]. split; [exact H1 | constructor; assumption].
      * intros [H1 H2]. apply Forall_cons in H2. split; [exact H1 | apply H2].
Qed.

(** X8.  In the summary of an analysis the count of each service is the number
    of its issues, and a service has an entry exactly when it has an
    issue. *)
Theorem service_counts_count (issues : list Issue) (s : string) :
  PyDict.get (service_counts issues !! s) 0%nat
  = length (List.filter (fun i => String.eqb (i_service i) s) issues)
  /\ (service_counts issues !! s = None <-> Forall (fun i => i_service i <> s) issues).
Proof.
  split; [apply service_counts_from|].
  unfold service_counts. rewrite service_counts_none.
  split; [intros [_ H]; exact H | intros H; split; [reflexivity | exact H]].
Qed.

(** The run exits with 0 exactly when no outcome is FAIL; skipped and
    mocked outcomes do not fail a run. *)
Theorem exit_code_zero_iff (results : list TestResult) :
  exit_code results = 0 <-> Forall (fun t => t_status t <> FAIL) results.
Proof.
  unfold exit_code, count_status.
  assert (Hlen : length (List.filter (fun r => status_eqb (t_status r) FAIL) results) = 0%nat
                 <-> Forall (fun t => t_status t <> FAIL) results).
  { induction results as [|t rest IH]; simpl; [split; [constructor | reflexivity]|].
    destruct (t_status t) eqn:Hs; simpl.
    - rewrite IH. split; [intros H; constructor; [rewrite Hs; discriminate | exact H]|].
      intros H. apply Forall_cons in H. apply H.
    - split; [discriminate|]. intros H. apply Forall_cons in H. destruct H as [H _].
      contradiction.
    - rewrite IH. split; [intros H; constructor; [rewrite Hs; discriminate | exact H]|].
      intros H. apply Forall_cons in H. apply H. }
  rewrite <- Hlen.
  destruct (length (List.filter (fun r => status_eqb (t_status r) FAIL) results));
    simpl; split; intros H; (reflexivity || discriminate).
Qed.

End PipelineRun.

Section TransportFailures.

Import Smoke Analyze Report.

(** C2.  Fails on the code.  An outcome whose HTTP status is recorded as
    [null], which is the claim's own input and what the runner writes for
    every transport failure, has no severity: [determine_severity] orders
    [None] against 500 and raises [TypeError], whatever the message says.
    No issue is created, and a triage run over a report that starts with
    such a failing outcome returns no issue list. *)
Theorem connection_failure_null_status_raises
    (today : Z) (result : Result) (issue_id : Z) (msg : string) (rest : list Result) :
  r_status result = "FAIL" ->
  r_http_status result = Some None ->
  r_error_message result = Some (Some msg) ->
  determine_severity result = Raise TypeError
  /\ create_issue today result issue_id = Raise TypeError
  /\ fst (analyze_results today (init (result :: rest))) = Raise TypeError.
Proof.
  intros Hfail Hnull Hmsg.
  assert (Hsev : determine_severity result = Raise TypeError).
  { unfold determine_severity. rewrite Hnull, Hmsg. reflexivity. }
  assert (Hcreate : forall k, create_issue today result k = Raise TypeError).
  { intros k. unfold create_issue. rewrite Hsev. reflexivity. }
  split; [exact Hsev|]. split; [apply Hcreate|].
  unfold analyze_results, init. simpl.
  rewrite Hfail, String.eqb_refl, Hcreate. reflexivity.
Qed.

(** The entry that the runner's report has for a failed test without HTTP
    status: the key is there, with [null]. *)
Lemma transport_failure_entry (E : Env) (self : EnhancedAPITester)
    (config : EndpointConfig) (w w' : World) (result : TestResult) :
  run_test E self config w = (Ok result, w') ->
  t_status result = FAIL ->
  t_http_status result = None ->
  r_status (report_entry result) = "FAIL"
  /\ r_http_status (report_entry result) = Some None
  /\ exists msg, r_error_message (report_entry result) = Some (Some msg).
Proof.
  intros Hrun Hfail Hnone. unfold report_entry. simpl.
  rewrite Hfail, Hnone. split; [reflexivity|]. split; [reflexivity|].
  pose proof (run_test_failure_message E self config w w' result Hrun Hfail) as Hmsg.
  destruct (t_error_message result) as [msg|]; [|contradiction].
  exists msg. reflexivity.
Qed.

End TransportFailures.

(** * Properties of the simple runner *)

Section SimpleFetch.

Import Smoke Simple.

Context (N : Net).

Lemma filter_le {A} (f : A -> bool) (l : list A) :
  (length (List.filter f l) <= length l)%nat.
Proof.
  induction l as [|x l IH]; simpl; [lia|]. destruct (f x); simpl; lia.
Qed.

Lemma family_two (code : Z) : code / 100 = 2 <-> 200 <= code < 300.
Proof.
  pose proof (Z.div_mod code 100 ltac:(lia)) as Hdm.
  pose proof (Z.mod_pos_bound code 100 ltac:(lia)) as Hb.
  split; intros H; [lia|].
  assert (H1 : 2 <= code / 100) by (apply Z.div_le_lower_bound; lia).
  assert (H2 : code / 100 < 3) by (apply Z.div_lt_upper_bound; lia).
  lia.
Qed.

(** X26.  A fetch passes exactly on an answer with a status from 200 to 299: a
    PASS outcome has such a status and no error message, every other
    outcome is FAIL with an error message (an error response keeps its
    status, a transport failure has none), and the outcome is recorded
    under the path as given. *)
Theorem fetch_endpoint_passes_on_2xx (base path : string) (timeout : Z) (w w' : World)
    (result : TestResult) :
  fetch_endpoint N base path timeout w = (Ok result, w') ->
  s_endpoint result = path
  /\ (s_status result = PASS \/ s_status result = FAIL)
  /\ (s_status result = PASS ->
        s_error_message result = None
        /\ exists code, s_http_status result = Some code /\ 200 <= code < 300)
  /\ (s_status result = FAIL -> exists msg, s_error_message result = Some msg)
  /\ (s_http_status result = None -> s_status result = FAIL).
Proof.
  unfold fetch_endpoint.
  destruct (negb (Simple.url_ok N _)); [discriminate|].
  destruct (Simple.urlopen N (sent w) _) as [reply took].
  intros [= <- _]. destruct reply as [code|code reason|reason|text]; simpl.
  - destruct (code / 100 =? 2) eqn:Hfam; simpl.
    + apply Z.eqb_eq, family_two in Hfam.
      split; [reflexivity|]. split; [left; reflexivity|].
      split; [intros _; split; [reflexivity | eauto]|].
      split; [discriminate | discriminate].
    + split; [reflexivity|]. split; [right; reflexivity|].
      split; [discriminate|]. split; [eauto | discriminate].
  - split; [reflexivity|]. split; [right; reflexivity|].
    split; [discriminate|]. split; [eauto | discriminate].
  - split; [reflexivity|]. split; [right; reflexivity|].
    split; [discriminate|]. split; [eauto | reflexivity].
  - split; [reflexivity|]. split; [right; reflexivity|].
    split; [discriminate|]. split; [eauto | reflexivity].
Qed.

Lemma load_items_slashes (items : list json) (out : list string) :
  load_items items = Ok out ->
  Forall (fun p => PyStr.startswith p "/" = true) out
  /\ length out = length items
  /\ load_items (map JStr out) = Ok out.
Proof.
  revert out. induction items as [|item rest IH]; intros out; simpl.
  - intros [= <-]. repeat split; constructor.
  - destruct item; try discriminate.
    destruct (load_items rest) as [out'|e]; [|discriminate].
    intros [= <-]. destruct (IH out' eq_refl) as (Hall & Hlen & Hre).
    assert (Hs : PyStr.startswith (if PyStr.startswith s "/" then s else "/" ++ s) "/"
                 = true).
    { destruct (PyStr.startswith s "/") eqn:H; [exact H|].
      apply (prefix_app "/" s). }
    split; [constructor; assumption|]. split; [simpl; rewrite Hlen; reflexivity|].
    simpl. rewrite Hre, Hs. reflexivity.
Qed.

(** X27.  Loading an endpoints file fails unless the data is a list of strings;
    when it succeeds there is one path per entry, every path starts with a
    slash, and loading the loaded list again changes nothing. *)
Theorem load_endpoints_normalises (data : json) (out : list string) :
  load_endpoints_from_file data = Ok out ->
  (exists items, data = JList items /\ length out = length items)
  /\ Forall (fun p => PyStr.startswith p "/" = true) out
  /\ load_endpoints_from_file (JList (map JStr out)) = Ok out.
Proof.
  destruct data; simpl; try discriminate.
  intros H. destruct (load_items_slashes _ _ H) as (Hall & Hlen & Hre).
  split; [eexists; split; [reflexivity | exact Hlen]|]. split; assumption.
Qed.

(** The simple runner exits with 0 exactly when every result passed. *)
Theorem simple_exit_code_zero_iff (results : list TestResult) :
  Simple.exit_code results = 0 <-> Forall (fun r => s_status r = PASS) results.
Proof.
  unfold Simple.exit_code, print_report.
  set (passed := length (List.filter (fun r => Report.status_eqb (s_status r) PASS) results)).
  assert (Hle : (passed <= length results)%nat) by apply filter_le.
  assert (Hall : passed = length results <-> Forall (fun r => s_status r = PASS) results).
  { subst passed. clear Hle. induction results as [|r rest IH]; simpl.
    - split; [constructor | reflexivity].
    - pose proof (filter_le (fun r => Report.status_eqb (s_status r) PASS) rest) as Hle.
      destruct (s_status r) eqn:Hs; simpl.
      + split.
        * intros [= H]. constructor; [exact Hs | apply IH; exact H].
        * intros H. apply Forall_cons in H. destruct H as [_ H]. f_equal. apply IH. exact H.
      + split; [intros H; lia|]. intros H. apply Forall_cons in H. destruct H as [H _].
        congruence.
      + split; [intros H; lia|]. intros H. apply Forall_cons in H. destruct H as [H _].
        congruence. }
  rewrite <- Hall.
  destruct (Z.of_nat (length results) - Z.of_nat passed =? 0) eqn:Hz.
  - apply Z.eqb_eq in Hz. split; [intros _; lia | reflexivity].
  - apply Z.eqb_neq in Hz. split; [discriminate | intros H; lia].
Qed.

End SimpleFetch.

Section SimpleOrder.

Import Smoke Simple.

#[local] Set Warnings "-clear-no-such-hyp".

Context (N : Net).








End SimpleOrder.

(** * Instances *)

Section TriageInstances.

Import Analyze Samples.

Lemma triage_scores_and_bands_witness :
  Forall (fun issue => 50 <= i_priority_score issue <= 100
                       /\ i_priority issue <> P3
                       /\ base_turnaround (i_priority issue) <= 7)
    (issues (snd (analyze_results a_day (init [outcome_404; outcome_pass; outcome_500])))).
Proof.
  apply (triage_scores_and_bands a_day [outcome_404; outcome_pass; outcome_500]).
  reflexivity.
Defined.

Lemma triage_sorted_by_score_witness :
  StronglySorted (fun a b => i_priority_score b <= i_priority_score a)
    (issues (snd (analyze_results a_day (init [outcome_404; outcome_pass; outcome_500])))).
Proof.
  apply (triage_sorted_by_score a_day (init [outcome_404; outcome_pass; outcome_500])).
  reflexivity.
Defined.

Lemma triage_counts_and_numbers_witness :
  let l := issues (snd (analyze_results a_day (init [outcome_404; outcome_pass; outcome_500]))) in
  length l = 2%nat
  /\ Permutation (map i_id l)
       (map (fun k => Report.issue_name (1 + Z.of_nat k)) (seq 0 (length l)))
  /\ NoDup (map i_id l).
Proof.
  apply (triage_counts_and_numbers a_day [outcome_404; outcome_pass; outcome_500]).
  reflexivity.
Defined.

Lemma severity_monotone_in_status_witness :
  exists s1 s2,
    determine_severity (mkResult "FAIL" "radarr" "/api/radarr/movie" "GET"
                          (Some (Some "Not Found")) (Some (Some 404))) = Ok s1
    /\ determine_severity (mkResult "FAIL" "radarr" "/api/radarr/movie" "GET"
                             (Some (Some "Not Found")) (Some (Some 500))) = Ok s2
    /\ Report.severity_rank s1 <= Report.severity_rank s2.
Proof.
  apply (severity_monotone_in_status "FAIL" "radarr" "/api/radarr/movie" "GET" "Not Found"
           404 500). lia.
Defined.

Lemma turnaround_antitone_in_score_witness :
  base_turnaround (score_to_priority 100) <= base_turnaround (score_to_priority 75).
Proof. apply (turnaround_antitone_in_score 75 100). lia. Defined.

Lemma null_status_aborts_analysis_witness :
  exists e, fst (analyze_results a_day (init [outcome_404; outcome_refused_null])) = Raise e.
Proof.
  apply (null_status_aborts_analysis a_day (init [outcome_404; outcome_refused_null])
           outcome_refused_null); [right; left; reflexivity | reflexivity | reflexivity].
Defined.

Lemma find_file_location_ignores_query_witness :
  find_file_location "sonarr" ("/api/sonarr/history/7" ++ "?" ++ "from=/queue/")
  = find_file_location "sonarr" "/api/sonarr/history/7".
Proof.
  apply (find_file_location_ignores_query "sonarr" "/api/sonarr/history/7" "from=/queue/").
  reflexivity.
Defined.

Lemma service_counts_count_witness :
  PyDict.get
    (Report.service_counts
       (issues (snd (analyze_results a_day (init [outcome_404; outcome_500; outcome_404]))))
     !! "radarr") 0%nat = 2%nat
  /\ Report.service_counts
       (issues (snd (analyze_results a_day (init [outcome_404; outcome_500; outcome_404]))))
     !! "prowlarr" = None.
Proof.
  destruct (service_counts_count
              (issues (snd (analyze_results a_day
                              (init [outcome_404; outcome_500; outcome_404])))) "radarr")
    as [Hcount _].
  destruct (service_counts_count
              (issues (snd (analyze_results a_day
                              (init [outcome_404; outcome_500; outcome_404])))) "prowlarr")
    as [_ Hnone].
  split; [rewrite Hcount; reflexivity|].
  apply Hnone. vm_compute. repeat constructor; discriminate.
Defined.


End TriageInstances.

Section RunnerInstances.

Import Smoke Samples MoreSamples Discovery.

Lemma run_test_skips_exactly_when_gated_witness :
  exists result w',
    run_test offline (tester true [add_series]) add_series fresh_world = (Ok result, w')
    /\ (t_status result = SKIPPED <->
          safe_mode (tester true [add_series]) = true /\ c_destructive add_series = true
          /\ (c_safe_mode add_series = "mock" \/ c_safe_mode add_series = "skip"))
    /\ (t_status result = SKIPPED -> w' = fresh_world /\ t_safety_notes result <> None)
    /\ (t_status result <> SKIPPED -> t_safety_notes result = None).
Proof.
  pose proof (run_test_skips_exactly_when_gated offline (tester true [add_series])
                add_series fresh_world) as H.
  destruct (run_test offline (tester true [add_series]) add_series fresh_world)
    as [[result|e] w'] eqn:Hrun.
  - exists result, w'. split; [reflexivity|]. exact (H w' result eq_refl).
  - vm_compute in Hrun. discriminate Hrun.
Defined.

Lemma run_test_pass_and_fail_witness :
  exists result w',
    run_test online (tester true [list_series]) list_series fresh_world = (Ok result, w')
    /\ t_status result = PASS
    /\ (t_status result = PASS ->
          t_error_message result = None
          /\ t_http_status result = Some (c_expected_status list_series)
          /\ t_validation_results result
             = [("status_code", true); ("json_format", true); ("response_time", true)]
          /\ exists body, t_response_body result = Some body
                          /\ json_loads_ok online body = true)
    /\ (t_status result = FAIL ->
          exists msg, t_error_message result = Some msg /\ msg <> "").
Proof.
  pose proof (run_test_pass_and_fail online (tester true [list_series]) list_series
                fresh_world) as H.
  destruct (run_test online (tester true [list_series]) list_series fresh_world)
    as [[result|e] w'] eqn:Hrun.
  - exists result, w'. split; [reflexivity|].
    split; [vm_compute in Hrun; injection Hrun as <- _; reflexivity|].
    exact (H w' result eq_refl).
  - vm_compute in Hrun. discriminate Hrun.
Defined.

Lemma get_id_for_service_settles_witness :
  get_id_for_service online client "sonarr"
    (snd (get_id_for_service online client "sonarr" fresh_world))
  = get_id_for_service online client "sonarr" fresh_world.
Proof.
  apply (get_id_for_service_settles online client "sonarr" fresh_world).
  eexists. vm_compute. reflexivity.
Defined.

(** Offline the fallback identifier is not stored: the next lookup asks
    the network again. *)
Example fallback_is_not_cached :
  fst (get_id_for_service offline client "sonarr" fresh_world) = "test_series_123"
  /\ id_cache (snd (get_id_for_service offline client "sonarr" fresh_world)) !! "sonarr" = None
  /\ length (sent (snd (get_id_for_service offline client "sonarr"
                          (snd (get_id_for_service offline client "sonarr" fresh_world)))))
     = 2%nat.
Proof. repeat split; vm_compute; reflexivity. Qed.

Lemma destructive_under_prefix_witness :
  _is_destructive_operation "post" ("/api/sabnzbd" ++ "/queue/pause" ++ "") (mkOperation None None)
  = true.
Proof.
  apply (destructive_under_prefix "post" "/queue/pause" "/api/sabnzbd" "" (mkOperation None None)).
  reflexivity.
Defined.

Lemma destructive_ignores_case_witness :
  _is_destructive_operation (PyStr.upper "post") (PyStr.upper "/queue/Pause")
    (mkOperation None None)
  = _is_destructive_operation "post" "/queue/Pause" (mkOperation None None).
Proof.
  apply (destructive_ignores_case "post" "/queue/Pause" (mkOperation None None));
    reflexivity.
Defined.

Lemma tester_check_implies_classifier_witness :
  _is_destructive_operation "POST" "/api/sabnzbd/queue/pause" (mkOperation None None) = true.
Proof.
  apply (tester_check_implies_classifier "POST" "/api/sabnzbd/queue/pause"
           (mkOperation None None)); reflexivity.
Defined.

(** The tester's check alone calls a command endpoint destructive. *)
Example command_only_for_tester :
  is_destructive_operation "POST" "/api/sonarr/command" = true
  /\ _is_destructive_operation "POST" "/api/sonarr/command" (mkOperation None None) = false.
Proof. split; reflexivity. Qed.

Example series_spec_configs :
  map (fun c => (c_name c, c_method c, c_path c, c_destructive c, c_safe_mode c))
    (generate_endpoint_configs (fun url => url) "sonarr" (Some series_spec))
  = [("removeSeries", "DELETE", "/api/v3/series/{id}", true, "mock");
     ("GET /api/v3/series", "GET", "/api/v3/series", false, "allow")].
Proof. vm_compute. reflexivity. Qed.

Lemma remove_series_generated :
  In remove_series (generate_endpoint_configs (fun url => url) "sonarr" (Some series_spec)).
Proof. left. vm_compute. reflexivity. Qed.

Lemma discovery_yields_live_operations_witness :
  exists path path_data method method_data,
    In (path, path_data) (paths series_spec)
    /\ In (method, method_data) path_data
    /\ md_deprecated method_data <> Some true
    /\ In (PyStr.lower method) http_methods
    /\ c_method remove_series = PyStr.upper method
    /\ c_destructive remove_series
       = _is_destructive_operation method path (md_operation method_data)
    /\ c_safe_mode remove_series = (if c_destructive remove_series then "mock" else "allow")
    /\ c_expected_status remove_series = 200
    /\ c_path_params remove_series <> Some []
    /\ forall params key value,
         c_path_params remove_series = Some params -> In (key, value) params ->
         value = PStr ("test_" ++ key ++ "_123").
Proof.
  apply (discovery_yields_live_operations (fun url => url) "sonarr" series_spec remove_series).
  left. vm_compute. reflexivity.
Defined.

Lemma discovered_destructive_never_sent_witness :
  snd (run_test offline (tester true []) (with_service_path "sonarr" remove_series) fresh_world)
  = fresh_world
  /\ exists result,
       fst (run_test offline (tester true []) (with_service_path "sonarr" remove_series)
              fresh_world) = Ok result
       /\ t_status result = SKIPPED
       /\ t_safety_notes result = Some "Mocked in safe mode".
Proof.
  apply (discovered_destructive_never_sent offline (fun url => url) (tester true []) "sonarr"
           series_spec (with_service_path "sonarr" remove_series) fresh_world).
  - left. vm_compute. reflexivity.
  - reflexivity.
  - right. reflexivity.
Defined.

Lemma audiobooks_prefix_once_witness :
  PyStr.startswith (full_path_of "readarr_audiobooks" "/api/v1" "/book") "/api/readarr-audiobooks/"
  = true
  /\ service_path "readarr_audiobooks" (full_path_of "readarr_audiobooks" "/api/v1" "/book")
     = full_path_of "readarr_audiobooks" "/api/v1" "/book".
Proof.
  apply (proj2 (audiobooks_prefix_once "/api/v1" "/book")). reflexivity.
Defined.

Example audiobooks_paths :
  full_path_of "readarr_audiobooks" "/api/v1" "/book" = "/api/readarr-audiobooks/v1/book"
  /\ full_path_of "readarr_audiobooks" "" "/book" = "/api/readarr-audiobooks/book"
  /\ full_path_of "readarr_audiobooks" "" "/api/readarr-audiobooks/book"
     = "/api/readarr-audiobooks/book".
Proof. repeat split; reflexivity. Qed.

Lemma service_path_idempotent_witness :
  PyStr.startswith (service_path "sonarr" "/series") "/api/sonarr" = true
  /\ service_path "sonarr" (service_path "sonarr" "/series") = service_path "sonarr" "/series".
Proof. apply (service_path_idempotent "sonarr" "/series"). reflexivity. Defined.

Lemma required_fields_by_body_witness :
  Validator._validate_required_fields loads_sample (body_response "{id, title}") ["id"; "name"]
  = Ok false
  /\ Validator._validate_required_fields loads_sample (body_response "7") ["id"]
     = Raise TypeError.
Proof.
  destruct (required_fields_by_body loads_sample (body_response "{id, title}") ["id"; "name"])
    as (Hdict & _ & _).
  destruct (required_fields_by_body loads_sample (body_response "7") ["id"])
    as (_ & _ & Hnum).
  split.
  - rewrite (Hdict [("id", JInt 1); ("title", JStr "x")]); reflexivity.
  - rewrite (Hnum (JInt 7)); [reflexivity | reflexivity | right; right; eexists; reflexivity].
Defined.

Lemma client_base_and_accept_witness :
  (forall t, base_url (HTTPClient_init "http://host//" 10 (Some [("Accept", "text/html")]))
             <> t ++ "/")
  /\ headers (HTTPClient_init "http://host//" 10 (Some [("Accept", "text/html")]))
     = [("Accept", "text/html")].
Proof.
  destruct (client_base_and_accept "http://host//" 10 (Some [("Accept", "text/html")]))
    as (Hbase & _ & _ & Hsame).
  split; [exact Hbase|].
  apply (Hsame [("Accept", "text/html")] "text/html"); [reflexivity | left; reflexivity].
Defined.

Lemma run_all_tests_length_witness :
  length (fst (run_all_tests offline (tester true [get_sabnzbd_queue_item; pause_sabnzbd_queue])
                 [1; 0]%nat fresh_world)) = 2%nat.
Proof.
  apply (run_all_tests_length offline
           (tester true [get_sabnzbd_queue_item; pause_sabnzbd_queue]) [1; 0]%nat fresh_world).
  - reflexivity.
  - apply perm_swap.
Defined.

Lemma run_all_tests_catalog_order_witness :
  Forall2 (fun c result => t_test_name result = c_name c /\ t_endpoint result = c_path c)
    default_base_cases
    (fst (run_all_tests online (tester true default_base_cases) [3; 0; 5; 1; 4; 2]%nat
            fresh_world)).
Proof.
  apply (run_all_tests_catalog_order online (tester true default_base_cases)).
  - reflexivity.
  - intros url. reflexivity.
  - apply (bool_decide_unpack _). vm_compute. exact I.
  - repeat constructor; left; reflexivity.
  - apply (bool_decide_unpack _). vm_compute. exact I.
Defined.

Lemma analysis_of_a_run_witness :
  (exists l, fst (Analyze.analyze_results a_day
                    (Report.analyzer_of_run
                       (fst (run_all_tests offline (tester true [list_series; pause_sabnzbd_queue])
                               [0; 1]%nat fresh_world)))) = Ok l)
  <-> Forall (fun t => t_status t = FAIL -> t_http_status t <> None)
        (fst (run_all_tests offline (tester true [list_series; pause_sabnzbd_queue])
                [0; 1]%nat fresh_world)).
Proof.
  apply (analysis_of_a_run offline a_day (tester true [list_series; pause_sabnzbd_queue])
           [0; 1]%nat fresh_world). reflexivity.
Defined.

(** Offline, the one live case fails without a status and the analysis of
    the report raises; online the same run gives a report that the
    analyzer accepts. *)
Example analysis_offline_and_online :
  fst (Analyze.analyze_results a_day
         (Report.analyzer_of_run
            (fst (run_all_tests offline (tester true [list_series; pause_sabnzbd_queue])
                    [0; 1]%nat fresh_world)))) = Raise TypeError
  /\ fst (Analyze.analyze_results a_day
            (Report.analyzer_of_run
               (fst (run_all_tests online (tester true [list_series; pause_sabnzbd_queue])
                       [0; 1]%nat fresh_world)))) = Ok [].
Proof. split; vm_compute; reflexivity. Qed.

End RunnerInstances.

Section TransportInstances.

Import Smoke Analyze Report Samples.

(** A refused connection on a base case of the default catalog, as the
    runner records it and as the analyzer reads it from the report: a
    failure without HTTP status whose message mentions a connection, on an
    endpoint that mentions none of "queue", "series" and "history". *)
Lemma connection_failure_null_status_raises_witness :
  let radarr_base :=
    default_config "Get Radarr Base" "/api/radarr" "GET" "Get Radarr base information" in
  exists result w',
    run_test offline (tester true default_base_cases) radarr_base fresh_world
    = (Ok result, w')
    /\ r_endpoint (report_entry result) = "/api/radarr"
    /\ r_error_message (report_entry result)
       = Some (Some "URLError: [Errno 111] Connection refused")
    /\ determine_severity (report_entry result) = Raise TypeError
    /\ create_issue a_day (report_entry result) 1 = Raise TypeError
    /\ fst (analyze_results a_day (analyzer_of_run [result])) = Raise TypeError.
Proof.
  intros radarr_base.
  destruct (run_test offline (tester true default_base_cases) radarr_base fresh_world)
    as [[result|e] w'] eqn:Hrun; [|vm_compute in Hrun; discriminate Hrun].
  exists result, w'. split; [reflexivity|].
  assert (Hres : t_status result = FAIL /\ t_http_status result = None
                 /\ t_endpoint result = "/api/radarr"
                 /\ t_error_message result
                    = Some "URLError: [Errno 111] Connection refused").
  { vm_compute in Hrun. injection Hrun as <- _. repeat split; reflexivity. }
  destruct Hres as (Hfail & Hnone & Hpath & Hmsg).
  split; [exact Hpath|].
  split; [unfold report_entry; simpl; rewrite Hmsg; reflexivity|].
  apply (connection_failure_null_status_raises a_day (report_entry result) 1
           "URLError: [Errno 111] Connection refused" []).
  - unfold report_entry. simpl. rewrite Hfail. reflexivity.
  - unfold report_entry. simpl. rewrite Hnone. reflexivity.
  - unfold report_entry. simpl. rewrite Hmsg. reflexivity.
Defined.

End TransportInstances.

Section SimpleInstances.

Import Smoke Simple MoreSamples.

Lemma fetch_endpoint_passes_on_2xx_witness :
  exists result w',
    fetch_endpoint simple_net "http://localhost:3000/" "/api/sabnzbd" 10 simple_world
    = (Ok result, w')
    /\ s_endpoint result = "/api/sabnzbd"
    /\ (s_status result = PASS \/ s_status result = FAIL)
    /\ (s_status result = PASS ->
          s_error_message result = None
          /\ exists code, s_http_status result = Some code /\ 200 <= code < 300)
    /\ (s_status result = FAIL -> exists msg, s_error_message result = Some msg)
    /\ (s_http_status result = None -> s_status result = FAIL).
Proof.
  pose proof (fetch_endpoint_passes_on_2xx simple_net "http://localhost:3000/"
                "/api/sabnzbd" 10 simple_world) as H.
  destruct (fetch_endpoint simple_net "http://localhost:3000/" "/api/sabnzbd" 10 simple_world)
    as [[result|e] w'] eqn:Hrun.
  - exists result, w'. split; [reflexivity|]. exact (H w' result eq_refl).
  - vm_compute in Hrun. discriminate Hrun.
Defined.

(** An answer 204 passes; an HTTP error 500 fails and keeps its status. *)
Example fetch_204_and_500 :
  (fun r => match r with
            | Ok t => Some (s_status t, s_http_status t, s_error_message t)
            | Raise _ => None
            end)
    (fst (fetch_endpoint simple_net "http://localhost:3000/" "/api/sabnzbd" 10 simple_world))
  = Some (PASS, Some 204, None)
  /\ (fun r => match r with
               | Ok t => Some (s_status t, s_http_status t, s_error_message t)
               | Raise _ => None
               end)
       (fst (fetch_endpoint simple_net "http://localhost:3000/" "/api/sonarr/queue" 10
               simple_world))
     = Some (FAIL, Some 500, Some "HTTPError: Internal Server Error").
Proof. split; vm_compute; reflexivity. Qed.

Lemma load_endpoints_normalises_witness :
  (exists items, JList [JStr "api/sonarr/queue"; JStr "/api/sabnzbd"] = JList items
                 /\ length ["/api/sonarr/queue"; "/api/sabnzbd"] = length items)
  /\ Forall (fun p => PyStr.startswith p "/" = true) ["/api/sonarr/queue"; "/api/sabnzbd"]
  /\ load_endpoints_from_file (JList (map JStr ["/api/sonarr/queue"; "/api/sabnzbd"]))
     = Ok ["/api/sonarr/queue"; "/api/sabnzbd"].
Proof.
  apply (load_endpoints_normalises (JList [JStr "api/sonarr/queue"; JStr "/api/sabnzbd"])).
  reflexivity.
Defined.

(** A file that is no list, or holds an entry that is no string, is
    refused. *)
Example load_endpoints_refuses :
  (exists msg, load_endpoints_from_file (JDict [("endpoints", JList [])])
               = Raise (ValueError msg))
  /\ (exists msg, load_endpoints_from_file (JList [JStr "/api/sabnzbd"; JInt 3])
                  = Raise (ValueError msg)).
Proof. split; eexists; reflexivity. Qed.


End SimpleInstances.

(** * The pool of workers *)

(** ** Programs and their runs *)

Section Programs.

Import Smoke Pool.

Context (E : Env).

Lemma run_bind {A B} (p : prog A) (f : A -> prog B) (w : World) :
  run E (bind p f) w
  = match run E p w with
    | (Ok a, w') => run E (f a) w'
    | (Raise e, w') => (Raise e, w')
    end.
Proof.
  revert w. induction p as [a|e|k IH|service k IH|service k IH|service id k IH|req k IH];
    intros w; simpl; try reflexivity; try apply IH.
Qed.

Lemma run_catch {A} (p : prog A) (h : exn -> prog A) (w : World) :
  run E (catch p h) w
  = match run E p w with
    | (Ok a, w') => (Ok a, w')
    | (Raise e, w') => run E (h e) w'
    end.
Proof.
  revert w. induction p as [a|e|k IH|service k IH|service k IH|service id k IH|req k IH];
    intros w; simpl; try reflexivity; try apply IH.
Qed.

(** Running a program is taking its steps one by one. *)
Lemma run_step {A} (p : prog A) (w : World) :
  run E p w = run E (fst (step E p w)) (snd (step E p w)).
Proof. destruct p; reflexivity. Qed.

Lemma always_impl {A} (sends sends' : Request -> Prop) (returns returns' : A -> Prop)
    (raises raises' : exn -> Prop) (p : prog A) :
  (forall req, sends req -> sends' req) ->
  (forall a, returns a -> returns' a) ->
  (forall e, raises e -> raises' e) ->
  always sends returns raises p -> always sends' returns' raises' p.
Proof.
  intros Hs Hr He.
  induction p as [a|e|k IH|service k IH|service k IH|service id k IH|req k IH]; simpl;
    auto.
  intros [Hreq Hk]. split; [apply Hs; exact Hreq|]. intros response. apply IH, Hk.
Qed.

Lemma always_bind {A B} (sends : Request -> Prop) (returns : B -> Prop)
    (raises : exn -> Prop) (p : prog A) (f : A -> prog B) :
  always sends (fun a => always sends returns raises (f a)) raises p ->
  always sends returns raises (bind p f).
Proof.
  induction p as [a|e|k IH|service k IH|service k IH|service id k IH|req k IH]; simpl;
    auto.
  intros [Hreq Hk]. split; [exact Hreq|]. intros response. apply IH, Hk.
Qed.

Lemma always_catch {A} (sends : Request -> Prop) (returns : A -> Prop)
    (raises : exn -> Prop) (p : prog A) (h : exn -> prog A) :
  always sends returns (fun e => always sends returns raises (h e)) p ->
  always sends returns raises (catch p h).
Proof.
  induction p as [a|e|k IH|service k IH|service k IH|service id k IH|req k IH]; simpl;
    auto.
  intros [Hreq Hk]. split; [exact Hreq|]. intros response. apply IH, Hk.
Qed.

(** A step keeps what holds on every path. *)
Lemma always_step {A} (sends : Request -> Prop) (returns : A -> Prop)
    (raises : exn -> Prop) (p : prog A) (w : World) :
  always sends returns raises p -> always sends returns raises (fst (step E p w)).
Proof.
  destruct p; simpl; auto. intros [_ Hk]. apply Hk.
Qed.

(** A program that ran to its end returned or raised what its paths
    allow. *)
Lemma always_run {A} (sends : Request -> Prop) (returns : A -> Prop)
    (raises : exn -> Prop) (p : prog A) (w : World) :
  always sends returns raises p ->
  match fst (run E p w) with
  | Ok a => returns a
  | Raise e => raises e
  end.
Proof.
  revert w. induction p as [a|e|k IH|service k IH|service k IH|service id k IH|req k IH];
    intros w; simpl; intros H.
  - exact H.
  - exact H.
  - apply IH, H.
  - apply IH, H.
  - apply IH, H.
  - apply IH, H.
  - apply IH, H.
Qed.

End Programs.

(** ** One worker at a time

    Run without another worker in between, and with a [json.loads] that
    raises nothing but [JSONDecodeError], the program of a test does what
    [Smoke.run_test] does. *)

Section OneWorker.

Import Smoke.

Context (F : Pool.Faults) (E : Env).

Hypothesis loads_fine : forall body, Pool.loads_raises F body = None.

Lemma run_request (self : HTTPClient) (method endpoint : string)
    (params : option (list (string * string))) (data : option string)
    (json_data : option (list (string * json))) (w : World) :
  Pool.run E (Pool.request E self method endpoint params data json_data) w
  = request E self method endpoint params data json_data w.
Proof.
  unfold Pool.request, request.
  destruct (prepare E self method endpoint params data json_data); reflexivity.
Qed.

Lemma run_fetch_real_id (client : HTTPClient) (service : string) (w : World) :
  Pool.run E (Pool._fetch_real_id E client service) w
  = (Ok (fst (_fetch_real_id E client service w)), snd (_fetch_real_id E client service w)).
Proof.
  unfold Pool._fetch_real_id, _fetch_real_id.
  destruct (id_endpoints !! service) as [endpoint|]; [|reflexivity].
  rewrite run_catch, run_bind, run_request.
  destruct (request E client "GET" endpoint None None None w) as [[response|e] w'];
    [|reflexivity].
  destruct (PyStr.truthy (resp_error response)); [reflexivity|].
  destruct (resp_status_code response) as [[|[]|]|]; try reflexivity.
  repeat match goal with
         | |- context [match ?c with xH => _ | _ => _ end] => destruct c; try reflexivity
         end.
Qed.

Lemma run_get_id_for_service (client : HTTPClient) (service : string) (w : World) :
  Pool.run E (Pool.get_id_for_service E client service) w
  = (Ok (fst (get_id_for_service E client service w)),
     snd (get_id_for_service E client service w)).
Proof.
  unfold Pool.get_id_for_service, get_id_for_service. cbn [Pool.run].
  destruct (id_cache w !! service) as [cached|] eqn:Hcache.
  - rewrite bool_decide_eq_true_2 by eauto. simpl. rewrite Hcache. simpl.
    rewrite Hcache. reflexivity.
  - rewrite bool_decide_eq_false_2 by (intros [v Hv]; discriminate).
    rewrite run_bind, run_catch, run_bind, run_fetch_real_id.
    destruct (_fetch_real_id E client service w) as [real_id w']. simpl.
    destruct real_id as [[|c i]|]; reflexivity.
Qed.

Lemma run_substitute (client : HTTPClient) (service : string)
    (path_params : list (string * param)) (endpoint_path : string) (w : World) :
  Pool.run E (Pool.substitute E client service path_params endpoint_path) w
  = (Ok (fst (substitute E client service path_params endpoint_path w)),
     snd (substitute E client service path_params endpoint_path w)).
Proof.
  revert endpoint_path w.
  induction path_params as [|[key value] rest IH]; intros endpoint_path w;
    cbn [Pool.substitute substitute]; [reflexivity|].
  destruct value as [s|n]; [|apply IH].
  destruct (PyStr.startswith s "test_"); [|apply IH].
  rewrite run_bind, run_get_id_for_service.
  destruct (get_id_for_service E client service w) as [real_id w']. simpl. apply IH.
Qed.

Lemma validate_fine (response : Response) (status_code : Z) (json_format : bool)
    (response_time : Z) :
  Pool.validate F E response status_code json_format response_time
  = Ok (validate E response status_code json_format response_time).
Proof.
  unfold Pool.validate, Pool._validate_json_format, validate, _validate_json_format.
  rewrite loads_fine. destruct (negb json_format); reflexivity.
Qed.

Lemma run_run_live (self : EnhancedAPITester) (config : EndpointConfig)
    (service : string) (start_time : Z) (w : World) :
  Pool.run E (Pool.run_live F E self config service start_time) w
  = run_live E self config service start_time w.
Proof.
  unfold Pool.run_live, run_live.
  rewrite run_bind, run_substitute.
  destruct (substitute E (http_client self) service _ (c_path config) w)
    as [endpoint_path w1]. cbn [fst snd].
  rewrite run_bind, run_request.
  destruct (request E (http_client self) (c_method config) endpoint_path
              (c_query_params config) None (c_body config) w1) as [[response|e] w2];
    [|reflexivity].
  rewrite validate_fine.
  destruct (PyStr.truthy (resp_error response)); [reflexivity|].
  destruct (forallb snd (validate E response (c_expected_status config) true 10000));
    reflexivity.
Qed.

(** The program of a test, run on its own, is [Smoke.run_test]. *)
Lemma run_run_test (self : EnhancedAPITester) (config : EndpointConfig) (w : World) :
  Pool.run E (Pool.run_test F E self config) w = run_test E self config w.
Proof.
  unfold Pool.run_test, run_test. simpl.
  destruct (safe_mode self && c_destructive config); [|apply run_run_live].
  destruct (String.eqb (c_safe_mode config) "mock"); [reflexivity|].
  destruct (String.eqb (c_safe_mode config) "skip"); [reflexivity|].
  apply run_run_live.
Qed.

End OneWorker.

(** ** What the workers send, under every interleaving *)

Section PoolSafety.

Import Smoke Pool Trace.

Context (F : Faults) (E : Env).

Lemma sends_as_bind (client : HTTPClient) {A B} (p : prog A) (f : A -> prog B) :
  sends_as client p -> (forall a, sends_as client (f a)) -> sends_as client (bind p f).
Proof.
  intros Hp Hf. apply always_bind.
  eapply always_impl; [| |intros e He; exact He|exact Hp]; [auto|].
  intros a _. apply Hf.
Qed.

Lemma sends_as_catch (client : HTTPClient) {A} (p : prog A) (h : exn -> prog A) :
  sends_as client p -> (forall e, sends_as client (h e)) -> sends_as client (catch p h).
Proof.
  intros Hp Hh. apply always_catch.
  eapply always_impl; [|intros a Ha; exact Ha| |exact Hp]; [auto|].
  intros e _. apply Hh.
Qed.

Lemma request_sends_as (client : HTTPClient) (method endpoint : string)
    (params : option (list (string * string))) (data : option string)
    (json_data : option (list (string * json))) :
  sends_as client (Pool.request E client method endpoint params data json_data).
Proof.
  unfold Pool.request.
  destruct (prepare E client method endpoint params data json_data) as [req|e] eqn:Hp;
    [|exact I].
  split; [|intros response; exact I]. eapply prepare_of_client. exact Hp.
Qed.

Lemma fetch_real_id_sends_as (client : HTTPClient) (service : string) :
  sends_as client (Pool._fetch_real_id E client service).
Proof.
  unfold Pool._fetch_real_id. destruct (id_endpoints !! service) as [endpoint|]; [|exact I].
  apply sends_as_catch; [|intros e; exact I].
  apply sends_as_bind; [apply request_sends_as|].
  intros response. destruct (PyStr.truthy _); [exact I|].
  destruct (resp_status_code response) as [[|[]|]|]; try exact I.
  repeat match goal with
         | |- context [match ?c with xH => _ | _ => _ end] => destruct c; try exact I
         end.
Qed.

Lemma get_id_for_service_sends_as (client : HTTPClient) (service : string) :
  sends_as client (Pool.get_id_for_service E client service).
Proof.
  unfold Pool.get_id_for_service. intros [|].
  - apply sends_as_bind; [|intros printed]; intros [id|]; exact I.
  - apply sends_as_bind; [|intros [real_id|]; exact I].
    apply sends_as_catch; [|intros e; exact I].
    apply sends_as_bind; [apply fetch_real_id_sends_as|].
    intros [[|c i]|]; exact I.
Qed.

Lemma substitute_sends_as (client : HTTPClient) (service : string)
    (path_params : list (string * param)) (endpoint_path : string) :
  sends_as client (Pool.substitute E client service path_params endpoint_path).
Proof.
  revert endpoint_path.
  induction path_params as [|[key value] rest IH]; intros endpoint_path;
    cbn [Pool.substitute]; [exact I|].
  destruct value as [s|n]; [|apply IH].
  destruct (PyStr.startswith s "test_"); [|apply IH].
  apply sends_as_bind; [apply get_id_for_service_sends_as|]. intros real_id. apply IH.
Qed.

Lemma run_test_sends_as (self : EnhancedAPITester) (config : EndpointConfig) :
  sends_as (http_client self) (Pool.run_test F E self config).
Proof.
  assert (Hlive : forall service start_time,
             sends_as (http_client self)
               (Pool.run_live F E self config service start_time)).
  { intros service start_time. unfold Pool.run_live.
    apply sends_as_bind; [apply substitute_sends_as|]. intros endpoint_path.
    apply sends_as_bind; [apply request_sends_as|]. intros response.
    destruct (Pool.validate F E response (c_expected_status config) true 10000)
      as [validation_results|e]; [|exact I].
    destruct (PyStr.truthy (resp_error response)); [intros t; exact I|].
    destruct (forallb snd validation_results); intros t; exact I. }
  unfold Pool.run_test. intros start_time.
  destruct (safe_mode self && c_destructive config); [|apply Hlive].
  destruct (String.eqb (c_safe_mode config) "mock"); [intros t; exact I|].
  destruct (String.eqb (c_safe_mode config) "skip"); [intros t; exact I|].
  apply Hlive.
Qed.

Lemma keeps_refl (client : HTTPClient) (w : World) : keeps client w w.
Proof.
  split; [auto|]. exists []. split; [symmetry; apply app_nil_r | constructor].
Qed.

Lemma keeps_trans (client : HTTPClient) (w1 w2 w3 : World) :
  keeps client w1 w2 -> keeps client w2 w3 -> keeps client w1 w3.
Proof.
  intros [Hc1 (n1 & Hs1 & Hf1)] [Hc2 (n2 & Hs2 & Hf2)]. split.
  - auto.
  - exists (n1 ++ n2)%list. split.
    + rewrite Hs2, Hs1, <- app_assoc. reflexivity.
    + apply Forall_app. split; assumption.
Qed.

(** One step of a worker: an entry may be written, over another worker's
    entry too, or a request of the client is sent. *)
Lemma step_keeps (client : HTTPClient) {A} (p : prog A) (w : World) :
  sends_as client p -> keeps client w (snd (step E p w)).
Proof.
  destruct p as [a|e|k|service k|service k|service id k|req k]; simpl;
    try (intros _; apply keeps_refl).
  - intros _. split; simpl.
    + intros s Hs. destruct (decide (service = s)) as [->|Hne].
      * rewrite lookup_insert_eq. eauto.
      * rewrite lookup_insert_ne by exact Hne. exact Hs.
    + exists []. split; [symmetry; apply app_nil_r | constructor].
  - intros [Hreq _]. split; simpl; [auto|].
    exists [req]. split; [reflexivity|]. constructor; [exact Hreq | constructor].
Qed.

Lemma run_keeps (client : HTTPClient) {A} (p : prog A) (w : World) :
  sends_as client p -> keeps client w (snd (run E p w)).
Proof.
  revert w. induction p as [a|e|k IH|service k IH|service k IH|service id k IH|req k IH];
    intros w Hp.
  - apply keeps_refl.
  - apply keeps_refl.
  - apply IH, Hp.
  - apply IH, Hp.
  - apply IH, Hp.
  - rewrite run_step. eapply keeps_trans; [apply (step_keeps client _ w Hp)|].
    apply IH. exact Hp.
  - rewrite run_step. eapply keeps_trans; [apply (step_keeps client _ w Hp)|].
    apply IH. apply Hp.
Qed.

Lemma exec_keeps (client : HTTPClient) {A} (schedule : list nat) (futures : list (prog A))
    (w : World) :
  Forall (sends_as client) futures ->
  keeps client w (snd (exec E schedule futures w))
  /\ Forall (sends_as client) (fst (exec E schedule futures w)).
Proof.
  revert futures w. induction schedule as [|i rest IH]; intros futures w Hall; simpl.
  - split; [apply keeps_refl | exact Hall].
  - destruct (futures !! i) as [p|] eqn:Hp; [|apply IH; exact Hall].
    assert (Hsends : sends_as client p).
    { eapply Forall_lookup_1; eassumption. }
    pose proof (step_keeps client p w Hsends) as Hstep.
    pose proof (always_step E _ _ _ p w Hsends) as Hnext.
    destruct (step E p w) as [p' w']. simpl in Hstep, Hnext.
    destruct (IH (<[i := p']> futures) w') as [Hk Hf].
    { apply Forall_insert; assumption. }
    split; [eapply keeps_trans; eassumption | exact Hf].
Qed.

Lemma finish_keeps (client : HTTPClient) {A} (futures : list (prog A)) (w : World) :
  Forall (sends_as client) futures -> keeps client w (snd (finish E futures w)).
Proof.
  revert w. induction futures as [|p rest IH]; intros w Hall; simpl.
  - apply keeps_refl.
  - apply Forall_cons in Hall. destruct Hall as [Hp Hall].
    pose proof (run_keeps client p w Hp) as H1.
    destruct (run E p w) as [r w1]. simpl in H1.
    pose proof (IH w1 Hall) as H2.
    destruct (finish E rest w1) as [rs w2]. simpl in *.
    eapply keeps_trans; eassumption.
Qed.

(** X12.  However the steps of the workers are interleaved, every request
    sent during a run, the look-ups of identifiers included, goes to a
    URL under the base URL of the client and carries the client's
    timeout, and no service loses its entry in the identifier cache.  (The
    identifier of an entry can change: see [cache_entry_replaced].) *)
Theorem pool_requests_stay_on_base (self : EnhancedAPITester) (concurrency : Z)
    (schedule completed : list nat) (w : World) :
  (forall service,
      is_Some (id_cache w !! service) ->
      is_Some (id_cache (snd (Pool.run_all_tests F E self concurrency schedule completed w))
                 !! service))
  /\ exists new,
       sent (snd (Pool.run_all_tests F E self concurrency schedule completed w))
       = (sent w ++ new)%list
       /\ Forall (fun req =>
                    String.prefix (base_url (http_client self)) (req_url req) = true
                    /\ req_timeout req = timeout (http_client self)) new.
Proof.
  change (keeps (http_client self) w
            (snd (Pool.run_all_tests F E self concurrency schedule completed w))).
  unfold Pool.run_all_tests.
  destruct (banner_raises F); [apply keeps_refl|].
  destruct (concurrency <=? 0); [apply keeps_refl|].
  assert (Hall : Forall (sends_as (http_client self))
                   (map (Pool.run_test F E self) (endpoint_configs self))).
  { apply Forall_map, Forall_forall. intros config _. apply run_test_sends_as. }
  destruct (exec_keeps (http_client self) schedule _ w Hall) as [H1 Hall'].
  destruct (exec E schedule _ w) as [futures' w1]. simpl in H1, Hall'.
  pose proof (finish_keeps (http_client self) futures' w1 Hall') as H2.
  destruct (finish E futures' w1) as [results w2]. simpl in H2.
  assert (H : keeps (http_client self) w w2) by (eapply keeps_trans; eassumption).
  destruct (Pool.collect F results completed (test_results self)); exact H.
Qed.

End PoolSafety.

(** ** The outcomes listed for a run *)

Section PoolResults.

Import Smoke Pool.

Context (F : Faults) (E : Env).

Lemma exec_length {A} (schedule : list nat) (futures : list (prog A)) (w : World) :
  length (fst (exec E schedule futures w)) = length futures.
Proof.
  revert futures w. induction schedule as [|i rest IH]; intros futures w; simpl;
    [reflexivity|].
  destruct (futures !! i) as [p|]; [|apply IH].
  destruct (step E p w) as [p' w']. rewrite IH. apply length_insert.
Qed.

Lemma finish_length {A} (futures : list (prog A)) (w : World) :
  length (fst (finish E futures w)) = length futures.
Proof.
  revert w. induction futures as [|p rest IH]; intros w; simpl; [reflexivity|].
  destruct (run E p w) as [r w1]. specialize (IH w1).
  destruct (finish E rest w1) as [rs w2]. simpl in *. rewrite IH. reflexivity.
Qed.

(** What the steps keep for each future, the schedule keeps for the
    pool. *)
Lemma exec_Forall2 {A C} (P : C -> prog A -> Prop) (schedule : list nat)
    (cases : list C) (futures : list (prog A)) (w : World) :
  (forall c p w0, P c p -> P c (fst (step E p w0))) ->
  Forall2 P cases futures ->
  Forall2 P cases (fst (exec E schedule futures w)).
Proof.
  intros Hstep. revert futures w.
  induction schedule as [|i rest IH]; intros futures w Hall; simpl; [exact Hall|].
  destruct (futures !! i) as [p|] eqn:Hp; [|apply IH; exact Hall].
  destruct (Forall2_lookup_r _ _ _ _ _ Hall Hp) as (c & Hc & HP).
  pose proof (Hstep c p w HP) as Hnext.
  destruct (step E p w) as [p' w']. simpl in Hnext.
  apply IH. rewrite <- (list_insert_id cases i c Hc).
  apply Forall2_insert; assumption.
Qed.

Lemma finish_Forall2 {A C} (P : C -> prog A -> Prop) (Q : C -> res A -> Prop)
    (cases : list C) (futures : list (prog A)) (w : World) :
  (forall c p w0, P c p -> Q c (fst (run E p w0))) ->
  Forall2 P cases futures ->
  Forall2 Q cases (fst (finish E futures w)).
Proof.
  intros Hrun Hall. revert w.
  induction Hall as [|c p cases futures HP _ IH]; intros w; simpl; [constructor|].
  pose proof (Hrun c p w HP) as Hr.
  destruct (run E p w) as [r w1]. specialize (IH w1).
  destruct (finish E futures w1) as [rs w2]. simpl in *.
  constructor; assumption.
Qed.


(** When printing returns, the loop lists the outcome of each future, in
    the order of completion. *)
Lemma collect_printed (results : list (res TestResult)) (completed : list nat)
    (acc : list TestResult) :
  (forall listed result, print_raises F listed result = None) ->
  Forall (fun i => (i < length results)%nat) completed ->
  exists outcomes,
    Pool.collect F results completed acc = Ok (acc ++ outcomes)%list
    /\ Forall2 (fun i outcome => exists r, results !! i = Some r /\ outcome = outcome_of r)
         completed outcomes.
Proof.
  intros Hprint. revert acc.
  induction completed as [|i rest IH]; intros acc Hall; simpl.
  - exists []. split; [rewrite app_nil_r; reflexivity | constructor].
  - apply Forall_cons in Hall. destruct Hall as [Hi Hall].
    destruct (lookup_lt_is_Some_2 results i Hi) as [r Hr]. rewrite Hr.
    destruct r as [result|e]; rewrite Hprint.
    + destruct (IH (acc ++ [result])%list Hall) as (outcomes & Hc & Hf).
      exists (result :: outcomes). split.
      * rewrite Hc, <- app_assoc. reflexivity.
      * constructor; [|exact Hf]. exists (Ok result). split; [exact Hr | reflexivity].
    + destruct (IH (acc ++ [runner_exception e])%list Hall) as (outcomes & Hc & Hf).
      exists (runner_exception e :: outcomes). split.
      * rewrite Hc, <- app_assoc. reflexivity.
      * constructor; [|exact Hf]. exists (Raise e). split; [exact Hr | reflexivity].
Qed.

Lemma completed_in_range (n : nat) (completed : list nat) :
  Permutation completed (seq 0 n) -> Forall (fun i => (i < n)%nat) completed.
Proof.
  intros Hperm. eapply Permutation_Forall; [symmetry; exact Hperm|].
  apply Forall_forall. intros i Hi. apply elem_of_seq in Hi. lia.
Qed.


End PoolResults.

(** ** When the outcomes come back in catalog order, under every
    interleaving *)

Section PoolOrder.

Import Smoke Pool.

Context (F : Faults) (E : Env) (self : EnhancedAPITester) (concurrency : Z).

Hypothesis fresh : test_results self = [].
Hypothesis workers : 0 < concurrency.
Hypothesis urls_accepted : forall url, url_ok E url = true.
Hypothesis loads_fine : forall body, loads_raises F body = None.
Hypothesis banner_fine : banner_raises F = None.
Hypothesis print_fine : forall listed result, print_raises F listed result = None.
Hypothesis paths_differ : NoDup (map c_path (endpoint_configs self)).
Hypothesis paths_kept :
  Forall (fun c => c_path_params c = None
                   \/ (safe_mode self = true /\ c_destructive c = true
                       /\ (c_safe_mode c = "mock" \/ c_safe_mode c = "skip")))
    (endpoint_configs self).

(** On every path of a test that keeps its path, the test returns an
    outcome under the path and the name of its case, and raises
    nothing. *)
Lemma run_test_kept (c : EndpointConfig) :
  c_path_params c = None
  \/ (safe_mode self = true /\ c_destructive c = true
      /\ (c_safe_mode c = "mock" \/ c_safe_mode c = "skip")) ->
  always (fun _ => True)
    (fun result => t_endpoint result = c_path c /\ t_test_name result = c_name c)
    (fun _ => False) (Pool.run_test F E self c).
Proof.
  assert (Hlive : c_path_params c = None ->
            forall service start_time,
              always (fun _ => True)
                (fun result => t_endpoint result = c_path c /\ t_test_name result = c_name c)
                (fun _ => False) (Pool.run_live F E self c service start_time)).
  { intros Hnone service start_time. unfold Pool.run_live. rewrite Hnone.
    cbn [PyDict.get Pool.substitute bind].
    unfold Pool.request, prepare. rewrite urls_accepted. cbn [negb bind].
    split; [exact I|]. intros response. cbn [bind].
    rewrite (validate_fine F E loads_fine).
    destruct (PyStr.truthy (resp_error response)); [intros t; split; reflexivity|].
    destruct (forallb snd (Smoke.validate E response (c_expected_status c) true 10000));
      intros t; split; reflexivity. }
  intros Hkept. unfold Pool.run_test. intros start_time.
  destruct (safe_mode self && c_destructive c) eqn:Hgate.
  - destruct (String.eqb (c_safe_mode c) "mock") eqn:Hmock;
      [intros t; split; reflexivity|].
    destruct (String.eqb (c_safe_mode c) "skip") eqn:Hskip;
      [intros t; split; reflexivity|].
    destruct Hkept as [Hnone | (_ & _ & [Hm | Hs])].
    + apply Hlive. exact Hnone.
    + rewrite Hm in Hmock. discriminate.
    + rewrite Hs in Hskip. discriminate.
  - destruct Hkept as [Hnone | (Hsafe & Hd & _)]; [apply Hlive; exact Hnone|].
    rewrite Hsafe, Hd in Hgate. discriminate.
Qed.

(** X25.  When the paths of the catalog are pairwise different, no case
    has a placeholder substituted, no URL is rejected, [json.loads] raises
    nothing but [JSONDecodeError] and nothing that is printed raises, a
    run of a fresh tester with at least one worker returns the outcomes in
    catalog order, however the steps of the workers are interleaved and in
    whatever order the futures complete: the outcome at each position
    carries the name and the path of the case at that position. *)
Theorem pool_catalog_order (schedule completed : list nat) (w : World) :
  Permutation completed (seq 0 (length (endpoint_configs self))) ->
  exists results,
    fst (Pool.run_all_tests F E self concurrency schedule completed w) = Ok results
    /\ Forall2 (fun c result => t_test_name result = c_name c
                                /\ t_endpoint result = c_path c)
         (endpoint_configs self) results.
Proof.
  intros Hperm. unfold Pool.run_all_tests. rewrite banner_fine, fresh.
  destruct (Z.leb_spec concurrency 0) as [Hle|_]; [lia|].
  set (kept := fun (c : EndpointConfig) (p : prog TestResult) =>
                 always (fun _ => True)
                   (fun result => t_endpoint result = c_path c
                                  /\ t_test_name result = c_name c)
                   (fun _ => False) p).
  assert (Hsubmitted : Forall2 kept (endpoint_configs self)
                         (map (Pool.run_test F E self) (endpoint_configs self))).
  { apply Forall2_fmap_r, Forall_Forall2_diag.
    eapply Forall_impl; [exact paths_kept|]. intros c Hc. apply run_test_kept. exact Hc. }
  pose proof (exec_Forall2 E kept schedule _ _ w
                (fun c p w0 H => always_step E _ _ _ p w0 H) Hsubmitted) as Hexec.
  pose proof (exec_length E schedule
                (map (Pool.run_test F E self) (endpoint_configs self)) w) as Hlen1.
  destruct (exec E schedule _ w) as [futures' w1]. simpl in Hexec, Hlen1.
  pose proof (finish_Forall2 E kept
                (fun c r => match r with
                            | Ok result => t_endpoint result = c_path c
                                           /\ t_test_name result = c_name c
                            | Raise _ => False
                            end)
                _ _ w1 (fun c p w0 H => always_run E _ _ _ p w0 H) Hexec) as Hdone.
  pose proof (finish_length E futures' w1) as Hlen2.
  destruct (finish E futures' w1) as [results w2]. simpl in Hdone, Hlen2.
  rewrite Hlen1, length_map in Hlen2.
  assert (Hall : Forall (fun i => (i < length results)%nat) completed).
  { rewrite Hlen2. apply completed_in_range. exact Hperm. }
  destruct (collect_printed F results completed [] print_fine Hall) as (outcomes & Hc & Hf).
  rewrite Hc. simpl. eexists. split; [reflexivity|].
  apply (sorted_in_catalog_order self paths_differ completed outcomes Hperm).
  eapply Forall2_impl; [exact Hf|].
  intros i outcome (r & Hr & ->).
  destruct (Forall2_lookup_r _ _ _ _ _ Hdone Hr) as (c & Hcase & Hres).
  destruct r as [result|e]; [|contradiction].
  exists c. split; [exact Hcase|]. exact Hres.
Qed.

End PoolOrder.

(** ** The pool with one worker

    With one worker the tests run to their end one after another, in the
    order of submission.  When the futures are then listed in that order,
    [json.loads] raises nothing but [JSONDecodeError] and printing
    returns, the run is the run of [Smoke.run_all_tests]. *)

Section OneWorkerRun.

Import Smoke.

Context (F : Pool.Faults) (E : Env) (self : EnhancedAPITester).

Hypothesis loads_fine : forall body, Pool.loads_raises F body = None.
Hypothesis banner_fine : Pool.banner_raises F = None.
Hypothesis print_fine : forall listed result, Pool.print_raises F listed result = None.

Lemma collect_one_by_one (pre rest : list EndpointConfig) (acc : list TestResult)
    (w : World) :
  endpoint_configs self = (pre ++ rest)%list ->
  collect E self (seq (length pre) (length rest)) acc w
  = ((acc ++ map Pool.outcome_of
              (fst (Pool.finish E (map (Pool.run_test F E self) rest) w)))%list,
     snd (Pool.finish E (map (Pool.run_test F E self) rest) w)).
Proof.
  revert pre acc w. induction rest as [|c rest IH]; intros pre acc w Hconfigs;
    cbn [length seq collect map Pool.finish].
  - simpl. rewrite app_nil_r. reflexivity.
  - rewrite Hconfigs at 1. rewrite list_lookup_middle by reflexivity.
    rewrite (run_run_test F E loads_fine).
    assert (Hnext : endpoint_configs self = ((pre ++ [c]) ++ rest)%list).
    { rewrite <- app_assoc. exact Hconfigs. }
    pose proof (IH (pre ++ [c])%list) as IH'.
    rewrite length_app, Nat.add_1_r in IH'.
    destruct (run_test E self c w) as [[result|e] w1]; rewrite (IH' _ _ Hnext);
      destruct (Pool.finish E (map (Pool.run_test F E self) rest) w1) as [rs w2];
      cbn [fst snd map Pool.outcome_of]; rewrite <- app_assoc; reflexivity.
Qed.

Lemma collect_in_order (pre rest : list (res TestResult)) (acc : list TestResult) :
  Pool.collect F (pre ++ rest) (seq (length pre) (length rest)) acc
  = Ok (acc ++ map Pool.outcome_of rest)%list.
Proof.
  revert pre acc. induction rest as [|r rest IH]; intros pre acc;
    cbn [length seq Pool.collect map].
  - rewrite app_nil_r. reflexivity.
  - rewrite list_lookup_middle by reflexivity.
    pose proof (IH (pre ++ [r])%list) as IH'.
    rewrite length_app, Nat.add_1_r, <- app_assoc in IH'. cbn [app] in IH'.
    destruct r as [result|e]; rewrite print_fine, IH', <- app_assoc; reflexivity.
Qed.

Lemma one_worker_run (w : World) :
  Pool.run_all_tests F E self 1 [] (seq 0 (length (endpoint_configs self))) w
  = (Ok (fst (run_all_tests E self (seq 0 (length (endpoint_configs self))) w)),
     snd (run_all_tests E self (seq 0 (length (endpoint_configs self))) w)).
Proof.
  unfold Pool.run_all_tests, run_all_tests. rewrite banner_fine.
  cbn [Z.leb Z.compare Pool.exec].
  pose proof (collect_one_by_one [] (endpoint_configs self) (test_results self) w eq_refl)
    as Hseq.
  cbn [length] in Hseq. rewrite Hseq. clear Hseq.
  pose proof (finish_length E (map (Pool.run_test F E self) (endpoint_configs self)) w)
    as Hlen.
  destruct (Pool.finish E (map (Pool.run_test F E self) (endpoint_configs self)) w)
    as [results w2]. cbn [fst snd] in *.
  rewrite length_map in Hlen. rewrite <- Hlen.
  pose proof (collect_in_order [] results (test_results self)) as Hlist.
  cbn [length app] in Hlist. rewrite Hlist. reflexivity.
Qed.

End OneWorkerRun.

(** ** The pool on concrete inputs *)

Section PoolInstances.

Import Smoke Samples MoreSamples PoolSamples.

(** Two workers look up the identifier of one service at the same time:
    both find the cache empty and both fetch; the entry that the first
    one wrote ("0") is replaced by that of the second ("1"), and the two
    tests go to different series. *)
Example cache_entry_replaced :
  let self := tester true [get_series; get_episode] in
  let futures := map (Pool.run_test no_faults counting self) [get_series; get_episode] in
  id_cache (snd (Pool.exec counting [0; 0; 1; 1; 0; 0]%nat futures fresh_world)) !! "sonarr"
  = Some "0"
  /\ id_cache (snd (Pool.exec counting [0; 0; 1; 1; 0; 0; 1; 1]%nat futures fresh_world))
       !! "sonarr" = Some "1"
  /\ match fst (Pool.run_all_tests no_faults counting self 8
                  [0; 0; 1; 1; 0; 0; 1; 1]%nat [0; 1]%nat fresh_world) with
     | Ok results => map t_endpoint results
     | Raise _ => []
     end = ["/api/sonarr/series/0"; "/api/sonarr/episode/1"].
Proof. vm_compute. repeat split; reflexivity. Qed.

(** With one worker the second test finds the entry of the first. *)
Example cache_entry_shared :
  match fst (Pool.run_all_tests no_faults counting (tester true [get_series; get_episode])
               1 [] [0; 1]%nat fresh_world) with
  | Ok results => map t_endpoint results
  | Raise _ => []
  end = ["/api/sonarr/series/0"; "/api/sonarr/episode/0"].
Proof. vm_compute. reflexivity. Qed.

(** Printing the result of the one test raises: the handler lists a
    synthetic failure behind it, two outcomes for one case. *)
Example print_failure_adds_an_outcome :
  match fst (Pool.run_all_tests print_fails offline (tester true [list_series])
               8 [] [0]%nat fresh_world) with
  | Ok results => map (fun result => (t_test_name result, t_error_message result)) results
  | Raise _ => []
  end
  = [("List Series", Some "URLError: [Errno 111] Connection refused");
     ("unknown", Some "Runner exception: [Errno 32] Broken pipe")].
Proof. vm_compute. reflexivity. Qed.

(** An answer too deeply nested for [json.loads]: the test raises, and
    its case is listed as "unknown". *)
Example deep_answer_is_listed_unknown :
  match fst (Pool.run_all_tests deep_answers online (tester true [list_series])
               8 [] [0]%nat fresh_world) with
  | Ok results => map (fun result => (t_test_name result, t_endpoint result)) results
  | Raise _ => []
  end = [("unknown", "unknown")].
Proof. vm_compute. reflexivity. Qed.


Lemma pool_catalog_order_witness :
  exists results,
    fst (Pool.run_all_tests no_faults online (tester true default_base_cases) 8
           [3; 0; 3; 5; 1; 3]%nat [3; 0; 5; 1; 4; 2]%nat fresh_world) = Ok results
    /\ Forall2 (fun c result => t_test_name result = c_name c
                                /\ t_endpoint result = c_path c)
         default_base_cases results.
Proof.
  apply (pool_catalog_order no_faults online (tester true default_base_cases) 8).
  - reflexivity.
  - lia.
  - intros url. reflexivity.
  - intros body. reflexivity.
  - reflexivity.
  - intros listed result. reflexivity.
  - apply (bool_decide_unpack _). vm_compute. exact I.
  - repeat constructor; left; reflexivity.
  - apply (bool_decide_unpack _). vm_compute. exact I.
Defined.

End PoolInstances.
